(** * vscode_cobol: search-path construction, usage diagnostics and
      cache life cycle of the COBOL extension

    A shallow embedding of the parts of [extension.ts] that build the
    copybook search path ([isDirectory], [isFile], [isPathInWorkspace],
    [initExtensionSearchPaths]) and handle the cache in [activate] and
    [deactivateAsync], and of the usage provider that follows in the same
    source file from line 1010 on
    ([CobolUsageActionFixer.provideCodeActions],
    [CobolUsageProvider.updateDiagnostics], [setupCOBOLQuickParse]).

    Conventions.
    - A JavaScript string is a [string] that holds its UTF-8 encoding.
      Concatenation, equality and a prefix test against an ASCII literal
      are the same on the encoding; the length in UTF-16 code units is
      computed from the encoding ([JS.utf16_length]);
      [String.prototype.toLowerCase] is a function of the engine
      ([String_toLowerCase]), of which nothing is assumed.
    - A JavaScript number that holds a position, a length or a time in
      milliseconds is a [Z].
    - A JavaScript array is a [list]; a [Map] that is iterated is an
      association list in insertion order.
    - The file system and the clock are a world that is threaded through
      the calls. *)

From Stdlib Require Import ZArith String Ascii List Lia DecimalString.
From stdpp Require Import base gmap strings list.

Local Open Scope string_scope.
Local Open Scope list_scope.
Local Open Scope Z_scope.

(** ** JavaScript strings and arrays *)

Module JS.

(** [s.startsWith(p)]. *)
Definition startsWith (s p : string) : bool := String.prefix p s.

(** The number of bytes of [s]. It is zero exactly when [s.length] is,
    and at least one exactly when [s.length] is: the tests [length > 0],
    [length >= 1] and [length === 0] of the code are made on it. *)
Definition length (s : string) : Z := Z.of_nat (String.length s).

(** The UTF-16 code units that the character starting at a byte takes: a
    byte that continues a character (10xxxxxx) counts for nothing, the
    first byte of a four-byte character (11110xxx), which JavaScript
    keeps as a surrogate pair, counts 2, every other byte 1. *)
Definition utf16_units (c : ascii) : Z :=
  let n := N_of_ascii c in
  if ((128 <=? n) && (n <? 192))%N then 0
  else if (240 <=? n)%N then 2
  else 1.

(** [s.length]: the number of UTF-16 code units of the string whose
    UTF-8 encoding is [s]. *)
Fixpoint utf16_length (s : string) : Z :=
  match s with
  | EmptyString => 0
  | String c s' => utf16_units c + utf16_length s'
  end.

(** [arr.indexOf(elem)]: the position of the first element that is
    [===] to [elem], and [-1] when there is none. *)
Fixpoint indexOf (arr : list string) (elem : string) : Z :=
  match arr with
  | [] => -1
  | x :: arr' =>
      if String.eqb x elem then 0
      else let r := indexOf arr' elem in if r <? 0 then -1 else r + 1
  end.

(** [arr.filter((elem, pos) => f(elem, pos))], the callback receiving the
    position; [pos] is the position of the head of [arr]. *)
Fixpoint filter_from {A} (f : A -> Z -> bool) (arr : list A) (pos : Z)
  : list A :=
  match arr with
  | [] => []
  | x :: arr' =>
      if f x pos then x :: filter_from f arr' (pos + 1)
      else filter_from f arr' (pos + 1)
  end.

Definition filter {A} (f : A -> Z -> bool) (arr : list A) : list A :=
  filter_from f arr 0.

(** [arr.filter((elem, pos) => arr.indexOf(elem) === pos)] *)
Definition filter_first_index (arr : list string) : list string :=
  filter (fun elem pos => indexOf arr elem =? pos) arr.

(** The part of that filter that runs over [suf], once [pre] has been
    passed: [filter_first_index arr] is [keptFrom [] arr]. *)
Definition keptFrom (pre suf : list string) : list string :=
  filter_from (fun elem pos => indexOf (pre ++ suf) elem =? pos) suf
    (Z.of_nat (List.length pre)).

End JS.

(** ** The host: file system, clock, path functions, workspace *)

(** What [fs.statSync] returns: the two queries the code makes. *)
Record Stats := mkStats {
  Stats_isDirectory : bool;
  Stats_isFile : bool
}.

(** A workspace folder: [folder.name] and [folder.uri.fsPath]. *)
Record WorkspaceFolder := mkWorkspaceFolder {
  folder_name : string;
  uri_fsPath : string
}.

(** The fields of [ICOBOLSettings] that the code below reads. *)
Record ICOBOLSettings := mkSettings {
  disable_unc_copybooks_directories : bool;
  process_metadata_cache_on_start : bool
}.

(** Everything [initExtensionSearchPaths] imports from outside
    [extension.ts].
    - [statSync sdir w] is [fs.statSync(sdir)] in world [w]: [None] when the
      call throws (whatever the error), and the world after the call.
    - [Date_now] reads the clock.
    - [isDirectPath], [isNetworkPath] are the functions of [opencopybook],
      [path_join], [path_normalize] those of Node's [path].
    - [getWorkspaceFolders] is the function of [cobolfolders]
      ([None] for [undefined]).
    - [getCopybookdirs_defaults] is
      [VSCOBOLConfiguration.getCopybookdirs_defaults()]. *)
Class Host := {
  World : Type;
  statSync : string -> World -> option Stats * World;
  Date_now : World -> Z * World;
  isDirectPath : string -> bool;
  isNetworkPath : string -> bool;
  path_join : string -> string -> string;
  path_normalize : string -> string;
  getWorkspaceFolders : option (list WorkspaceFolder);
  getCopybookdirs_defaults : list string
}.

(** ** Construction of the copybook search path *)

Module SearchPath.

Section WithHost.
Context `{Host}.

(** [isDirectory] and [isFile]: the [try] block around [fs.statSync], the
    [catch] returning [false]. *)
Definition isDirectory (sdir : string) (w : World) : bool * World :=
  match statSync sdir w with
  | (Some f, w') => (if Stats_isDirectory f then true else false, w')
  | (None, w') => (false, w')
  end.

Definition isFile (sdir : string) (w : World) : bool * World :=
  match statSync sdir w with
  | (Some f, w') => (if Stats_isFile f then true else false, w')
  | (None, w') => (false, w')
  end.

(** [performance_now]: outside a browser it evaluates
    [require('performance-now').performance.now]; the module exports a
    function that has no [performance] property, so the expression throws
    and the [catch] returns [Date.now()]; in a browser it returns
    [Date.now()] as well. *)
Definition performance_now (w : World) : Z * World := Date_now w.

Definition isPathInWorkspace (ddir : string) : bool :=
  match getWorkspaceFolders with
  | None => false
  | Some ws =>
      let fullPath := path_normalize ddir in
      existsb (fun folder => String.eqb (uri_fsPath folder) fullPath) ws
  end.

(** The module-level variables of [extension.ts] that the function
    updates, the output channel, and the world. *)
Record State := mkState {
  world : World;
  fileSearchDirectory : list string;
  invalidSearchDirectory : list string;
  COBOLOutputChannel : list string
}.

(** A small state monad over [State]. *)
Definition M (A : Type) : Type := State -> A * State.

Definition ret {A} (a : A) : M A := fun s => (a, s).

Definition bind {A B} (c : M A) (k : A -> M B) : M B :=
  fun s => let (a, s') := c s in k a s'.

Definition exec {A} (c : M A) (s : State) : State := snd (c s).

End WithHost.

Declare Scope search_scope.
Delimit Scope search_scope with search.
Notation "x <- c ;; k" := (bind c (fun x => k))
  (at level 100, c at next level, right associativity) : search_scope.
Notation "c ;; k" := (bind c (fun _ => k))
  (at level 100, right associativity) : search_scope.
Local Open Scope search_scope.

Section WithHost.
Context `{Host}.

(** A call that only uses the world. *)
Definition inWorld {A} (f : World -> A * World) : M A :=
  fun s =>
    let (a, w') := f (world s) in
    (a, mkState w' (fileSearchDirectory s) (invalidSearchDirectory s)
          (COBOLOutputChannel s)).

(** [logMessage(message)] without parameters: one line on the channel. *)
Definition logMessage (message : string) : M unit :=
  fun s =>
    (tt, mkState (world s) (fileSearchDirectory s) (invalidSearchDirectory s)
           (COBOLOutputChannel s ++ [message])).

(** [fileSearchDirectory.push(d)], [invalidSearchDirectory.push(d)]. *)
Definition fileSearchDirectory_push (d : string) : M unit :=
  fun s =>
    (tt, mkState (world s) (fileSearchDirectory s ++ [d])
           (invalidSearchDirectory s) (COBOLOutputChannel s)).

Definition invalidSearchDirectory_push (d : string) : M unit :=
  fun s =>
    (tt, mkState (world s) (fileSearchDirectory s)
           (invalidSearchDirectory s ++ [d]) (COBOLOutputChannel s)).

(** [for (const x of l) body]. *)
Fixpoint for_of {A} (l : list A) (body : A -> M unit) : M unit :=
  match l with
  | [] => ret tt
  | x :: l' => body x ;; for_of l' body
  end.

Definition when (b : bool) (c : M unit) : M unit := if b then c else ret tt.

(** [n.toFixed(2)] of a whole number of milliseconds. *)
Definition toFixed2 (n : Z) : string :=
  NilZero.string_of_int (Z.to_int n) +:+ ".00".

(** Step 1, the body of the loop over the configured directories
    (lines 183-210). [workspace !== undefined] is always true. *)
Definition step1 (config : ICOBOLSettings) (ddir : string) : M unit :=
  if disable_unc_copybooks_directories config && isNetworkPath ddir then
    logMessage (" Copybook directory " +:+ ddir +:+
                " has been marked as invalid, as it is a unc filename") ;;
    invalidSearchDirectory_push ddir
  else if isDirectPath ddir then
    logMessage (" Warning: non portable copybook directory " +:+ ddir +:+
                " defined") ;;
    when (match getWorkspaceFolders with Some _ => true | None => false end)
      (when (negb (isPathInWorkspace ddir))
         (when (isNetworkPath ddir)
            (logMessage (" The directory " +:+ ddir +:+
                         " for performance should be part of the workspace")))) ;;
    startTime <- inWorld performance_now ;;
    isdir <- inWorld (isDirectory ddir) ;;
    if isdir then
      endTime <- inWorld performance_now ;;
      let totalTimeInMS := endTime - startTime in
      let timeTaken := toFixed2 totalTimeInMS in
      if totalTimeInMS <=? 2000 then
        fileSearchDirectory_push ddir
      else
        logMessage (" Slow copybook directory dropped " +:+ ddir +:+
                    " as it took " +:+ timeTaken +:+ "ms") ;;
        invalidSearchDirectory_push ddir
    else
      invalidSearchDirectory_push ddir
  else ret tt.

(** Step 2, the body of the inner loop (lines 223-240). Nothing in the
    [try] block throws ([isDirectory] catches the error of [statSync]), so
    the [catch] is never entered. *)
Definition step2_extdir (folder : WorkspaceFolder) (extdir : string)
  : M unit :=
  if negb (isDirectPath extdir) then
    let sdir := path_join (uri_fsPath folder) extdir in
    isdir <- inWorld (isDirectory sdir) ;;
    if isdir then
      when (isNetworkPath sdir && negb (isPathInWorkspace sdir))
        (logMessage (" The directory " +:+ sdir +:+
                     " for performance should be part of the workspace")) ;;
      fileSearchDirectory_push sdir
    else
      invalidSearchDirectory_push sdir
  else ret tt.

(** Step 2, the body of the loop over the workspace folders. *)
Definition step2_folder (extsdir : list string) (folder : WorkspaceFolder)
  : M unit :=
  fileSearchDirectory_push (uri_fsPath folder) ;;
  for_of extsdir (step2_extdir folder).

Definition step2 (extsdir : list string) : M unit :=
  match getWorkspaceFolders with
  | Some ws => for_of ws (step2_folder extsdir)
  | None => ret tt
  end.

(** Lines 175-179: both lists are emptied. [invalidSearchDirectory] is
    from here on the array of [getInvalid_copybookdirs()], which is not the
    array of [getCopybookdirs_defaults()] that the loops run over. *)
Definition clear_lists : M unit :=
  fun s => (tt, mkState (world s) [] [] (COBOLOutputChannel s)).

(** Lines 245-246: each variable gets a new, filtered array. *)
Definition remove_duplicates : M unit :=
  fun s =>
    (tt, mkState (world s)
           (JS.filter_first_index (fileSearchDirectory s))
           (JS.filter_first_index (invalidSearchDirectory s))
           (COBOLOutputChannel s)).

(** Lines 175-243: the lists as they are before duplicates are removed. *)
Definition collectSearchPaths (config : ICOBOLSettings) : M unit :=
  clear_lists ;;
  let extsdir := getCopybookdirs_defaults in
  for_of extsdir (step1 config) ;;
  step2 extsdir.

(** [initExtensionSearchPaths]. The check for conflicting extensions
    (lines 169-173) touches neither list and is left out. *)
Definition initExtensionSearchPaths (config : ICOBOLSettings) : M unit :=
  collectSearchPaths config ;;
  remove_duplicates.

Definition getCombinedCopyBookSearchPath (s : State) : list string :=
  fileSearchDirectory s.

(** The time the code measures around the existence check of [ddir] in
    world [w]: the difference of the clock readings after and before
    [isDirectory(ddir)]. *)
Definition checkDuration (ddir : string) (w : World) : Z :=
  let (startTime, w1) := performance_now w in
  let (_, w2) := isDirectory ddir w1 in
  let (endTime, _) := performance_now w2 in
  endTime - startTime.

(** The answer of the existence check made right after the first clock
    reading. *)
Definition checkAnswer (ddir : string) (w : World) : bool :=
  let (_, w1) := performance_now w in
  fst (isDirectory ddir w1).

(** Whether the [statSync] call of that check throws. *)
Definition checkThrows (ddir : string) (w : World) : bool :=
  let (_, w1) := performance_now w in
  match fst (statSync ddir w1) with None => true | Some _ => false end.


(** Whether step 2 hands [x] to one of the lists other than through the
    entry [x] itself: [x] is the path of a workspace folder, or the join of
    one with a configured directory that is not direct. *)
Definition workspaceSupplies (x : string) : bool :=
  match getWorkspaceFolders with
  | None => false
  | Some ws =>
      existsb
        (fun folder =>
           String.eqb (uri_fsPath folder) x
           || existsb
                (fun extdir =>
                   negb (isDirectPath extdir)
                   && String.eqb (path_join (uri_fsPath folder) extdir) x)
                getCopybookdirs_defaults)
        ws
  end.

(** From [s] to [s'] both lists have only been extended, the first by
    elements that satisfy [P] and the second by elements that satisfy [Q]. *)
Definition grows (P Q : string -> Prop) (s s' : State) : Prop :=
  (exists a, fileSearchDirectory s' = fileSearchDirectory s ++ a
             /\ Forall P a)
  /\ (exists i, invalidSearchDirectory s' = invalidSearchDirectory s ++ i
                /\ Forall Q i).

(** The state in which step 1 reaches the entry that follows [pre]. *)
Definition reach1 (config : ICOBOLSettings) (pre : list string)
    (s0 : State) : State :=
  exec (clear_lists ;; for_of pre (step1 config)) s0.

(** The state in which step 2 reaches the entry that follows [epre] for
    the folder that follows [wpre]. *)
Definition reach2 (config : ICOBOLSettings) (wpre : list WorkspaceFolder)
    (folder : WorkspaceFolder) (epre : list string) (s0 : State) : State :=
  exec (clear_lists ;;
        for_of getCopybookdirs_defaults (step1 config) ;;
        for_of wpre (step2_folder getCopybookdirs_defaults) ;;
        fileSearchDirectory_push (uri_fsPath folder) ;;
        for_of epre (step2_extdir folder)) s0.

End WithHost.

End SearchPath.

(** ** Usage diagnostics: [CobolUsageActionFixer], [CobolUsageProvider] *)

Module Usage.

Record Position := mkPosition { line : Z; character : Z }.

Record Range := mkRange { range_start : Position; range_end : Position }.

Inductive DiagnosticSeverity := Error | Warning | Information | Hint.

(** [Diagnostic.code] is a string, a number, or an object with a value and
    a target. *)
Inductive DiagnosticCode :=
| CodeString (s : string)
| CodeNumber (n : Z)
| CodeTarget (value : string + Z) (target : string).

Record Diagnostic := mkDiagnostic {
  range : Range;
  message : string;
  severity : DiagnosticSeverity;
  code : option DiagnosticCode
}.

(** [code.toString()]; a number code is a whole number. *)
Definition code_toString (c : DiagnosticCode) : string :=
  match c with
  | CodeString s => s
  | CodeNumber n => NilZero.string_of_int (Z.to_int n)
  | CodeTarget _ _ => "[object Object]"
  end.

Inductive CodeActionKind := QuickFix.

(** [arguments: [document.uri, document.offsetAt(...), diagnostic.code]] *)
Record CommandArguments := mkArguments {
  arg_uri : string;
  arg_offset : Z;
  arg_code : option DiagnosticCode
}.

Record Command := mkCommand {
  command_title : string;
  command_name : string;
  arguments : CommandArguments
}.

Record CodeAction := mkCodeAction {
  title : string;
  diagnostics : list Diagnostic;
  command : Command;
  kind : CodeActionKind
}.

Record TextDocument := mkTextDocument {
  fileName : string;
  version : Z;
  uri : string;
  offsetAt : Position -> Z
}.

(** The body of the loop of [provideCodeActions]: [None] for [continue]. *)
Definition codeActionFor (document : TextDocument) (diagnostic : Diagnostic)
  : option CodeAction :=
  if match code diagnostic with
     | Some c => negb (JS.startsWith (code_toString c) "noref")
     | None => false
     end
  then None
  else Some {|
    title := "Comment out '" +:+ message diagnostic +:+ "'";
    diagnostics := [diagnostic];
    command := {|
      command_title := "Comment out";
      command_name := "editor.action.addCommentLine";
      arguments := mkArguments (uri document)
                     (offsetAt document (range_start (range diagnostic)))
                     (code diagnostic) |};
    kind := QuickFix |}.

(** [provideCodeActions(document, range, context, token)]; [range] and
    [token] are not used, [context] is read for [context.diagnostics]. *)
Definition provideCodeActions (document : TextDocument)
    (context_diagnostics : list Diagnostic) : list CodeAction :=
  fold_left
    (fun codeActions diagnostic =>
       match codeActionFor document diagnostic with
       | None => codeActions
       | Some a => codeActions ++ [a]
       end)
    context_diagnostics [].

(** The fields of [COBOLToken] that [updateDiagnostics] reads. Line and
    column are counted from 0 and are natural numbers (a [Position] cannot
    be built from a negative number). *)
Record COBOLToken := mkToken {
  filename : string;
  tokenName : string;
  startLine : nat;
  startColumn : nat;
  inProcedureDivision : bool
}.

(** [COBOLQuickParse]: its file name and the two tables, each a [Map] from
    name to token, in insertion order. *)
Record COBOLQuickParse := mkQuickParse {
  qp_filename : string;
  paragraphs : list (string * COBOLToken);
  sections : list (string * COBOLToken)
}.

(** [SharedSourceReferences]: of [targetReferences] only [has] is used,
    so the map is kept as the set of its keys. *)
Record SharedSourceReferences := mkSourceRefs {
  targetReferences : gset string
}.

(** What the provider takes from outside [extension.ts].
    - The scanner: what [new VSCodeSourceHandler(document, false)],
      [new SharedSourceReferences()] and [new COBOLQuickParse(file,
      document.fileName, VSCOBOLConfiguration.get(), "", sourceRefs)]
      build for a document, in a world of settings and copybook files.
      The constructors are taken to return.
    - [String_toLowerCase] is [String.prototype.toLowerCase] of the
      engine, which folds every cased letter.
    - [Uri_file f] is the key under which a diagnostic collection keeps
      [vscode.Uri.file(f)]. Different file names can have one [Uri]
      ([prog.cbl] and [/prog.cbl] have), so the function need not be
      injective. *)
Class Scanner := {
  ScanWorld : Type;
  newCOBOLQuickParse :
    TextDocument -> ScanWorld ->
    (COBOLQuickParse * SharedSourceReferences) * ScanWorld;
  String_toLowerCase : string -> string;
  Uri_file : string -> string
}.

(** A [Map<string, V>] in insertion order. *)
Definition Map_has {V} (m : list (string * V)) (k : string) : bool :=
  existsb (fun e => String.eqb (fst e) k) m.

Fixpoint Map_get {V} (m : list (string * V)) (k : string) : option V :=
  match m with
  | [] => None
  | (k', v) :: m' => if String.eqb k' k then Some v else Map_get m' k
  end.

Fixpoint Map_set {V} (m : list (string * V)) (k : string) (v : V)
  : list (string * V) :=
  match m with
  | [] => [(k, v)]
  | (k', v') :: m' =>
      if String.eqb k' k then (k, v) :: m' else (k', v') :: Map_set m' k v
  end.

(** The members of [CobolUsageProvider]. The collection maps the key of
    a [Uri] to the diagnostics that were set for it last. *)
Record CobolUsageProvider := mkProvider {
  enabled : bool;
  collection : gmap string (list Diagnostic);
  diagCollect : DiagnosticSeverity;
  current : option COBOLQuickParse;
  currentVersion : option Z;
  sourceRefs : option SharedSourceReferences
}.

(** The constructor. *)
Definition newCobolUsageProvider (collection : gmap string (list Diagnostic))
    (enabled : bool) : CobolUsageProvider :=
  mkProvider enabled collection Information None None None.

(** Lines 1077-1086 and 1099-1108: the diagnostic joins the array of its
    file, which is created when the file has none yet. *)
Definition addDiagnostic (diagRefs : list (string * list Diagnostic))
    (file : string) (d : Diagnostic) : list (string * list Diagnostic) :=
  if Map_has diagRefs file then
    match Map_get diagRefs file with
    | Some arr => Map_set diagRefs file (arr ++ [d])
    | None => diagRefs
    end
  else Map_set diagRefs file [d].

(** The range built at lines 1072-1073 and 1094-1095;
    [token.tokenName.length] counts UTF-16 code units. *)
Definition tokenRange (token : COBOLToken) : Range :=
  mkRange
    (mkPosition (Z.of_nat (startLine token)) (Z.of_nat (startColumn token)))
    (mkPosition (Z.of_nat (startLine token))
       (Z.of_nat (startColumn token) + JS.utf16_length (tokenName token))).

(** The diagnostic built at lines 1072-1075. *)
Definition paragraphDiagnostic (sev : DiagnosticSeverity) (key : string)
    (token : COBOLToken) : Diagnostic :=
  {| range := tokenRange token;
     message := key +:+ " paragraph is not referenced";
     severity := sev;
     code := Some (CodeString ("noref(" +:+ key +:+ ")")) |}.

(** The diagnostic built at lines 1094-1097. *)
Definition sectionDiagnostic (sev : DiagnosticSeverity) (key : string)
    (token : COBOLToken) : Diagnostic :=
  {| range := tokenRange token;
     message := key +:+ " section is not referenced";
     severity := sev;
     code := Some (CodeString ("noref(" +:+ key +:+ ")")) |}.

(** [sourceRefs.targetReferences.has(name)]. *)
Definition targetReferences_has (refs : SharedSourceReferences)
    (name : string) : bool :=
  bool_decide (name ∈ targetReferences refs).

Section WithScanner.
Context `{Scanner}.

(** The body of the loop over [qp.paragraphs]. *)
Definition paragraphStep (sev : DiagnosticSeverity)
    (refs : SharedSourceReferences)
    (diagRefs : list (string * list Diagnostic))
    (entry : string * COBOLToken) : list (string * list Diagnostic) :=
  let (key, token) := entry in
  let workLower := String_toLowerCase key in
  if negb (targetReferences_has refs workLower) then
    addDiagnostic diagRefs (filename token) (paragraphDiagnostic sev key token)
  else diagRefs.

(** The body of the loop over [qp.sections]. *)
Definition sectionStep (sev : DiagnosticSeverity)
    (refs : SharedSourceReferences)
    (diagRefs : list (string * list Diagnostic))
    (entry : string * COBOLToken) : list (string * list Diagnostic) :=
  let (key, token) := entry in
  let workLower := String_toLowerCase key in
  if inProcedureDivision token then
    if negb (targetReferences_has refs workLower) then
      addDiagnostic diagRefs (filename token) (sectionDiagnostic sev key token)
    else diagRefs
  else diagRefs.

(** The two loops: the [diagRefs] map before it is published. *)
Definition collectDiagnostics (sev : DiagnosticSeverity)
    (qp : COBOLQuickParse) (refs : SharedSourceReferences)
  : list (string * list Diagnostic) :=
  fold_left (sectionStep sev refs) (sections qp)
    (fold_left (paragraphStep sev refs) (paragraphs qp) []).

(** Lines 1115-1118: [collection.set(Uri.file(f), value)] for every entry
    of [diagRefs], in the order of the map; [set] replaces what the
    collection held for that [Uri]. *)
Definition publish (diagRefs : list (string * list Diagnostic))
    (collection : gmap string (list Diagnostic))
  : gmap string (list Diagnostic) :=
  fold_left (fun c e => <[Uri_file (fst e) := snd e]> c) diagRefs collection.

Definition setupCOBOLQuickParse (document : TextDocument)
    (this : CobolUsageProvider) (w : ScanWorld)
  : CobolUsageProvider * ScanWorld :=
  let this1 :=
    match current this with
    | Some cur =>
        if negb (String.eqb (qp_filename cur) (fileName document))
        then mkProvider (enabled this) (collection this) (diagCollect this)
               None (currentVersion this) (sourceRefs this)
        else this
    | None => this
    end in
  if match current this1 with None => true | Some _ => false end
     || negb (bool_decide (currentVersion this1 = Some (version document)))
  then
    let '((qp, refs), w') := newCOBOLQuickParse document w in
    (mkProvider (enabled this1) (collection this1) (diagCollect this1)
       (Some qp) (Some (version document)) (Some refs), w')
  else (this1, w).

Definition updateDiagnostics (document : TextDocument)
    (this : CobolUsageProvider) (w : ScanWorld)
  : CobolUsageProvider * ScanWorld :=
  if negb (enabled this) then (this, w)
  else
    let (this1, w1) := setupCOBOLQuickParse document this w in
    match sourceRefs this1, current this1 with
    | Some refs, Some qp =>
        let diagRefs := collectDiagnostics (diagCollect this1) qp refs in
        (mkProvider (enabled this1) (publish diagRefs ∅) (diagCollect this1)
           (current this1) (currentVersion this1) (sourceRefs this1), w1)
    | _, _ => (this1, w1)
    end.

(** The document is scanned: the provider is enabled and, once
    [setupCOBOLQuickParse] has run, it holds the parse [qp] and the
    references [refs]. *)
Definition scanned (document : TextDocument)
    (this : CobolUsageProvider) (w : ScanWorld) (qp : COBOLQuickParse)
    (refs : SharedSourceReferences) : Prop :=
  enabled this = true
  /\ current (setupCOBOLQuickParse document this w).1 = Some qp
  /\ sourceRefs (setupCOBOLQuickParse document this w).1 = Some refs.

(** A diagnostic is in the array that [diagRefs] holds for a file. *)
Definition inDiagRefs (diagRefs : list (string * list Diagnostic))
    (file : string) (d : Diagnostic) : Prop :=
  exists arr, Map_get diagRefs file = Some arr /\ d ∈ arr.

(** A paragraph, respectively a section, is reported: its diagnostic is
    built and joins the array of its file in [diagRefs], the array that
    line 1117 hands to [collection.set]. *)
Definition paragraphReported (sev : DiagnosticSeverity)
    (qp : COBOLQuickParse) (refs : SharedSourceReferences) (key : string)
    (token : COBOLToken) : Prop :=
  inDiagRefs (collectDiagnostics sev qp refs) (filename token)
    (paragraphDiagnostic sev key token).

Definition sectionReported (sev : DiagnosticSeverity)
    (qp : COBOLQuickParse) (refs : SharedSourceReferences) (key : string)
    (token : COBOLToken) : Prop :=
  inDiagRefs (collectDiagnostics sev qp refs) (filename token)
    (sectionDiagnostic sev key token).

(** A paragraph, respectively a section, is flagged as unreferenced in a
    collection: its diagnostic is among those the collection holds for
    the [Uri] of its file. *)
Definition paragraphFlagged (c : gmap string (list Diagnostic))
    (sev : DiagnosticSeverity) (key : string) (token : COBOLToken) : Prop :=
  exists arr, c !! Uri_file (filename token) = Some arr /\
              paragraphDiagnostic sev key token ∈ arr.

Definition sectionFlagged (c : gmap string (list Diagnostic))
    (sev : DiagnosticSeverity) (key : string) (token : COBOLToken) : Prop :=
  exists arr, c !! Uri_file (filename token) = Some arr /\
              sectionDiagnostic sev key token ∈ arr.

(** No token of the two tables has another file name with the [Uri] of
    [file]. *)
Definition uriOwned (qp : COBOLQuickParse) (file : string) : Prop :=
  forall key token,
    (key, token) ∈ paragraphs qp ++ sections qp ->
    Uri_file (filename token) = Uri_file file ->
    filename token = file.

(** A diagnostic is in a collection, under the key [file]. *)
Definition emitted (c : gmap string (list Diagnostic)) (file : string)
    (d : Diagnostic) : Prop :=
  exists arr, c !! file = Some arr /\ d ∈ arr.



(** A paragraph entry that the first loop reports. *)
Definition reportsParagraph (sev : DiagnosticSeverity)
    (refs : SharedSourceReferences) (l : list (string * COBOLToken))
    (file : string) (d : Diagnostic) : Prop :=
  exists key token,
    (key, token) ∈ l
    /\ targetReferences_has refs (String_toLowerCase key) = false
    /\ file = filename token
    /\ d = paragraphDiagnostic sev key token.

(** A section entry that the second loop reports. *)
Definition reportsSection (sev : DiagnosticSeverity)
    (refs : SharedSourceReferences) (l : list (string * COBOLToken))
    (file : string) (d : Diagnostic) : Prop :=
  exists key token,
    (key, token) ∈ l
    /\ inProcedureDivision token = true
    /\ targetReferences_has refs (String_toLowerCase key) = false
    /\ file = filename token
    /\ d = sectionDiagnostic sev key token.

End WithScanner.

End Usage.

(** ** Loading and saving of the metadata cache *)

Module Lifecycle.

(** The calls that [activate] and [deactivateAsync] make on the caches
    and on the status bar item, in the order they are made. *)
Inductive Call :=
| loadInMemoryGlobalSymbolCaches (cacheDirectory : string)
| loadInMemoryGlobalFileCache (cacheDirectory : string)
| processAllFilesInWorkspaces (viaCommand : bool)
| saveInMemoryGlobalCaches (cacheDirectory : option string)
| formatStatusBarItem_dispose.

(** What the two functions read from [VSQuickCOBOLParse] and
    [VSCOBOLConfiguration]: [getCacheDirectory()] ([None] for [null]),
    [isCachingEnabled()] and [get()]. *)
Record Configuration := mkConfiguration {
  getCacheDirectory : option string;
  isCachingEnabled : bool;
  get : ICOBOLSettings
}.

(** Lines 911-927 of [activate]; the registrations before them make none
    of the calls above. *)
Definition activate (c : Configuration) : list Call :=
  (match getCacheDirectory c with
   | Some cacheDirectory =>
       if JS.length cacheDirectory >? 0
       then [loadInMemoryGlobalSymbolCaches cacheDirectory;
             loadInMemoryGlobalFileCache cacheDirectory]
       else []
   | None => []
   end)
  ++ (if process_metadata_cache_on_start (get c)
      then [processAllFilesInWorkspaces false] else []).

Definition deactivateAsync (c : Configuration) : list Call :=
  if isCachingEnabled c
  then [saveInMemoryGlobalCaches (getCacheDirectory c);
        formatStatusBarItem_dispose]
  else [].

Definition deactivate (c : Configuration) : list Call := deactivateAsync c.

(** A cache directory is configured: it is neither [null] nor empty. *)
Definition cacheDirectoryConfigured (c : Configuration) : bool :=
  match getCacheDirectory c with
  | Some cacheDirectory => negb (String.eqb cacheDirectory "")
  | None => false
  end.

Definition isLoad (e : Call) : bool :=
  match e with
  | loadInMemoryGlobalSymbolCaches _ | loadInMemoryGlobalFileCache _ => true
  | _ => false
  end.

Definition isSymbolLoad (e : Call) : bool :=
  match e with loadInMemoryGlobalSymbolCaches _ => true | _ => false end.

Definition isFileLoad (e : Call) : bool :=
  match e with loadInMemoryGlobalFileCache _ => true | _ => false end.

Definition isSave (e : Call) : bool :=
  match e with saveInMemoryGlobalCaches _ => true | _ => false end.

Definition count (p : Call -> bool) (l : list Call) : nat :=
  List.length (List.filter p l).

End Lifecycle.

(** ** A concrete host for examples *)

Module Sim.

(** The clock, in milliseconds, and the paths [statSync] was called on. *)
Record SimWorld := mkSimWorld { clock : Z; statCalls : list string }.

(** For a path: what [statSync] answers ([None]: it throws) and the time
    the call takes. A path that is not listed does not exist. *)
Definition FileSystem : Type := list (string * (option Stats * Z)).

Fixpoint fs_lookup (fs : FileSystem) (p : string) : option Stats * Z :=
  match fs with
  | [] => (None, 0)
  | (q, r) :: fs' => if String.eqb q p then r else fs_lookup fs' p
  end.

Definition directory : option Stats := Some (mkStats true false).
Definition plainFile : option Stats := Some (mkStats false true).

(** Direct paths start with a slash or a backslash, network paths with
    two backslashes; joining puts a slash between the parts. *)
Definition host (fs : FileSystem) (ws : option (list WorkspaceFolder))
    (dirs : list string) : Host :=
  {| World := SimWorld;
     statSync := fun p w =>
       let (r, t) := fs_lookup fs p in
       (r, mkSimWorld (clock w + t) (statCalls w ++ [p]));
     Date_now := fun w => (clock w, w);
     isDirectPath := fun d => String.prefix "/" d || String.prefix "\" d;
     isNetworkPath := fun d => String.prefix "\\" d;
     path_join := fun a b => a +:+ "/" +:+ b;
     path_normalize := fun p => p;
     getWorkspaceFolders := ws;
     getCopybookdirs_defaults := dirs |}.

(** The state before a run: lists left over from an earlier run, an
    empty channel, the clock at 0. *)
Definition start (fs : FileSystem) (ws : option (list WorkspaceFolder))
    (dirs : list string) : @SearchPath.State (host fs ws dirs) :=
  @SearchPath.mkState (host fs ws dirs) (mkSimWorld 0 [])
    ["/stale"] ["/stale"] [].

Definition uncOff : ICOBOLSettings := mkSettings false false.
Definition uncOn : ICOBOLSettings := mkSettings true false.

(** A workspace [/proj] with a relative copybook directory, a fast and a
    slow absolute directory, a missing one and a network share. *)
Definition fs1 : FileSystem :=
  [("/proj", (directory, 1));
   ("/proj/copybooks", (directory, 1));
   ("/opt/copylib", (directory, 5));
   ("/mnt/slow", (directory, 3000));
   ("/etc/passwd", (plainFile, 1));
   ("\\srv\share", (directory, 40))].

Definition ws1 : option (list WorkspaceFolder) :=
  Some [mkWorkspaceFolder "proj" "/proj"].

Definition dirs1 : list string :=
  ["/opt/copylib"; "/mnt/slow"; "copybooks"; "/gone"; "\\srv\share";
   "missing"; "/opt/copylib"].

(** A slow directory that is also the workspace folder. *)
Definition fs2 : FileSystem := [("/mnt/slow", (directory, 3000))].

Definition ws2 : option (list WorkspaceFolder) :=
  Some [mkWorkspaceFolder "slow" "/mnt/slow"].

Definition dirs2 : list string := ["/mnt/slow"].

(** A network share that is also the workspace folder. *)
Definition fs3 : FileSystem := [("\\srv\share", (directory, 40))].

Definition ws3 : option (list WorkspaceFolder) :=
  Some [mkWorkspaceFolder "share" "\\srv\share"].

Definition dirs3 : list string := ["\\srv\share"].

(** The lowercase function of the example engine: the names of the
    examples are ASCII, where [toLowerCase] maps [A-Z] to [a-z] and keeps
    every other character. *)
Definition ascii_toLowerCase (c : ascii) : ascii :=
  let n := N_of_ascii c in
  if ((65 <=? n) && (n <=? 90))%N then ascii_of_N (n + 32) else c.

Fixpoint toLowerCase (s : string) : string :=
  match s with
  | EmptyString => EmptyString
  | String c s' => String (ascii_toLowerCase c) (toLowerCase s')
  end.

(** The key of [Uri.file(f)] for the paths of the examples: the scheme,
    an empty authority, and the path, which gets a leading slash when it
    has none. *)
Definition uriFile (f : string) : string :=
  "file://" +:+ (if String.prefix "/" f then f else "/" +:+ f).

(** A scanner that answers every document with the same parse; its
    world counts the scans. *)
Definition scanner (qp : Usage.COBOLQuickParse)
    (refs : Usage.SharedSourceReferences) : Usage.Scanner :=
  {| Usage.ScanWorld := nat;
     Usage.newCOBOLQuickParse := fun _ n => ((qp, refs), S n);
     Usage.String_toLowerCase := toLowerCase;
     Usage.Uri_file := uriFile |}.

Definition prog : string := "/proj/prog.cbl".

Definition doc1 : Usage.TextDocument :=
  Usage.mkTextDocument prog 1 "file:///proj/prog.cbl"
    (fun p => Usage.line p * 80 + Usage.character p).

Definition tokMain : Usage.COBOLToken :=
  Usage.mkToken prog "main-para" 10%nat 7%nat true.
Definition tokUnused : Usage.COBOLToken :=
  Usage.mkToken prog "Unused-Para" 20%nat 7%nat true.
Definition tokUnusedUpper : Usage.COBOLToken :=
  Usage.mkToken prog "UNUSED-PARA" 25%nat 7%nat true.
Definition tokStorage : Usage.COBOLToken :=
  Usage.mkToken prog "working-storage" 3%nat 7%nat false.
Definition tokDead : Usage.COBOLToken :=
  Usage.mkToken "/proj/copy.cpy" "Dead-Sec" 30%nat 7%nat true.
Definition tokLive : Usage.COBOLToken :=
  Usage.mkToken prog "LIVE-SEC" 40%nat 7%nat true.

(** [main-para] and [live-sec] are performed; nothing else is. *)
Definition refs1 : Usage.SharedSourceReferences :=
  Usage.mkSourceRefs {[ "main-para"; "live-sec" ]}.

Definition qp1 : Usage.COBOLQuickParse :=
  Usage.mkQuickParse prog
    [("main-para", tokMain); ("Unused-Para", tokUnused);
     ("UNUSED-PARA", tokUnusedUpper)]
    [("working-storage", tokStorage); ("Dead-Sec", tokDead);
     ("LIVE-SEC", tokLive)].







Definition provider0 : Usage.CobolUsageProvider :=
  Usage.newCobolUsageProvider ∅ true.



End Sim.

(** ** The search path: where the entries come from *)

Module SearchPathSpec.
Import SearchPath.
Local Open Scope search_scope.

Section WithHost.
Context `{Host}.

(** A configured directory that step 1 checks: it is direct and not set
    aside as a network path. *)
Definition checkedDirect (config : ICOBOLSettings) (x : string) : Prop :=
  x ∈ getCopybookdirs_defaults
  /\ isDirectPath x = true
  /\ disable_unc_copybooks_directories config && isNetworkPath x = false.

(** A configured directory that step 1 can put on the invalid list: it is
    set aside as a network path, or it is direct. *)
Definition rejectable (config : ICOBOLSettings) (x : string) : Prop :=
  x ∈ getCopybookdirs_defaults
  /\ (disable_unc_copybooks_directories config && isNetworkPath x = true
      \/ isDirectPath x = true).

(** [x] is the join of a workspace folder with a configured directory that
    is not direct. *)
Definition isWorkspaceJoin (x : string) : bool :=
  match getWorkspaceFolders with
  | None => false
  | Some ws =>
      existsb
        (fun folder =>
           existsb
             (fun extdir =>
                negb (isDirectPath extdir)
                && String.eqb (path_join (uri_fsPath folder) extdir) x)
             getCopybookdirs_defaults)
        ws
  end.

(** The state when step 1 is over. *)
Definition afterStep1 (config : ICOBOLSettings) (s0 : State) : State :=
  exec (clear_lists ;; for_of getCopybookdirs_defaults (step1 config)) s0.

(** A state without its channel. *)
Definition strip (s : State) : State :=
  mkState (world s) (fileSearchDirectory s) (invalidSearchDirectory s) [].

(** A computation that reads nothing from the channel and only appends
    to it. *)
Definition appendsOnly {A} (c : M A) : Prop :=
  forall s,
    c s = let (a, t) := c (strip s) in
          (a, mkState (world t) (fileSearchDirectory t)
                (invalidSearchDirectory t)
                (COBOLOutputChannel s ++ COBOLOutputChannel t)).

End WithHost.

End SearchPathSpec.

(** ** Usage diagnostics: what a file gets *)

Module UsageSpec.
Import Usage.

Section WithScanner.
Context `{Scanner}.

(** The diagnostic that an entry of the paragraph table gives to [file]:
    the entry is of that file and its lowercased name is not referenced. *)
Definition paragraphReport (sev : DiagnosticSeverity)
    (refs : SharedSourceReferences) (file : string)
    (entry : string * COBOLToken) : option Diagnostic :=
  let (key, token) := entry in
  if String.eqb (filename token) file
     && negb (targetReferences_has refs (String_toLowerCase key))
  then Some (paragraphDiagnostic sev key token)
  else None.

(** The same for an entry of the section table, which must also lie in the
    procedure division. *)
Definition sectionReport (sev : DiagnosticSeverity)
    (refs : SharedSourceReferences) (file : string)
    (entry : string * COBOLToken) : option Diagnostic :=
  let (key, token) := entry in
  if String.eqb (filename token) file
     && inProcedureDivision token
     && negb (targetReferences_has refs (String_toLowerCase key))
  then Some (sectionDiagnostic sev key token)
  else None.

(** The diagnostics of a file: those of the paragraphs in the order of the
    table, then those of the sections in the order of the table. *)
Definition diagnosticsFor (sev : DiagnosticSeverity) (qp : COBOLQuickParse)
    (refs : SharedSourceReferences) (file : string) : list Diagnostic :=
  omap (paragraphReport sev refs file) (paragraphs qp)
  ++ omap (sectionReport sev refs file) (sections qp).

End WithScanner.

(** The array of a file after more diagnostics have joined it. *)
Definition extend (o : option (list Diagnostic)) (l : list Diagnostic)
  : option (list Diagnostic) :=
  match l with
  | [] => o
  | _ => Some (default [] o ++ l)
  end.

(** A diagnostic that [provideCodeActions] does not skip. *)
Definition actionable (d : Diagnostic) : bool :=
  match code d with
  | Some c => JS.startsWith (code_toString c) "noref"
  | None => true
  end.

(** The provider holds nothing that can be used for the document: no
    parse, a parse of another file, or a parse of another version. *)
Definition outdated (document : TextDocument) (this : CobolUsageProvider)
  : Prop :=
  current this = None
  \/ (exists cur, current this = Some cur
                  /\ qp_filename cur <> fileName document)
  \/ currentVersion this <> Some (version document).

End UsageSpec.

(** ** Conflicting extensions: [checkForExtensionConflicts] and the notice
       of [initExtensionSearchPaths] *)

Module Conflicts.

(** The line feed of the string literals. *)
Definition nl : string := String (ascii_of_nat 10) EmptyString.

(** [String.prototype.toUpperCase] on the ASCII range. *)
Definition ascii_toUpperCase (c : ascii) : ascii :=
  let n := N_of_ascii c in
  if ((97 <=? n) && (n <=? 122))%N then ascii_of_N (n - 32) else c.

Fixpoint toUpperCase (s : string) : string :=
  match s with
  | EmptyString => EmptyString
  | String c s' => String (ascii_toUpperCase c) (toUpperCase s')
  end.

(** An element of [contributes.grammars]: [element.language]. *)
Record Grammar := mkGrammar { language : option string }.

Record Repository := mkRepository { repository_url : option string }.

Record Bugs := mkBugs { bugs_url : option string; bugs_email : option string }.

(** [contributes.grammars] when it is an object. *)
Record Contributes := mkContributes { grammars : option (list Grammar) }.

(** The fields of [ext.packageJSON] that are read; [None] is [undefined]. *)
Record PackageJSON := mkPackageJSON {
  name : option string;
  publisher : option string;
  description : option string;
  version : option string;
  repository : option Repository;
  bugs : option Bugs;
  contributes : option Contributes
}.

Record Extension := mkExtension { packageJSON : option PackageJSON }.

(** A value inside a template literal: [undefined] prints as its name. *)
Definition interpolate (o : option string) : string :=
  default "undefined" o.

(** The four lines added when the message is still empty and the setting
    [ignore_unsafe_extensions] is [false]. *)
Definition header : string :=
  "The COBOL Extension from bitlang may produce duplicate results due to"
  +:+ nl
  +:+ " other extensions for COBOL being present." +:+ nl +:+ nl
  +:+ "If you do not want see this warning message, change the setting"
  +:+ nl
  +:+ " coboleditor.ignore_unsafe_extensions to true and restart vscode"
  +:+ nl.

(** Lines 122-152, for one grammar of language COBOL: the assignments to
    [dupExtensionMessage] one after the other.
    [ignore_unsafe_extensions] is the setting of that name. *)
Definition reportConflict (ignore_unsafe_extensions : bool)
    (p : PackageJSON) (dupExtensionMessage : string) : string :=
  let m := dupExtensionMessage in
  let m :=
    if (String.length m =? 0)%nat then
      if negb ignore_unsafe_extensions then
        let m := m +:+ "The COBOL Extension from bitlang may produce duplicate results due to" +:+ nl in
        let m := m +:+ " other extensions for COBOL being present." +:+ nl +:+ nl in
        let m := m +:+ "If you do not want see this warning message, change the setting" +:+ nl in
        m +:+ " coboleditor.ignore_unsafe_extensions to true and restart vscode" +:+ nl
      else m
    else m in
  let m := m +:+ (nl +:+ "The extension " +:+ interpolate (name p)
                  +:+ " from " +:+ interpolate (publisher p)
                  +:+ " has conflicting functionality" +:+ nl) in
  let m := match description p with
           | Some d => m +:+ (" Description   : " +:+ d +:+ nl)
           | None => m
           end in
  let m := match version p with
           | Some v => m +:+ (" Version       : " +:+ v +:+ nl)
           | None => m
           end in
  let m := match repository p with
           | Some r => match repository_url r with
                       | Some u => m +:+ (" Repository    : " +:+ u +:+ nl)
                       | None => m
                       end
           | None => m
           end in
  let m := match bugs p with
           | Some b => match bugs_url b with
                       | Some u => m +:+ (" Bug Reporting : " +:+ u +:+ nl)
                       | None => m
                       end
           | None => m
           end in
  let m := match bugs p with
           | Some b => match bugs_email b with
                       | Some e => m +:+ (" Bug Email     : " +:+ e +:+ nl)
                       | None => m
                       end
           | None => m
           end in
  if negb (String.length m =? 0)%nat then m +:+ nl else m.

(** The body of the loop over the grammars (lines 118-154). *)
Definition grammarStep (ignore_unsafe_extensions : bool) (p : PackageJSON)
    (dupExtensionMessage : string) (element : Grammar) : string :=
  match language element with
  | Some lang =>
      if String.eqb (toUpperCase lang) "COBOL"
      then reportConflict ignore_unsafe_extensions p dupExtensionMessage
      else dupExtensionMessage
  | None => dupExtensionMessage
  end.

Definition isBitlang (p : PackageJSON) : bool :=
  match publisher p with
  | Some pub => String.eqb pub "bitlang"
  | None => false
  end.

(** The body of the loop over [extensions.all] (lines 105-159). *)
Definition extensionStep (ignore_unsafe_extensions : bool)
    (dupExtensionMessage : string) (ext : Extension) : string :=
  match packageJSON ext with
  | Some p =>
      match contributes p with
      | Some contribuesWhat =>
          if isBitlang p then dupExtensionMessage
          else
            match grammars contribuesWhat with
            | Some grammarsBody =>
                fold_left (grammarStep ignore_unsafe_extensions p)
                  grammarsBody dupExtensionMessage
            | None => dupExtensionMessage
            end
      | None => dupExtensionMessage
      end
  | None => dupExtensionMessage
  end.

(** [checkForExtensionConflicts(settings)] over [extensions.all]. *)
Definition checkForExtensionConflicts (ignore_unsafe_extensions : bool)
    (all : list Extension) : string :=
  fold_left (extensionStep ignore_unsafe_extensions) all "".

(** The module-level variables of lines 165-166 and the modal boxes shown
    so far. *)
Record NoticeState := mkNoticeState {
  checkForExtensionConflictsMessage : string;
  messageBoxDone : bool;
  informationMessages : list string
}.

(** Lines 169-173 of [initExtensionSearchPaths]. *)
Definition conflictNotice (ignore_unsafe_extensions : bool)
    (all : list Extension) (st : NoticeState) : NoticeState :=
  let message := checkForExtensionConflicts ignore_unsafe_extensions all in
  if negb (String.length message =? 0)%nat
     && negb ignore_unsafe_extensions
     && negb (messageBoxDone st)
  then mkNoticeState message true
         (informationMessages st ++
            ["COBOL Extension that has found duplicate functionality" +:+ nl
             +:+ nl +:+ "See View->Output->COBOL for more information"])
  else mkNoticeState message (messageBoxDone st) (informationMessages st).

(** The state when the extension is loaded. *)
Definition noticeStart : NoticeState := mkNoticeState "" false [].

(** A grammar for the language COBOL, in any letter case. *)
Definition isCobolGrammar (element : Grammar) : bool :=
  match language element with
  | Some lang => String.eqb (toUpperCase lang) "COBOL"
  | None => false
  end.

(** An extension that is reported: it is not published by bitlang and
    contributes a grammar for COBOL. *)
Definition conflicting (ext : Extension) : bool :=
  match packageJSON ext with
  | Some p =>
      match contributes p with
      | Some c =>
          negb (isBitlang p)
          && match grammars c with
             | Some body => existsb isCobolGrammar body
             | None => false
             end
      | None => false
      end
  | None => false
  end.

(** What one report adds to the message, after the header: the lines on
    the extension and an empty line. *)
Definition describe (p : PackageJSON) : string :=
  (nl +:+ "The extension " +:+ interpolate (name p)
   +:+ " from " +:+ interpolate (publisher p)
   +:+ " has conflicting functionality" +:+ nl)
  +:+ match description p with
      | Some d => " Description   : " +:+ d +:+ nl
      | None => ""
      end
  +:+ match version p with
      | Some v => " Version       : " +:+ v +:+ nl
      | None => ""
      end
  +:+ match repository p with
      | Some r => match repository_url r with
                  | Some u => " Repository    : " +:+ u +:+ nl
                  | None => ""
                  end
      | None => ""
      end
  +:+ match bugs p with
      | Some b => match bugs_url b with
                  | Some u => " Bug Reporting : " +:+ u +:+ nl
                  | None => ""
                  end
      | None => ""
      end
  +:+ match bugs p with
      | Some b => match bugs_email b with
                  | Some e => " Bug Email     : " +:+ e +:+ nl
                  | None => ""
                  end
      | None => ""
      end
  +:+ nl.

(** Calls of [initExtensionSearchPaths] one after the other, each with
    the setting and the extensions installed at that time. *)
Definition runNotices (calls : list (bool * list Extension))
    (st : NoticeState) : NoticeState :=
  fold_left (fun st c => conflictNotice c.1 c.2 st) calls st.

(** The message built with the setting off, from the one built with the
    setting on: the same reports after the header. *)
Definition withHeader (m : string) : string :=
  if (String.length m =? 0)%nat then "" else header +:+ m.

(** The text of the modal box of line 172. *)
Definition modalText : string :=
  "COBOL Extension that has found duplicate functionality" +:+ nl
  +:+ nl +:+ "See View->Output->COBOL for more information".

(** A call that finds a conflict with the setting off. *)
Definition noticeDue (c : bool * list Extension) : bool :=
  negb c.1 && existsb conflicting c.2.

(** Example extensions. *)
Definition ours : Extension :=
  mkExtension (Some (mkPackageJSON (Some "cobol") (Some "bitlang")
    (Some "COBOL language support") (Some "6.0.0") None None
    (Some (mkContributes (Some [mkGrammar (Some "COBOL")]))))).

Definition other : Extension :=
  mkExtension (Some (mkPackageJSON (Some "cobol-lang") (Some "acme")
    None (Some "1.2.3") (Some (mkRepository None)) None
    (Some (mkContributes
             (Some [mkGrammar (Some "json"); mkGrammar (Some "Cobol")]))))).

Definition unrelated : Extension :=
  mkExtension (Some (mkPackageJSON (Some "python") (Some "ms") None None
    None None (Some (mkContributes (Some [mkGrammar (Some "python")]))))).

End Conflicts.

(** ** The channel at start-up: [activateLogChannelAndPaths] and the
       report of conflicts in [activate] *)

Module LogPaths.
Import SearchPath.
Local Open Scope search_scope.

(** [extensions.getExtension("bitlang.cobol")]: the fields that are read;
    [None] is [undefined]. *)
Record ThisExtension := mkThisExtension {
  extensionPath : string;
  packageJSON_version : option string
}.

(** What the function reads from [vscode], [extensions],
    [VSCOBOLConfiguration] and [VSQuickCOBOLParse]. *)
Record Workbench := mkWorkbench {
  vscode_version : string;
  getExtension : option ThisExtension;
  isCachingEnabled : bool;
  getCachingSetting : string;
  getCache_directory_strategy : string;
  getCacheDirectory : option string;
  getDisable_unc_copybooks : bool;
  getParse_copybooks_for_references : bool
}.

(** Values joined to a string with [+]. *)
Definition show_boolean (b : bool) : string := if b then "true" else "false".

Definition show_nullable (o : option string) : string := default "null" o.

Definition show_length {A} (l : list A) : string :=
  NilZero.string_of_int (Z.to_int (Z.of_nat (List.length l))).

(** The calls on the window of the channel: [hide()] and
    [show(preserveFocus)]. *)
Inductive ChannelView := Hidden | Shown (preserveFocus : bool).

Section WithHost.
Context `{Host}.

(** [COBOLOutputChannel.clear()]. *)
Definition COBOLOutputChannel_clear : M unit :=
  fun s =>
    (tt, mkState (world s) (fileSearchDirectory s) (invalidSearchDirectory s)
           []).

(** Reading a module-level variable. *)
Definition read {A} (f : State -> A) : M A := fun s => (f s, s).

(** Lines 259-270. *)
Definition logExtension (wb : Workbench) (thisExtension : ThisExtension)
  : M unit :=
  logMessage ("VSCode version : " +:+ vscode_version wb) ;;
  logMessage "Extension Information:" ;;
  logMessage (" Extension path    : " +:+ extensionPath thisExtension) ;;
  logMessage (" Version           : "
              +:+ Conflicts.interpolate (packageJSON_version thisExtension)) ;;
  when (isCachingEnabled wb)
    (logMessage (" Caching                       : "
                 +:+ getCachingSetting wb) ;;
     logMessage ("  Cache Strategy               : "
                 +:+ getCache_directory_strategy wb) ;;
     logMessage ("  Cache directory              : "
                 +:+ show_nullable (getCacheDirectory wb)) ;;
     logMessage ("  UNC paths disabled           : "
                 +:+ show_boolean (getDisable_unc_copybooks wb))) ;;
  logMessage (" Parse copybook for references : "
              +:+ show_boolean (getParse_copybooks_for_references wb)).

(** Lines 276-300. *)
Definition logSearchPaths : M unit :=
  (match getWorkspaceFolders with
   | Some ws =>
       logMessage "  Workspace Folders:" ;;
       for_of ws (fun folder =>
         logMessage ("   => " +:+ folder_name folder +:+ " @ "
                     +:+ uri_fsPath folder))
   | None => ret tt
   end) ;;
  extsdir <- read getCombinedCopyBookSearchPath ;;
  when (negb (Z.of_nat (List.length extsdir) =? 0))
    (logMessage "  Combined Workspace and CopyBook Folders to search:" ;;
     for_of extsdir (fun sdir => logMessage ("   => " +:+ sdir))) ;;
  extsdir <- read invalidSearchDirectory ;;
  when (negb (Z.of_nat (List.length extsdir) =? 0))
    (logMessage ("  Invalid CopyBook directories (" +:+ show_length extsdir
                 +:+ ")") ;;
     for_of extsdir (fun sdir => logMessage ("   => " +:+ sdir))) ;;
  logMessage "".

(** Lines 255-301: what the function does to the channel, the lists and
    the world. *)
Definition logChannelAndPaths (wb : Workbench) (settings : ICOBOLSettings)
  : M unit :=
  COBOLOutputChannel_clear ;;
  let thisExtension := getExtension wb in
  (match thisExtension with
   | Some e => logExtension wb e
   | None => ret tt
   end) ;;
  initExtensionSearchPaths settings ;;
  match thisExtension with
  | Some _ => logSearchPaths
  | None => ret tt
  end.

(** The module-level state of [extension.ts] that start-up touches: the
    state of the search path with the channel, the variables of the notice
    on conflicting extensions, and whether the channel is displayed. *)
Record Session := mkSession {
  paths : State;
  notices : Conflicts.NoticeState;
  view : ChannelView
}.

(** [initExtensionSearchPaths(config)] with its notice (lines 169-173);
    [all] is [extensions.all] and [ignore_unsafe_extensions] the setting
    of that name. *)
Definition initExtensionSearchPaths_noticed (ignore_unsafe_extensions : bool)
    (all : list Conflicts.Extension) (config : ICOBOLSettings)
    (ss : Session) : Session :=
  mkSession (exec (initExtensionSearchPaths config) (paths ss))
    (Conflicts.conflictNotice ignore_unsafe_extensions all (notices ss))
    (view ss).

(** [activateLogChannelAndPaths(hide, settings)]. *)
Definition activateLogChannelAndPaths (hide : bool) (wb : Workbench)
    (ignore_unsafe_extensions : bool) (all : list Conflicts.Extension)
    (settings : ICOBOLSettings) (ss : Session) : Session :=
  mkSession (exec (logChannelAndPaths wb settings) (paths ss))
    (Conflicts.conflictNotice ignore_unsafe_extensions all (notices ss))
    (if hide then Hidden else Shown true).

(** Lines 346-347 of [activate]. *)
Definition activate_paths (wb : Workbench) (ignore_unsafe_extensions : bool)
    (all : list Conflicts.Extension) (settings : ICOBOLSettings)
    (ss : Session) : Session :=
  activateLogChannelAndPaths true wb ignore_unsafe_extensions all settings
    (initExtensionSearchPaths_noticed ignore_unsafe_extensions all settings
       ss).

(** Lines 918-920 of [activate]. *)
Definition activate_report (ss : Session) : Session :=
  let message := Conflicts.checkForExtensionConflictsMessage (notices ss) in
  if negb (JS.length message =? 0)
  then mkSession (exec (logMessage message) (paths ss)) (notices ss) (view ss)
  else ss.

(** The listeners of lines 328-338 and 492-495; [settings] is what
    [VSCOBOLConfiguration.init()] returns when the event arrives. *)
Inductive Event :=
| onExtChange
| onDidChangeConfiguration
| onDidChangeWorkspaceFolders.

Definition listener (ev : Event) (wb : Workbench)
    (ignore_unsafe_extensions : bool) (all : list Conflicts.Extension)
    (settings : ICOBOLSettings) (ss : Session) : Session :=
  match ev with
  | onExtChange | onDidChangeConfiguration =>
      activateLogChannelAndPaths true wb ignore_unsafe_extensions all
        settings ss
  | onDidChangeWorkspaceFolders =>
      activateLogChannelAndPaths false wb ignore_unsafe_extensions all
        settings ss
  end.

(** A computation that only writes the lines [out] to the channel. *)
Definition onlyLogs (c : M unit) (out : list string) : Prop :=
  forall s,
    c s = (tt, mkState (world s) (fileSearchDirectory s)
                 (invalidSearchDirectory s) (COBOLOutputChannel s ++ out)).

(** What [logSearchPaths] writes, from the two lists. *)
Definition searchPathLines (files invalid : list string) : list string :=
  (match getWorkspaceFolders with
   | Some ws =>
       "  Workspace Folders:"
       :: List.map (fun folder => "   => " +:+ folder_name folder +:+ " @ "
                                  +:+ uri_fsPath folder) ws
   | None => []
   end)
  ++ (match files with
      | [] => []
      | _ => "  Combined Workspace and CopyBook Folders to search:"
             :: List.map (fun sdir => "   => " +:+ sdir) files
      end)
  ++ (match invalid with
      | [] => []
      | _ => ("  Invalid CopyBook directories (" +:+ show_length invalid
              +:+ ")")
             :: List.map (fun sdir => "   => " +:+ sdir) invalid
      end)
  ++ [""].

(** The line of the channel for a directory. *)
Definition arrow (sdir : string) : string := "   => " +:+ sdir.

End WithHost.

(** An example workbench. *)
Definition workbench1 : Workbench :=
  mkWorkbench "1.50.0"
    (Some (mkThisExtension "/home/u/.vscode/extensions/bitlang.cobol"
             (Some "6.0.0")))
    true "on" "workspace" None false true.

Definition session1 : @Session (Sim.host Sim.fs1 Sim.ws1 Sim.dirs1) :=
  mkSession (Sim.start Sim.fs1 Sim.ws1 Sim.dirs1) Conflicts.noticeStart
    Hidden.

End LogPaths.

(** ** Listing files: [flip_plaintext] *)

Module Listing.

(** A document: [doc.languageId] and the text of its lines. *)
Record TextDocument := mkTextDocument {
  languageId : string;
  lines : list string
}.

(** [doc.lineCount] and [doc.lineAt(n).text]; the code asks for lines 0
    and 1 of a document of three lines at least. *)
Definition lineCount (doc : TextDocument) : Z :=
  Z.of_nat (List.length (lines doc)).

Definition lineAt_text (doc : TextDocument) (n : nat) : string :=
  nth n (lines doc) "".

(** [s.charCodeAt(0)], [None] for [NaN]. *)
Definition charCodeAt0 (s : string) : option Z :=
  match s with
  | String c _ => Some (Z.of_N (N_of_ascii c))
  | EmptyString => None
  end.

(** [flip_plaintext(doc)]: the language that is handed to
    [setTextDocumentLanguage], [None] when it is not called. *)
Definition flip_plaintext (doc : TextDocument) : option string :=
  if String.eqb (languageId doc) "plaintext" then
    let lcount := lineCount doc in
    if 3 <=? lcount then
      let firstLine := lineAt_text doc 0 in
      let secondLine := lineAt_text doc 1 in
      if (1 <=? JS.length firstLine)
         && match charCodeAt0 firstLine with
            | Some code => code =? 12
            | None => false
            end
         && JS.startsWith secondLine "* Micro Focus COBOL "
      then Some "COBOL_LISTFILE"
      else None
    else None
  else None.

(** [vscode.languages.setTextDocumentLanguage(doc, languageId)]: the
    document is opened again with the new language. *)
Definition setTextDocumentLanguage (doc : TextDocument) (languageId : string)
  : TextDocument :=
  mkTextDocument languageId (lines doc).

(** The listener of lines 499-501, with the document that results. *)
Definition onDidOpenTextDocument (doc : TextDocument) : TextDocument :=
  match flip_plaintext doc with
  | Some languageId => setTextDocumentLanguage doc languageId
  | None => doc
  end.

(** The loop of lines 505-507 over [workspace.textDocuments]. *)
Definition flipOpened (textDocuments : list TextDocument)
  : list TextDocument :=
  List.map onDidOpenTextDocument textDocuments.

(** The first line starts with a form feed and the second with the banner
    of the Micro Focus compiler. *)
Definition isListing (doc : TextDocument) : Prop :=
  exists rest1 rest2 more,
    lines doc
    = String (ascii_of_nat 12) rest1
      :: ("* Micro Focus COBOL " +:+ rest2) :: more
    /\ more <> [].

(** Example documents. *)
Definition listing1 : TextDocument :=
  mkTextDocument "plaintext"
    [String (ascii_of_nat 12) "";
     "* Micro Focus COBOL            V6.0 revision 000";
     "     1 identification division."].

Definition shortListing : TextDocument :=
  mkTextDocument "plaintext"
    [String (ascii_of_nat 12) "";
     "* Micro Focus COBOL            V6.0 revision 000"].

End Listing.

(** ** The terminal of the unit tests: the command [mfurunMenu] *)

Module UnitTest.

(** A terminal of the window: its name and the lines sent to it. *)
Record Terminal := mkTerminal {
  terminal_name : string;
  sentText : list string
}.

(** The terminals of the window, and the module-level variable
    [unitTestTerminal]: the position of its terminal among them. *)
Record State := mkState {
  terminals : list Terminal;
  unitTestTerminal : option nat
}.

Definition terminalName : string := "UnitTest".

(** [vscode.window.createTerminal(name)]. *)
Definition createTerminal (name : string) (st : State) : nat * State :=
  (List.length (terminals st),
   mkState (terminals st ++ [mkTerminal name []]) (unitTestTerminal st)).

(** [terminal.sendText(text)] on the terminal at position [t]. *)
Definition sendText (t : nat) (text : string) (st : State) : State :=
  mkState
    (alter (fun term => mkTerminal (terminal_name term)
                          (sentText term ++ [text])) t (terminals st))
    (unitTestTerminal st).

(** One run of the command: what [getMFUnitAnsiColorConfig()] and
    [properties.get('global.preferred-runner')] return ([None] for
    [null]), and [fileUri.fsPath]. *)
Record Run := mkRun {
  enableAnsiColor : bool;
  prefRunner : option string;
  fsPath : string
}.

(** The line that is sent. *)
Definition commandLine (r : Run) : string :=
  default "null" (prefRunner r) +:+ " -show-progress "
  +:+ (if enableAnsiColor r then " -dc:ansi " else " ")
  +:+ fsPath r.

(** The handler of [cobolplugin.mfurunMenu] (lines 647-662);
    [terminal.show(true)] changes no text. *)
Definition mfurunMenu (r : Run) (st : State) : State :=
  let (t, st) :=
    match unitTestTerminal st with
    | None =>
        let (t, st) := createTerminal terminalName st in
        (t, mkState (terminals st) (Some t))
    | Some t => (t, st)
    end in
  sendText t (commandLine r) st.

(** Runs of the command one after the other. *)
Definition runAll (runs : list Run) (st : State) : State :=
  fold_left (fun st r => mfurunMenu r st) runs st.

(** The state when the extension is loaded, in a window that has the
    terminals [others]. *)
Definition start (others : list Terminal) : State := mkState others None.

End UnitTest.

(** ** The commands registered by [activate] *)

Module Commands.

Inductive FoldAction := PerformTargets | ConstantsOrVariables | Keywords.

Inductive FoldStyle := LowerCase | UpperCase | CamelCase.

(** [window.activeTextEditor]: the language of its document. *)
Record TextEditor := mkTextEditor { languageId : string }.

(** The result of [Number.parseInt(text)], kept as the text it is made
    from; [None] is [undefined]. *)
Inductive Number := Number_parseInt (text : option string).

(** What the commands that take arguments or wait for an answer are
    given.
    - [insertIgnoreCommentLine_arguments]: [docUri], [offset] and [code].
    - [showWarningMessage_selection]: the answer to the warning of
      [change_source_format], [None] when it is dismissed.
    - [fetchTasks_result]: the names of the tasks that [tasks.fetchTasks()]
      gives, or the reason for which it fails.
    - [mfurun], [unitTestTerminal]: the run of [mfurunMenu] and the
      variable [unitTestTerminal] when the command starts.
    - [showInputBox_value]: the value of the input box of
      [resequenceColumnNumbers], [None] when the box is left;
      [activeTextEditor_then]: [window.activeTextEditor] when the value
      arrives; [Number_ge n k]: the comparison [n >= k] of the engine. *)
Record Answers := mkAnswers {
  insertIgnoreCommentLine_arguments : string * Z * string;
  showWarningMessage_selection : option string;
  fetchTasks_result : list string + string;
  mfurun : UnitTest.Run;
  unitTestTerminal : option nat;
  showInputBox_value : option string;
  activeTextEditor_then : option TextEditor;
  Number_ge : Number -> Z -> bool
}.

(** What the handlers read when a command runs. *)
Record Environment := mkEnvironment {
  activeTextEditor : option TextEditor;
  isTabstopEnabled : bool;
  isLineCommentEnabled : bool;
  isEnabledViaWorkspace4cobol : bool;
  answers : Answers
}.

(** The calls the handlers make on other modules. *)
Inductive Call :=
| cobolProgram_move2pd
| cobolProgram_move2dd
| cobolProgram_move2ws
| cobolProgram_move2anyforward
| cobolProgram_move2anybackwards
| tabstopper_processTabKey (inc : bool)
| commands_executeCommand (command : string)
| commenter_processCommentLine
| languages_setTextDocumentLanguage (editor : TextEditor)
    (languageId : string)
| enableMarginCobolMargin (enabled : bool)
| updateDecorations (editor : TextEditor)
| processAllFilesInWorkspaces (viaCommand : bool)
| dumpMetaData
| clearMetaData
| utils_RemoveComments (editor : TextEditor)
| utils_RemoveIdentificationArea (editor : TextEditor)
| utils_removeColumnNumbers (editor : TextEditor)
| utils_foldToken (editor : TextEditor) (action : FoldAction)
    (style : FoldStyle)
| utils_extractSelectionTo (editor : TextEditor) (para : bool)
| utils_extractSelectionToCopybook (editor : TextEditor)
| showCOBOLDOCDocumentation (editor : TextEditor)
| generateCOBOLSourceTag (editor : TextEditor)
| utils_migrateCopybooksToWorkspace
| cobolfixer_insertIgnoreCommentLine (docUri : string) (offset : Z)
    (code : string)
| tasks_executeTask (task : string)
| logMessage (message : string)
| window_createTerminal (name : string)
| terminal_show (preserveFocus : bool)
| terminal_sendText (text : string)
| utils_resequenceColumnNumbers (editor : option TextEditor)
    (startValue incrementValue : Number)
| window_showErrorMessage (message : string).

Definition Handler : Type := Environment -> list Call.

(** [langid === 'COBOL' || langid === 'OpenCOBOL' || langid === 'ACUCOBOL'] *)
Definition isCobolLangid (langid : string) : bool :=
  String.eqb langid "COBOL" || String.eqb langid "OpenCOBOL"
  || String.eqb langid "ACUCOBOL".

(** Lines 349-351. *)
Definition insertIgnoreCommentLineCommand : Handler := fun env =>
  let '(docUri, offset, code) :=
    insertIgnoreCommentLine_arguments (answers env) in
  [cobolfixer_insertIgnoreCommentLine docUri offset code].

(** Lines 352-370. *)
Definition move2pdCommand : Handler := fun _ => [cobolProgram_move2pd].
Definition move2ddCommand : Handler := fun _ => [cobolProgram_move2dd].
Definition move2wsCommand : Handler := fun _ => [cobolProgram_move2ws].
Definition move2anyforwardCommand : Handler :=
  fun _ => [cobolProgram_move2anyforward].
Definition move2anybackwardsCommand : Handler :=
  fun _ => [cobolProgram_move2anybackwards].

(** Lines 372-386. *)
Definition tabCommand : Handler := fun env =>
  if isTabstopEnabled env then [tabstopper_processTabKey true]
  else [commands_executeCommand "tab"].

Definition unTabCommand : Handler := fun env =>
  if isTabstopEnabled env then [tabstopper_processTabKey false]
  else [commands_executeCommand "outdent"].

(** Lines 388-403. *)
Definition commentLine : Handler := fun env =>
  match activeTextEditor env with
  | Some editor =>
      let langid := languageId editor in
      if isCobolLangid langid then
        if isLineCommentEnabled env then [commenter_processCommentLine]
        else [commands_executeCommand "editor.action.commentLine"]
      else []
  | None => [commands_executeCommand "editor.action.commentLine"]
  end.

(** A value as far as it is compared with [undefined] and [null]. *)
Inductive Value := undefined | null | function_value.

(** [workspace.getWorkspaceFolder]: the function of the API itself; line
    410 reads it and does not call it. *)
Definition workspace_getWorkspaceFolder : Value := function_value.

(** Lines 405-419; [selection] is the answer to the warning, [None] when
    the warning is dismissed. *)
Definition changeSourceFormat (selection : option string) : list Call :=
  let action := "Open Settings" in
  match selection with
  | Some answer =>
      if String.eqb action answer then
        let ws := workspace_getWorkspaceFolder in
        match ws with
        | undefined | null =>
            [commands_executeCommand "workbench.action.openGlobalSettings"]
        | function_value =>
            [commands_executeCommand "workbench.action.openWorkspaceSettings"]
        end
      else []
  | None => []
  end.

Definition changeSourceFormatCommand : Handler := fun env =>
  changeSourceFormat (showWarningMessage_selection (answers env)).

(** Lines 421-455. *)
Definition changeLanguageTo (languageId : string) : Handler := fun env =>
  match activeTextEditor env with
  | None => []
  | Some act => [languages_setTextDocumentLanguage act languageId]
  end.

Definition changeLanguageToAcu : Handler := changeLanguageTo "ACUCOBOL".
Definition changeLanguageToCOBOL : Handler := changeLanguageTo "COBOL".
Definition changeLanguageToOpenCOBOL : Handler :=
  changeLanguageTo "OpenCOBOL".
Definition changeLanguageToGnuCOBOL : Handler := changeLanguageTo "GnuCOBOL".

(** Lines 457-465. *)
Definition toggleCOBOLMargin : Handler := fun env =>
  match activeTextEditor env with
  | None => []
  | Some act =>
      [enableMarginCobolMargin (negb (isEnabledViaWorkspace4cobol env));
       updateDecorations act]
  end.

(** Lines 467-477. *)
Definition processAllFilesInWorkspace : Handler :=
  fun _ => [processAllFilesInWorkspaces true].
Definition dumpMetadata : Handler := fun _ => [dumpMetaData].
Definition clearMetaDataCommand : Handler := fun _ => [clearMetaData].

(** Lines 480-490; a task is kept as its name. *)
Definition syntaxCheck : Handler := fun env =>
  match fetchTasks_result (answers env) with
  | inl fetchedTasks =>
      List.map tasks_executeTask
        (List.filter (fun name => JS.startsWith name "cobol-syntax-check")
           fetchedTasks)
  | inr reason => [logMessage ("Syntax check failed due to " +:+ reason)]
  end.

(** Lines 647-662, as calls; module [UnitTest] follows the terminal. *)
Definition mfurunMenuCommand : Handler := fun env =>
  (match unitTestTerminal (answers env) with
   | None => [window_createTerminal UnitTest.terminalName]
   | Some _ => []
   end)
  ++ [terminal_show true;
      terminal_sendText (UnitTest.commandLine (mfurun (answers env)))].

(** The frame of the handlers of lines 665-867: an active editor whose
    language is one of the three. *)
Definition onCobolEditor (body : TextEditor -> list Call) : Handler :=
  fun env =>
    match activeTextEditor env with
    | Some editor =>
        let langid := languageId editor in
        if isCobolLangid langid then body editor else []
    | None => []
    end.

Definition removeAllCommentsCommand : Handler :=
  onCobolEditor (fun editor => [utils_RemoveComments editor]).
Definition removeIdentificationAreaCommand : Handler :=
  onCobolEditor (fun editor => [utils_RemoveIdentificationArea editor]).
Definition removeColumnNumbersCommand : Handler :=
  onCobolEditor (fun editor => [utils_removeColumnNumbers editor]).
Definition makeKeywordsLowercaseCommands : Handler :=
  onCobolEditor (fun editor => [utils_foldToken editor Keywords LowerCase]).
Definition makeKeywordsUppercaseCommands : Handler :=
  onCobolEditor (fun editor => [utils_foldToken editor Keywords UpperCase]).
Definition makeKeywordsCamelCaseCommands : Handler :=
  onCobolEditor (fun editor => [utils_foldToken editor Keywords CamelCase]).
Definition makeFieldsLowercaseCommand : Handler :=
  onCobolEditor (fun editor =>
    [utils_foldToken editor ConstantsOrVariables UpperCase]).
Definition makeFieldsUppercaseCommand : Handler :=
  onCobolEditor (fun editor =>
    [utils_foldToken editor ConstantsOrVariables UpperCase]).
Definition makeFieldsCamelCaseCommand : Handler :=
  onCobolEditor (fun editor =>
    [utils_foldToken editor ConstantsOrVariables CamelCase]).
Definition makePerformTargetsLowerCaseCommand : Handler :=
  onCobolEditor (fun editor =>
    [utils_foldToken editor PerformTargets LowerCase]).
Definition makePerformTargetsUpperCaseCommand : Handler :=
  onCobolEditor (fun editor =>
    [utils_foldToken editor PerformTargets UpperCase]).
Definition makePerformTargetsCamelCaseCommand : Handler :=
  onCobolEditor (fun editor =>
    [utils_foldToken editor PerformTargets CamelCase]).
Definition extractSelectionToParagraphCommand : Handler :=
  onCobolEditor (fun editor => [utils_extractSelectionTo editor true]).
Definition extractSelectionToSectionCommand : Handler :=
  onCobolEditor (fun editor => [utils_extractSelectionTo editor false]).
Definition extractSelectionToCopybookCommand : Handler :=
  onCobolEditor (fun editor => [utils_extractSelectionToCopybook editor]).
Definition showDocumentationCommand : Handler :=
  onCobolEditor (fun editor => [showCOBOLDOCDocumentation editor]).
Definition generateCOBOLSourceTagCommand : Handler :=
  onCobolEditor (fun editor => [generateCOBOLSourceTag editor]).

(** Lines 870-873. *)
Definition migrateCopybooksToWorkspaceCommand : Handler :=
  fun _ => [utils_migrateCopybooksToWorkspace].

(** [value.split(" ")]: the parts between the spaces. *)
Fixpoint split_from (s part : string) : list string :=
  match s with
  | EmptyString => [part]
  | String c s' =>
      if Ascii.eqb c " " then part :: split_from s' ""
      else split_from s' (part +:+ String c "")
  end.

Definition split (value : string) : list string := split_from value "".

(** Lines 876-908. The language is tested on the editor that is active
    when the command starts; the callback of the input box reads
    [vscode.window.activeTextEditor] again. The box hands over a value
    that its [validateInput] accepts, or [undefined]. *)
Definition resequenceColumnNumbersCommands : Handler := fun env =>
  match activeTextEditor env with
  | Some editor =>
      let langid := languageId editor in
      if isCobolLangid langid then
        match showInputBox_value (answers env) with
        | None => []
        | Some value =>
            let values := split value in
            let startValue := Number_parseInt (values !! 0%nat) in
            let incrementValue := Number_parseInt (values !! 1%nat) in
            if Number_ge (answers env) startValue 0
               && Number_ge (answers env) incrementValue 1
            then [utils_resequenceColumnNumbers
                    (activeTextEditor_then (answers env))
                    startValue incrementValue]
            else [window_showErrorMessage "Sorry invalid re-sequence given"]
        end
      else []
  | None => []
  end.

(** The commands under the names [commands.registerCommand] gets, in the
    order of the source. *)
Definition registerCommand : list (string * Handler) :=
  [("cobolplugin.insertIgnoreCommentLine", insertIgnoreCommentLineCommand);
   ("cobolplugin.move2pd", move2pdCommand);
   ("cobolplugin.move2dd", move2ddCommand);
   ("cobolplugin.move2ws", move2wsCommand);
   ("cobolplugin.move2anyforward", move2anyforwardCommand);
   ("cobolplugin.move2anybackwards", move2anybackwardsCommand);
   ("cobolplugin.tab", tabCommand);
   ("cobolplugin.revtab", unTabCommand);
   ("cobolplugin.commentline", commentLine);
   ("cobolplugin.change_source_format", changeSourceFormatCommand);
   ("cobolplugin.change_lang_to_acu", changeLanguageToAcu);
   ("cobolplugin.change_lang_to_cobol", changeLanguageToCOBOL);
   ("cobolplugin.change_lang_to_opencobol", changeLanguageToOpenCOBOL);
   ("cobolplugin.change_lang_to_gnucobol", changeLanguageToGnuCOBOL);
   ("cobolplugin.toggle_margin", toggleCOBOLMargin);
   ("cobolplugin.processAllFilesInWorkspace", processAllFilesInWorkspace);
   ("cobolplugin.dumpMetaData", dumpMetadata);
   ("cobolplugin.clearMetaData", clearMetaDataCommand);
   ("cobolplugin.syntaxCheck", syntaxCheck);
   ("cobolplugin.mfurunMenu", mfurunMenuCommand);
   ("cobolplugin.removeAllComments", removeAllCommentsCommand);
   ("cobolplugin.removeIdentificationArea", removeIdentificationAreaCommand);
   ("cobolplugin.removeColumnNumbers", removeColumnNumbersCommand);
   ("cobolplugin.makeKeywordsLowercase", makeKeywordsLowercaseCommands);
   ("cobolplugin.makeKeywordsUppercase", makeKeywordsUppercaseCommands);
   ("cobolplugin.makeKeywordsCamelCase", makeKeywordsCamelCaseCommands);
   ("cobolplugin.makeFieldsLowercase", makeFieldsLowercaseCommand);
   ("cobolplugin.makeFieldsUppercase", makeFieldsUppercaseCommand);
   ("cobolplugin.makeFieldsCamelCase", makeFieldsCamelCaseCommand);
   ("cobolplugin.makePerformTargetsLowerCase",
    makePerformTargetsLowerCaseCommand);
   ("cobolplugin.makePerformTargetsUpperCase",
    makePerformTargetsUpperCaseCommand);
   ("cobolplugin.makePerformTargetsCamelCase",
    makePerformTargetsCamelCaseCommand);
   ("cobolplugin.extractSelectionToParagraph",
    extractSelectionToParagraphCommand);
   ("cobolplugin.extractSelectionToSection",
    extractSelectionToSectionCommand);
   ("cobolplugin.extractSelectionToCopybook",
    extractSelectionToCopybookCommand);
   ("cobolplugin.showDocumentation", showDocumentationCommand);
   ("cobolplugin.generateSourceTag", generateCOBOLSourceTagCommand);
   ("cobolplugin.migrateCopybooksToWorkspace",
    migrateCopybooksToWorkspaceCommand);
   ("cobolplugin.resequenceColumnNumbers",
    resequenceColumnNumbersCommands)].

(** The editor a call hands to [COBOLUtils] or to
    [COBOLDocumentationGenerator]. *)
Definition editorArgument (c : Call) : option TextEditor :=
  match c with
  | utils_RemoveComments editor
  | utils_RemoveIdentificationArea editor
  | utils_removeColumnNumbers editor
  | utils_foldToken editor _ _
  | utils_extractSelectionTo editor _
  | utils_extractSelectionToCopybook editor
  | showCOBOLDOCDocumentation editor
  | generateCOBOLSourceTag editor => Some editor
  | utils_resequenceColumnNumbers editor _ _ => editor
  | _ => None
  end.

(** The active editor is on a source of one of the three languages. *)
Definition onCobolSource (env : Environment) : Prop :=
  exists editor,
    activeTextEditor env = Some editor
    /\ isCobolLangid (languageId editor) = true.

(** A call that works on the text of the active editor is made on a
    source of one of the three languages only; the line commenter is
    called only when it is enabled as well. *)
Definition guarded (env : Environment) (c : Call) : Prop :=
  (forall editor, editorArgument c = Some editor ->
                  activeTextEditor env = Some editor
                  /\ isCobolLangid (languageId editor) = true)
  /\ (c = commenter_processCommentLine ->
      onCobolSource env /\ isLineCommentEnabled env = true).

(** Examples. The input box is answered with [10 10] while an editor on
    a Markdown file has become the active one. *)
Definition answers1 : Answers :=
  mkAnswers ("file:///proj/prog.cbl", 120, "noref(Unused-Para)")
    (Some "Open Settings") (inl ["cobol-syntax-check: prog"; "build"])
    (UnitTest.mkRun true (Some "mfurun") "/proj/tests/t1.mfu") None
    (Some "10 10") (Some (mkTextEditor "markdown"))
    (fun n k =>
       match n with
       | Number_parseInt (Some "10") => true
       | _ => false
       end).

(** An editor on a GnuCOBOL source, and one on a COBOL source. *)
Definition gnuEditor : Environment :=
  mkEnvironment (Some (mkTextEditor "GnuCOBOL")) true true false answers1.

Definition cobolEditor : Environment :=
  mkEnvironment (Some (mkTextEditor "COBOL")) true true false answers1.

End Commands.

(** * Facts *)

(** An element is in a list that is given in full. *)
Ltac in_list :=
  repeat first [apply list_elem_of_here | apply list_elem_of_further].

(** A string literal is not in a list of other literals. *)
Ltac not_in_list :=
  repeat (apply not_elem_of_cons; split; [discriminate|]);
  apply not_elem_of_nil.

(** ** Arrays: [indexOf] and the removal of duplicates *)

Module JSFacts.
Import JS.

(** [ETAPE] with an acute accent on the first letter: six bytes, five
    code units; a character outside the basic plane takes two units. *)
Example utf16_length_ex :
  utf16_length "MAIN-PARA" = 9
  /\ utf16_length "ÉTAPE" = 5 /\ length "ÉTAPE" = 6
  /\ utf16_length "𝄞" = 2.
Proof. repeat split. Qed.

Example filter_first_index_ex :
  filter_first_index ["/a"; "/b"; "/a"; "/c"; "/b"] = ["/a"; "/b"; "/c"].
Proof. reflexivity. Qed.

Lemma indexOf_range (arr : list string) (x : string) :
  -1 <= indexOf arr x < Z.of_nat (List.length arr).
Proof.
  induction arr as [|a arr IH]; simpl; [lia|].
  destruct (String.eqb a x); [lia|].
  destruct (Z.ltb_spec (indexOf arr x) 0); lia.
Qed.

Lemma indexOf_elem (arr : list string) (x : string) :
  0 <= indexOf arr x <-> x ∈ arr.
Proof.
  induction arr as [|a arr IH]; simpl.
  - split; [lia | intros Hx; inversion Hx].
  - rewrite elem_of_cons.
    destruct (String.eqb_spec a x) as [->|Hne].
    + split; [auto | lia].
    + destruct (Z.ltb_spec (indexOf arr x) 0) as [Hlt|Hge].
      * split; [lia|]. intros [Heq|Hin]; [congruence|].
        apply IH in Hin. lia.
      * split; [intros _; right; apply IH; lia | lia].
Qed.

Lemma indexOf_not_elem (arr : list string) (x : string) :
  x ∉ arr -> indexOf arr x = -1.
Proof.
  intros Hx. rewrite <- indexOf_elem in Hx.
  pose proof (indexOf_range arr x). lia.
Qed.

Lemma indexOf_cons_ne (a : string) (arr : list string) (x : string) :
  a <> x -> x ∈ arr -> indexOf (a :: arr) x = indexOf arr x + 1.
Proof.
  intros Hne Hin. simpl.
  destruct (String.eqb_spec a x); [congruence|].
  apply indexOf_elem in Hin.
  destruct (Z.ltb_spec (indexOf arr x) 0); lia.
Qed.

Lemma indexOf_app_l (pre suf : list string) (x : string) :
  x ∈ pre -> indexOf (pre ++ suf) x = indexOf pre x.
Proof.
  induction pre as [|a pre IH]; simpl; intros Hin; [inversion Hin|].
  destruct (String.eqb_spec a x) as [|Hne]; [reflexivity|].
  apply elem_of_cons in Hin as [?|Hin]; [congruence|].
  rewrite IH by assumption. reflexivity.
Qed.

Lemma indexOf_app_here (pre suf : list string) (x : string) :
  x ∉ pre -> indexOf (pre ++ x :: suf) x = Z.of_nat (List.length pre).
Proof.
  induction pre as [|a pre IH]; simpl; intros Hin.
  - rewrite String.eqb_refl. reflexivity.
  - apply not_elem_of_cons in Hin as [Hne Hin].
    destruct (String.eqb_spec a x); [congruence|].
    rewrite IH by assumption.
    destruct (Z.ltb_spec (Z.of_nat (List.length pre)) 0); lia.
Qed.

(** The element at position [length pre] of [pre ++ x :: suf] is kept by
    the callback of line 245 exactly when it does not occur before. *)
Lemma first_index_test (pre suf : list string) (x : string) :
  (indexOf (pre ++ x :: suf) x =? Z.of_nat (List.length pre)) = true
  <-> x ∉ pre.
Proof.
  rewrite Z.eqb_eq. split.
  - intros Heq Hin.
    rewrite indexOf_app_l in Heq by assumption.
    pose proof (indexOf_range pre x). lia.
  - apply indexOf_app_here.
Qed.

Lemma keptFrom_cons (pre suf : list string) (x : string) :
  keptFrom pre (x :: suf) =
  if bool_decide (x ∈ pre) then keptFrom (pre ++ [x]) suf
  else x :: keptFrom (pre ++ [x]) suf.
Proof.
  unfold keptFrom. simpl.
  replace (Z.of_nat (List.length pre) + 1)
    with (Z.of_nat (List.length (pre ++ [x])))
    by (rewrite length_app; simpl; lia).
  replace (pre ++ x :: suf) with ((pre ++ [x]) ++ suf)
    by (rewrite <- app_assoc; reflexivity).
  destruct (indexOf ((pre ++ [x]) ++ suf) x =? Z.of_nat (List.length pre))
    eqn:Htest.
  - rewrite <- app_assoc in Htest. simpl in Htest.
    apply first_index_test in Htest.
    rewrite bool_decide_eq_false_2 by assumption. reflexivity.
  - rewrite bool_decide_eq_true_2; [reflexivity|].
    destruct (decide (x ∈ pre)) as [|Hn]; [assumption|].
    rewrite <- app_assoc in Htest. simpl in Htest.
    apply (proj2 (first_index_test pre suf x)) in Hn. congruence.
Qed.

Lemma filter_first_index_keptFrom (arr : list string) :
  filter_first_index arr = keptFrom [] arr.
Proof. reflexivity. Qed.

Lemma elem_of_keptFrom (pre suf : list string) (x : string) :
  x ∈ keptFrom pre suf <-> x ∈ suf /\ x ∉ pre.
Proof.
  revert pre. induction suf as [|a suf IH]; intros pre.
  - unfold keptFrom. simpl. split; [intros Hx; inversion Hx|].
    intros [Hx _]; inversion Hx.
  - rewrite keptFrom_cons. case_bool_decide as Ha.
    + rewrite IH, elem_of_cons, not_elem_of_app, list_elem_of_singleton.
      split.
      * intros [Hin [Hpre Hne]]. auto.
      * intros [[->|Hin] Hpre]; [contradiction|].
        repeat split; auto. intros ->. contradiction.
    + rewrite !elem_of_cons, IH, not_elem_of_app, list_elem_of_singleton.
      split.
      * intros [->|[Hin [Hpre Hne]]]; auto.
      * intros [[->|Hin] Hpre]; [auto|].
        destruct (decide (x = a)) as [->|Hne]; auto.
Qed.

Lemma NoDup_keptFrom (pre suf : list string) : NoDup (keptFrom pre suf).
Proof.
  revert pre. induction suf as [|a suf IH]; intros pre.
  - unfold keptFrom. simpl. apply NoDup_nil_2.
  - rewrite keptFrom_cons. case_bool_decide as Ha; [apply IH|].
    apply NoDup_cons. split; [|apply IH].
    rewrite elem_of_keptFrom, not_elem_of_app, list_elem_of_singleton.
    intros [_ [_ Hne]]. congruence.
Qed.

Lemma keptFrom_order (pre suf : list string) (x y : string) :
  x ∈ suf -> x ∉ pre -> y ∈ suf -> y ∉ pre ->
  (indexOf (keptFrom pre suf) x < indexOf (keptFrom pre suf) y
   <-> indexOf suf x < indexOf suf y).
Proof.
  revert pre. induction suf as [|a suf IH]; intros pre Hx Hxp Hy Hyp.
  - inversion Hx.
  - rewrite keptFrom_cons. case_bool_decide as Ha.
    + assert (a <> x) by (intros ->; contradiction).
      assert (a <> y) by (intros ->; contradiction).
      apply elem_of_cons in Hx as [?|Hx]; [congruence|].
      apply elem_of_cons in Hy as [?|Hy]; [congruence|].
      rewrite !indexOf_cons_ne by assumption.
      assert (indexOf (keptFrom (pre ++ [a]) suf) x
              < indexOf (keptFrom (pre ++ [a]) suf) y
              <-> indexOf suf x < indexOf suf y) as Hih.
      { apply IH; try assumption;
          rewrite not_elem_of_app, list_elem_of_singleton; auto. }
      lia.
    + destruct (decide (a = x)) as [Hax|Hax];
        destruct (decide (a = y)) as [Hay|Hay].
      * subst. simpl. rewrite !String.eqb_refl. lia.
      * subst a. apply elem_of_cons in Hy as [?|Hy]; [congruence|].
        assert (y ∈ keptFrom (pre ++ [x]) suf) as Hk.
        { apply elem_of_keptFrom. split; [assumption|].
          rewrite not_elem_of_app, list_elem_of_singleton. auto. }
        rewrite (indexOf_cons_ne x _ y) by assumption.
        rewrite (indexOf_cons_ne x suf y) by assumption.
        simpl. rewrite String.eqb_refl.
        apply indexOf_elem in Hk. apply indexOf_elem in Hy. lia.
      * subst a. apply elem_of_cons in Hx as [?|Hx]; [congruence|].
        assert (x ∈ keptFrom (pre ++ [y]) suf) as Hk.
        { apply elem_of_keptFrom. split; [assumption|].
          rewrite not_elem_of_app, list_elem_of_singleton. auto. }
        rewrite (indexOf_cons_ne y _ x) by assumption.
        rewrite (indexOf_cons_ne y suf x) by assumption.
        simpl. rewrite String.eqb_refl.
        apply indexOf_elem in Hk. apply indexOf_elem in Hx. lia.
      * apply elem_of_cons in Hx as [?|Hx]; [congruence|].
        apply elem_of_cons in Hy as [?|Hy]; [congruence|].
        assert (x ∈ keptFrom (pre ++ [a]) suf) as Hkx.
        { apply elem_of_keptFrom. split; [assumption|].
          rewrite not_elem_of_app, list_elem_of_singleton. auto. }
        assert (y ∈ keptFrom (pre ++ [a]) suf) as Hky.
        { apply elem_of_keptFrom. split; [assumption|].
          rewrite not_elem_of_app, list_elem_of_singleton. auto. }
        rewrite !indexOf_cons_ne by assumption.
        assert (indexOf (keptFrom (pre ++ [a]) suf) x
                < indexOf (keptFrom (pre ++ [a]) suf) y
                <-> indexOf suf x < indexOf suf y) as Hih.
        { apply IH; try assumption;
            rewrite not_elem_of_app, list_elem_of_singleton; auto. }
        lia.
Qed.

Lemma elem_of_filter_first_index (arr : list string) (x : string) :
  x ∈ filter_first_index arr <-> x ∈ arr.
Proof.
  rewrite filter_first_index_keptFrom, elem_of_keptFrom.
  split; [tauto|]. intros Hx. split; [assumption|]. apply not_elem_of_nil.
Qed.

Lemma NoDup_filter_first_index (arr : list string) :
  NoDup (filter_first_index arr).
Proof. rewrite filter_first_index_keptFrom. apply NoDup_keptFrom. Qed.

Lemma filter_first_index_order (arr : list string) (x y : string) :
  x ∈ arr -> y ∈ arr ->
  (indexOf (filter_first_index arr) x < indexOf (filter_first_index arr) y
   <-> indexOf arr x < indexOf arr y).
Proof.
  intros Hx Hy. rewrite filter_first_index_keptFrom.
  apply keptFrom_order; auto using not_elem_of_nil.
Qed.

End JSFacts.

(** ** The search path *)

Module SearchPathFacts.
Import SearchPath.
Local Open Scope search_scope.


Example run1_active :
  fileSearchDirectory
    (exec (initExtensionSearchPaths Sim.uncOff)
       (Sim.start Sim.fs1 Sim.ws1 Sim.dirs1))
  = ["/opt/copylib"; "\\srv\share"; "/proj"; "/proj/copybooks"].
Proof. vm_compute. reflexivity. Qed.

Example run1_invalid :
  invalidSearchDirectory
    (exec (initExtensionSearchPaths Sim.uncOff)
       (Sim.start Sim.fs1 Sim.ws1 Sim.dirs1))
  = ["/mnt/slow"; "/gone"; "/proj/missing"].
Proof. vm_compute. reflexivity. Qed.

Example run1_log :
  COBOLOutputChannel
    (exec (initExtensionSearchPaths Sim.uncOn)
       (Sim.start Sim.fs1 Sim.ws1 Sim.dirs1))
  = [" Warning: non portable copybook directory /opt/copylib defined";
     " Warning: non portable copybook directory /mnt/slow defined";
     " Slow copybook directory dropped /mnt/slow as it took 3000.00ms";
     " Warning: non portable copybook directory /gone defined";
     " Copybook directory \\srv\share has been marked as invalid, as it is a unc filename";
     " Warning: non portable copybook directory /opt/copylib defined"].
Proof. vm_compute. reflexivity. Qed.

Section WithHost.
Context `{Host}.

(** *** The monad *)

Lemma exec_bind {A B} (c : M A) (k : A -> M B) (s : State) :
  exec (bind c k) s = exec (k (fst (c s))) (snd (c s)).
Proof. unfold exec, bind. destruct (c s). reflexivity. Qed.

Lemma exec_seq {A B} (c : M A) (k : M B) (s : State) :
  exec (c ;; k) s = exec k (exec c s).
Proof. apply exec_bind. Qed.

Lemma exec_for_of_app {A} (l1 l2 : list A) (body : A -> M unit) (s : State) :
  exec (for_of (l1 ++ l2) body) s
  = exec (for_of l2 body) (exec (for_of l1 body) s).
Proof.
  revert s. induction l1 as [|x l1 IH]; intros s; simpl.
  - reflexivity.
  - rewrite !exec_seq. apply IH.
Qed.

Lemma exec_for_of_cons {A} (x : A) (l : list A) (body : A -> M unit)
    (s : State) :
  exec (for_of (x :: l) body) s = exec (for_of l body) (exec (body x) s).
Proof. simpl. apply exec_seq. Qed.

Lemma exec_for_of_split {A} (l pre : list A) (x : A) (post : list A)
    (body : A -> M unit) (s : State) :
  l = pre ++ x :: post ->
  exec (for_of l body) s
  = exec (for_of post body) (exec (body x) (exec (for_of pre body) s)).
Proof.
  intros ->. rewrite exec_for_of_app, exec_for_of_cons. reflexivity.
Qed.

(** *** How the lists grow *)

Lemma grows_refl (P Q : string -> Prop) (s : State) : grows P Q s s.
Proof.
  split; exists []; rewrite app_nil_r; auto.
Qed.

Lemma grows_trans (P Q : string -> Prop) (s1 s2 s3 : State) :
  grows P Q s1 s2 -> grows P Q s2 s3 -> grows P Q s1 s3.
Proof.
  intros [[a1 [Ha1 Hp1]] [i1 [Hi1 Hq1]]] [[a2 [Ha2 Hp2]] [i2 [Hi2 Hq2]]].
  split.
  - exists (a1 ++ a2). rewrite Ha2, Ha1, app_assoc.
    split; [reflexivity | apply Forall_app; auto].
  - exists (i1 ++ i2). rewrite Hi2, Hi1, app_assoc.
    split; [reflexivity | apply Forall_app; auto].
Qed.

Lemma grows_weaken (P Q P' Q' : string -> Prop) (s s' : State) :
  (forall x, P x -> P' x) -> (forall x, Q x -> Q' x) ->
  grows P Q s s' -> grows P' Q' s s'.
Proof.
  intros HP HQ [[a [Ha Hpa]] [i [Hi Hqi]]]. split.
  - exists a. split; [assumption|]. eapply Forall_impl; eauto.
  - exists i. split; [assumption|]. eapply Forall_impl; eauto.
Qed.

Lemma grows_file_elem (P Q : string -> Prop) (s s' : State) (x : string) :
  grows P Q s s' ->
  (x ∈ fileSearchDirectory s -> x ∈ fileSearchDirectory s')
  /\ (x ∈ fileSearchDirectory s' -> x ∈ fileSearchDirectory s \/ P x).
Proof.
  intros [[a [Ha Hpa]] _]. rewrite Ha, elem_of_app. split; [auto|].
  intros [Hx|Hx]; [auto|]. right.
  rewrite Forall_forall in Hpa. auto.
Qed.

Lemma grows_invalid_elem (P Q : string -> Prop) (s s' : State) (x : string) :
  grows P Q s s' ->
  (x ∈ invalidSearchDirectory s -> x ∈ invalidSearchDirectory s')
  /\ (x ∈ invalidSearchDirectory s' -> x ∈ invalidSearchDirectory s \/ Q x).
Proof.
  intros [_ [i [Hi Hqi]]]. rewrite Hi, elem_of_app. split; [auto|].
  intros [Hx|Hx]; [auto|]. right.
  rewrite Forall_forall in Hqi. auto.
Qed.

Lemma for_of_grows {A} (P Q : string -> Prop) (l : list A)
    (body : A -> M unit) :
  (forall x s, x ∈ l -> grows P Q s (exec (body x) s)) ->
  forall s, grows P Q s (exec (for_of l body) s).
Proof.
  induction l as [|x l IH]; intros Hbody s.
  - apply grows_refl.
  - rewrite exec_for_of_cons. eapply grows_trans.
    + apply Hbody. apply elem_of_cons. auto.
    + apply IH. intros y s' Hy. apply Hbody. apply elem_of_cons. auto.
Qed.

(** *** The steps *)

Lemma step1_excluded (config : ICOBOLSettings) (ddir : string) (s : State) :
  disable_unc_copybooks_directories config && isNetworkPath ddir = true ->
  exec (step1 config ddir) s
  = mkState (world s) (fileSearchDirectory s)
      (invalidSearchDirectory s ++ [ddir])
      (COBOLOutputChannel s ++
         [" Copybook directory " +:+ ddir +:+
          " has been marked as invalid, as it is a unc filename"]).
Proof.
  intros Hex. unfold step1. rewrite Hex. reflexivity.
Qed.

Lemma step1_skipped (config : ICOBOLSettings) (ddir : string) (s : State) :
  disable_unc_copybooks_directories config && isNetworkPath ddir = false ->
  isDirectPath ddir = false ->
  exec (step1 config ddir) s = s.
Proof.
  intros Hex Hd. unfold step1. rewrite Hex, Hd. destruct s. reflexivity.
Qed.

Lemma step1_checked (config : ICOBOLSettings) (ddir : string) (s : State) :
  disable_unc_copybooks_directories config && isNetworkPath ddir = false ->
  isDirectPath ddir = true ->
  if checkAnswer ddir (world s) && (checkDuration ddir (world s) <=? 2000)
  then fileSearchDirectory (exec (step1 config ddir) s)
       = fileSearchDirectory s ++ [ddir]
       /\ invalidSearchDirectory (exec (step1 config ddir) s)
          = invalidSearchDirectory s
  else fileSearchDirectory (exec (step1 config ddir) s)
       = fileSearchDirectory s
       /\ invalidSearchDirectory (exec (step1 config ddir) s)
          = invalidSearchDirectory s ++ [ddir].
Proof.
  intros Hex Hd. unfold step1. rewrite Hex, Hd.
  unfold checkAnswer, checkDuration, exec, bind, inWorld, when, logMessage,
    fileSearchDirectory_push, invalidSearchDirectory_push, ret.
  destruct getWorkspaceFolders; destruct (negb (isPathInWorkspace ddir));
    destruct (isNetworkPath ddir); simpl;
    destruct (performance_now (world s)) as [t0 w1]; simpl;
    destruct (isDirectory ddir w1) as [[|] w2]; simpl;
    try (split; reflexivity);
    destruct (performance_now w2) as [t1 w3]; simpl;
    destruct (t1 - t0 <=? 2000); simpl; split; reflexivity.
Qed.

Lemma step1_grows (config : ICOBOLSettings) (ddir : string) (s : State) :
  grows (eq ddir) (eq ddir) s (exec (step1 config ddir) s).
Proof.
  destruct (disable_unc_copybooks_directories config && isNetworkPath ddir)
    eqn:Hex.
  - rewrite step1_excluded by assumption. split; simpl.
    + exists []. rewrite app_nil_r. auto.
    + exists [ddir]. auto.
  - destruct (isDirectPath ddir) eqn:Hd.
    + pose proof (step1_checked config ddir s Hex Hd) as Hc.
      destruct (checkAnswer ddir (world s)
                && (checkDuration ddir (world s) <=? 2000));
        destruct Hc as [Hf Hi]; split.
      * exists [ddir]. auto.
      * exists []. rewrite app_nil_r. auto.
      * exists []. rewrite app_nil_r. auto.
      * exists [ddir]. auto.
    + rewrite step1_skipped by assumption. apply grows_refl.
Qed.

Lemma step1_loop_grows (config : ICOBOLSettings) (l : list string)
    (s : State) :
  grows (fun x => x ∈ l) (fun x => x ∈ l) s
    (exec (for_of l (step1 config)) s).
Proof.
  apply for_of_grows. intros x s' Hx.
  eapply grows_weaken; [| |apply step1_grows]; simpl; intros; subst; auto.
Qed.

Lemma step2_extdir_direct (folder : WorkspaceFolder) (extdir : string)
    (s : State) :
  isDirectPath extdir = true -> exec (step2_extdir folder extdir) s = s.
Proof.
  intros Hd. unfold step2_extdir. rewrite Hd. destruct s. reflexivity.
Qed.

Lemma step2_extdir_checked (folder : WorkspaceFolder) (extdir : string)
    (s : State) :
  isDirectPath extdir = false ->
  let sdir := path_join (uri_fsPath folder) extdir in
  if fst (isDirectory sdir (world s))
  then fileSearchDirectory (exec (step2_extdir folder extdir) s)
       = fileSearchDirectory s ++ [sdir]
       /\ invalidSearchDirectory (exec (step2_extdir folder extdir) s)
          = invalidSearchDirectory s
  else fileSearchDirectory (exec (step2_extdir folder extdir) s)
       = fileSearchDirectory s
       /\ invalidSearchDirectory (exec (step2_extdir folder extdir) s)
          = invalidSearchDirectory s ++ [sdir].
Proof.
  intros Hd sdir. unfold step2_extdir. rewrite Hd. fold sdir.
  unfold exec, bind, inWorld, when, logMessage,
    fileSearchDirectory_push, invalidSearchDirectory_push, ret. simpl.
  destruct (isDirectory sdir (world s)) as [[|] w1]; simpl;
    [|split; reflexivity].
  destruct (isNetworkPath sdir && negb (isPathInWorkspace sdir)); simpl;
    split; reflexivity.
Qed.

(** The paths that step 2 produces for a folder. *)
Lemma step2_extdir_grows (folder : WorkspaceFolder) (extdir : string)
    (s : State) :
  let P := fun x => isDirectPath extdir = false
                    /\ x = path_join (uri_fsPath folder) extdir in
  grows P P s (exec (step2_extdir folder extdir) s).
Proof.
  intros P. destruct (isDirectPath extdir) eqn:Hd.
  - rewrite step2_extdir_direct by assumption. apply grows_refl.
  - pose proof (step2_extdir_checked folder extdir s Hd) as Hc.
    simpl in Hc.
    destruct (fst (isDirectory (path_join (uri_fsPath folder) extdir)
                     (world s)));
      destruct Hc as [Hf Hi]; split.
    + eexists. split; [eassumption|]. constructor; [|constructor].
      split; auto.
    + exists []. rewrite app_nil_r. auto.
    + exists []. rewrite app_nil_r. auto.
    + eexists. split; [eassumption|]. constructor; [|constructor].
      split; auto.
Qed.

Lemma workspaceSupplies_folder (ws : list WorkspaceFolder)
    (folder : WorkspaceFolder) :
  getWorkspaceFolders = Some ws -> folder ∈ ws ->
  workspaceSupplies (uri_fsPath folder) = true.
Proof.
  intros Hws Hin. unfold workspaceSupplies. rewrite Hws.
  apply existsb_exists. exists folder. split.
  - apply list_elem_of_In. assumption.
  - rewrite String.eqb_refl. reflexivity.
Qed.

Lemma workspaceSupplies_join (ws : list WorkspaceFolder)
    (folder : WorkspaceFolder) (extdir : string) :
  getWorkspaceFolders = Some ws -> folder ∈ ws ->
  extdir ∈ getCopybookdirs_defaults -> isDirectPath extdir = false ->
  workspaceSupplies (path_join (uri_fsPath folder) extdir) = true.
Proof.
  intros Hws Hin He Hd. unfold workspaceSupplies. rewrite Hws.
  apply existsb_exists. exists folder. split.
  - apply list_elem_of_In. assumption.
  - apply orb_true_iff. right. apply existsb_exists. exists extdir. split.
    + apply list_elem_of_In. assumption.
    + rewrite Hd, String.eqb_refl. reflexivity.
Qed.

Lemma step2_folder_grows (ws : list WorkspaceFolder)
    (folder : WorkspaceFolder) (s : State) :
  getWorkspaceFolders = Some ws -> folder ∈ ws ->
  let P := fun x => workspaceSupplies x = true in
  grows P P s (exec (step2_folder getCopybookdirs_defaults folder) s).
Proof.
  intros Hws Hin P. unfold step2_folder. rewrite exec_seq.
  apply grows_trans
    with (s2 := exec (fileSearchDirectory_push (uri_fsPath folder)) s).
  - split; simpl.
    + exists [uri_fsPath folder]. split; [reflexivity|].
      constructor; [|constructor]. eapply workspaceSupplies_folder; eauto.
    + exists []. rewrite app_nil_r. auto.
  - apply for_of_grows. intros extdir s' He.
    eapply grows_weaken; [| |apply step2_extdir_grows]; simpl;
      intros x [Hd ->]; eapply workspaceSupplies_join; eauto.
Qed.

Lemma step2_grows (s : State) :
  let P := fun x => workspaceSupplies x = true in
  grows P P s (exec (step2 getCopybookdirs_defaults) s).
Proof.
  intros P. unfold step2.
  destruct getWorkspaceFolders as [ws|] eqn:Hws; [|apply grows_refl].
  apply for_of_grows. intros folder s' Hin.
  eapply step2_folder_grows; eauto.
Qed.

(** *** The whole function, seen from one entry of step 1 *)

Lemma init_from_entry (config : ICOBOLSettings) (pre post : list string)
    (ddir : string) (s0 : State) :
  getCopybookdirs_defaults = pre ++ ddir :: post ->
  exec (initExtensionSearchPaths config) s0
  = exec (for_of post (step1 config) ;;
          step2 getCopybookdirs_defaults ;;
          remove_duplicates)
      (exec (step1 config ddir) (reach1 config pre s0)).
Proof.
  intros Hdirs. unfold initExtensionSearchPaths, collectSearchPaths, reach1.
  cbv zeta. rewrite !exec_seq.
  rewrite (exec_for_of_split _ pre ddir post) by assumption. reflexivity.
Qed.

Lemma reach1_lists (config : ICOBOLSettings) (pre : list string)
    (s0 : State) (x : string) :
  (x ∈ fileSearchDirectory (reach1 config pre s0) -> x ∈ pre)
  /\ (x ∈ invalidSearchDirectory (reach1 config pre s0) -> x ∈ pre).
Proof.
  unfold reach1. rewrite exec_seq.
  pose proof (step1_loop_grows config pre (exec clear_lists s0)) as Hg.
  pose proof (grows_file_elem _ _ _ _ x Hg) as [_ Hf].
  pose proof (grows_invalid_elem _ _ _ _ x Hg) as [_ Hi].
  split; intros Hx.
  - destruct (Hf Hx) as [Hnil|]; [inversion Hnil | assumption].
  - destruct (Hi Hx) as [Hnil|]; [inversion Hnil | assumption].
Qed.

(** After an entry of step 1, what was in a list stays in it, and what
    comes in comes from a later entry or from step 2. *)
Lemma rest_grows (config : ICOBOLSettings) (post : list string) (s : State) :
  let P := fun x => x ∈ post \/ workspaceSupplies x = true in
  grows P P s
    (exec (for_of post (step1 config) ;; step2 getCopybookdirs_defaults) s).
Proof.
  intros P. rewrite exec_seq.
  apply grows_trans with (s2 := exec (for_of post (step1 config)) s).
  - apply grows_weaken
      with (P := fun x => x ∈ post) (Q := fun x => x ∈ post);
      [unfold P; auto | unfold P; auto | apply step1_loop_grows].
  - apply grows_weaken
      with (P := fun x => workspaceSupplies x = true)
           (Q := fun x => workspaceSupplies x = true);
      [unfold P; auto | unfold P; auto | apply step2_grows].
Qed.

Lemma rest_lists (config : ICOBOLSettings) (post : list string) (s : State)
    (x : string) :
  let final := exec (for_of post (step1 config) ;;
                     step2 getCopybookdirs_defaults ;;
                     remove_duplicates) s in
  (x ∈ fileSearchDirectory s -> x ∈ fileSearchDirectory final)
  /\ (x ∈ invalidSearchDirectory s -> x ∈ invalidSearchDirectory final)
  /\ (x ∈ fileSearchDirectory final ->
      x ∈ fileSearchDirectory s \/ x ∈ post \/ workspaceSupplies x = true)
  /\ (x ∈ invalidSearchDirectory final ->
      x ∈ invalidSearchDirectory s \/ x ∈ post \/ workspaceSupplies x = true).
Proof.
  intros final.
  pose proof (rest_grows config post s) as Hg. simpl in Hg.
  assert (final = exec remove_duplicates
            (exec (for_of post (step1 config) ;;
                   step2 getCopybookdirs_defaults) s)) as ->.
  { unfold final. rewrite !exec_seq. reflexivity. }
  unfold remove_duplicates, exec at 1 3 5 7. simpl.
  rewrite !JSFacts.elem_of_filter_first_index.
  pose proof (grows_file_elem _ _ _ _ x Hg) as [Hf1 Hf2].
  pose proof (grows_invalid_elem _ _ _ _ x Hg) as [Hi1 Hi2].
  repeat split; auto.
Qed.

(** Step 2 seen from one of its entries. *)
Lemma step2_extdir_mono (folder : WorkspaceFolder) (extdir : string)
    (s : State) :
  grows (fun _ => True) (fun _ => True) s
    (exec (step2_extdir folder extdir) s).
Proof.
  eapply grows_weaken; [| |apply step2_extdir_grows]; simpl; auto.
Qed.

Lemma step2_folder_mono (extsdir : list string) (folder : WorkspaceFolder)
    (s : State) :
  grows (fun _ => True) (fun _ => True) s
    (exec (step2_folder extsdir folder) s).
Proof.
  unfold step2_folder. rewrite exec_seq.
  apply grows_trans
    with (s2 := exec (fileSearchDirectory_push (uri_fsPath folder)) s).
  - split; simpl.
    + exists [uri_fsPath folder]. auto.
    + exists []. rewrite app_nil_r. auto.
  - apply for_of_grows. intros. apply step2_extdir_mono.
Qed.

Lemma init_from_entry2 (config : ICOBOLSettings)
    (wpre wpost : list WorkspaceFolder) (folder : WorkspaceFolder)
    (epre epost : list string) (extdir : string) (s0 : State) :
  getWorkspaceFolders = Some (wpre ++ folder :: wpost) ->
  getCopybookdirs_defaults = epre ++ extdir :: epost ->
  exec (initExtensionSearchPaths config) s0
  = exec (for_of epost (step2_extdir folder) ;;
          for_of wpost (step2_folder getCopybookdirs_defaults) ;;
          remove_duplicates)
      (exec (step2_extdir folder extdir) (reach2 config wpre folder epre s0)).
Proof.
  intros Hws Hdirs.
  unfold initExtensionSearchPaths, collectSearchPaths, reach2, step2.
  cbv zeta. rewrite Hws, !exec_seq.
  rewrite (exec_for_of_split _ wpre folder wpost) by reflexivity.
  unfold step2_folder at 2. rewrite exec_seq.
  rewrite (exec_for_of_split getCopybookdirs_defaults epre extdir epost)
    by assumption.
  reflexivity.
Qed.

Lemma rest2_invalid (folder : WorkspaceFolder) (epost extsdir : list string)
    (wpost : list WorkspaceFolder) (s : State) (x : string) :
  x ∈ invalidSearchDirectory s ->
  x ∈ invalidSearchDirectory
        (exec (for_of epost (step2_extdir folder) ;;
               for_of wpost (step2_folder extsdir) ;;
               remove_duplicates) s).
Proof.
  intros Hx. rewrite !exec_seq.
  unfold remove_duplicates, exec at 1. simpl.
  rewrite JSFacts.elem_of_filter_first_index.
  eapply grows_invalid_elem;
    [apply for_of_grows; intros; apply step2_folder_mono|].
  eapply grows_invalid_elem;
    [apply for_of_grows; intros; apply step2_extdir_mono|].
  assumption.
Qed.

(** *** The claims on the search path *)

(** C1 (amended). Let [ddir] be a direct configured directory that step 1
    checks (it is not set aside as a network path), and take the state in
    which step 1 reaches it. If the time measured around the existence
    check is strictly more than 2000 ms, the step leaves the active search
    path as it is and appends [ddir] to the invalid list, so [ddir] is in
    the invalid list the function returns; and [ddir] is not in the active
    path the function returns provided it has no other entry among the
    configured directories and step 2 does not supply it (as a workspace
    folder or as a join with one). If the measured time is at most 2000 ms
    and the path is a directory, the step appends [ddir] to the active
    path, and [ddir] is in the active path the function returns. *)
Theorem slow_directory_dropped (config : ICOBOLSettings) (s0 : State)
    (pre post : list string) (ddir : string) :
  getCopybookdirs_defaults = pre ++ ddir :: post ->
  isDirectPath ddir = true ->
  disable_unc_copybooks_directories config && isNetworkPath ddir = false ->
  let s := reach1 config pre s0 in
  let s' := exec (step1 config ddir) s in
  let final := exec (initExtensionSearchPaths config) s0 in
  (checkDuration ddir (world s) > 2000 ->
     fileSearchDirectory s' = fileSearchDirectory s
     /\ invalidSearchDirectory s' = invalidSearchDirectory s ++ [ddir]
     /\ ddir ∈ invalidSearchDirectory final
     /\ (ddir ∉ pre -> ddir ∉ post -> workspaceSupplies ddir = false ->
         ddir ∉ fileSearchDirectory final))
  /\ (checkDuration ddir (world s) <= 2000 ->
      checkAnswer ddir (world s) = true ->
      fileSearchDirectory s' = fileSearchDirectory s ++ [ddir]
      /\ invalidSearchDirectory s' = invalidSearchDirectory s
      /\ ddir ∈ fileSearchDirectory final).
Proof.
  intros Hdirs Hd Hex s s' final.
  pose proof (step1_checked config ddir s Hex Hd) as Hc. fold s' in Hc.
  pose proof (rest_lists config post s' ddir) as Hrest. cbv zeta in Hrest.
  assert (exec (for_of post (step1 config) ;;
                step2 getCopybookdirs_defaults ;;
                remove_duplicates) s' = final) as Hfin
    by (symmetry; apply (init_from_entry config pre post ddir s0 Hdirs)).
  rewrite Hfin in Hrest. destruct Hrest as (Hf1 & Hi1 & Hf2 & Hi2).
  split.
  - intros Hslow.
    assert ((checkDuration ddir (world s) <=? 2000) = false) as Hleb
      by (apply Z.leb_gt; lia).
    rewrite Hleb, andb_false_r in Hc. destruct Hc as [Hf Hi].
    repeat split; try assumption.
    + apply Hi1. rewrite Hi, elem_of_app, list_elem_of_singleton. auto.
    + intros Hpre Hpost Hws Hin.
      destruct (Hf2 Hin) as [Hin'|[Hin'|Hin']].
      * rewrite Hf in Hin'. apply reach1_lists in Hin'. contradiction.
      * contradiction.
      * congruence.
  - intros Hfast Hans.
    assert ((checkDuration ddir (world s) <=? 2000) = true) as Hleb
      by (apply Z.leb_le; lia).
    rewrite Hleb, Hans in Hc. destruct Hc as [Hf Hi].
    repeat split; try assumption.
    apply Hf1. rewrite Hf, elem_of_app, list_elem_of_singleton. auto.
Qed.

(** C6 (amended). Take the state in which step 1 reaches the configured
    directory [ddir]. If network directories are disabled and [ddir] is a
    network path, the step appends it to the invalid list and leaves the
    active path and the world as they are (no existence check is made), so
    [ddir] is in the invalid list the function returns; it is not in the
    active path the function returns provided it has no other entry among
    the configured directories and step 2 does not supply it. If [ddir] is
    a direct path, the step appends it to exactly one of the two lists, so
    it is in at least one of the lists the function returns, and, under the
    same proviso, not in both. *)
Theorem network_directory_set_aside (config : ICOBOLSettings) (s0 : State)
    (pre post : list string) (ddir : string) :
  getCopybookdirs_defaults = pre ++ ddir :: post ->
  let s := reach1 config pre s0 in
  let s' := exec (step1 config ddir) s in
  let final := exec (initExtensionSearchPaths config) s0 in
  (disable_unc_copybooks_directories config = true ->
   isNetworkPath ddir = true ->
     world s' = world s
     /\ fileSearchDirectory s' = fileSearchDirectory s
     /\ invalidSearchDirectory s' = invalidSearchDirectory s ++ [ddir]
     /\ ddir ∈ invalidSearchDirectory final
     /\ (ddir ∉ pre -> ddir ∉ post -> workspaceSupplies ddir = false ->
         ddir ∉ fileSearchDirectory final))
  /\ (isDirectPath ddir = true ->
      ((fileSearchDirectory s' = fileSearchDirectory s ++ [ddir]
        /\ invalidSearchDirectory s' = invalidSearchDirectory s)
       \/ (fileSearchDirectory s' = fileSearchDirectory s
           /\ invalidSearchDirectory s' = invalidSearchDirectory s ++ [ddir]))
      /\ (ddir ∈ fileSearchDirectory final
          \/ ddir ∈ invalidSearchDirectory final)
      /\ (ddir ∉ pre -> ddir ∉ post -> workspaceSupplies ddir = false ->
          ~ (ddir ∈ fileSearchDirectory final
             /\ ddir ∈ invalidSearchDirectory final))).
Proof.
  intros Hdirs s s' final.
  pose proof (rest_lists config post s' ddir) as Hrest. cbv zeta in Hrest.
  assert (exec (for_of post (step1 config) ;;
                step2 getCopybookdirs_defaults ;;
                remove_duplicates) s' = final) as Hfin
    by (symmetry; apply (init_from_entry config pre post ddir s0 Hdirs)).
  rewrite Hfin in Hrest. destruct Hrest as (Hf1 & Hi1 & Hf2 & Hi2).
  pose proof (reach1_lists config pre s0 ddir) as [Hpf Hpi]. fold s in Hpf, Hpi.
  assert (fileSearchDirectory s' = fileSearchDirectory s ->
          ddir ∉ pre -> ddir ∉ post -> workspaceSupplies ddir = false ->
          ddir ∉ fileSearchDirectory final) as Hnotfile.
  { intros Hf Hpre Hpost Hws Hin.
    destruct (Hf2 Hin) as [Hin'|[Hin'|Hin']];
      [rewrite Hf in Hin'; auto | contradiction | congruence]. }
  assert (invalidSearchDirectory s' = invalidSearchDirectory s ->
          ddir ∉ pre -> ddir ∉ post -> workspaceSupplies ddir = false ->
          ddir ∉ invalidSearchDirectory final) as Hnotinv.
  { intros Hi Hpre Hpost Hws Hin.
    destruct (Hi2 Hin) as [Hin'|[Hin'|Hin']];
      [rewrite Hi in Hin'; auto | contradiction | congruence]. }
  assert (forall l : list string, ddir ∈ l ++ [ddir]) as Hlast
    by (intros l; rewrite elem_of_app, list_elem_of_singleton; auto).
  split.
  - intros Hoff Hnet.
    assert (exec (step1 config ddir) s
            = mkState (world s) (fileSearchDirectory s)
                (invalidSearchDirectory s ++ [ddir])
                (COBOLOutputChannel s ++
                   [" Copybook directory " +:+ ddir +:+
                    " has been marked as invalid, as it is a unc filename"]))
      as Hs' by (apply step1_excluded; rewrite Hoff, Hnet; reflexivity).
    fold s' in Hs'.
    assert (fileSearchDirectory s' = fileSearchDirectory s) as Hf
      by (rewrite Hs'; reflexivity).
    assert (invalidSearchDirectory s' = invalidSearchDirectory s ++ [ddir])
      as Hi by (rewrite Hs'; reflexivity).
    repeat split; try assumption.
    + rewrite Hs'. reflexivity.
    + apply Hi1. rewrite Hi. apply Hlast.
    + intros. apply Hnotfile; assumption.
  - intros Hd.
    assert ((fileSearchDirectory s' = fileSearchDirectory s ++ [ddir]
             /\ invalidSearchDirectory s' = invalidSearchDirectory s)
            \/ (fileSearchDirectory s' = fileSearchDirectory s
                /\ invalidSearchDirectory s'
                   = invalidSearchDirectory s ++ [ddir])) as Hone.
    { destruct (disable_unc_copybooks_directories config
                && isNetworkPath ddir) eqn:Hex.
      - right. unfold s'. rewrite step1_excluded by assumption.
        split; reflexivity.
      - pose proof (step1_checked config ddir s Hex Hd) as Hc. fold s' in Hc.
        destruct (checkAnswer ddir (world s)
                  && (checkDuration ddir (world s) <=? 2000)); auto. }
    split; [exact Hone|]. destruct Hone as [[Hf Hi]|[Hf Hi]].
    + split.
      * left. apply Hf1. rewrite Hf. apply Hlast.
      * intros Hpre Hpost Hws [_ Hin]. revert Hin. apply Hnotinv; assumption.
    + split.
      * right. apply Hi1. rewrite Hi. apply Hlast.
      * intros Hpre Hpost Hws [Hin _]. revert Hin. apply Hnotfile; assumption.
Qed.

Lemma checkThrows_answer (ddir : string) (w : World) :
  checkThrows ddir w = true -> checkAnswer ddir w = false.
Proof.
  unfold checkThrows, checkAnswer, isDirectory.
  destruct (performance_now w) as [t0 w1].
  destruct (statSync ddir w1) as [[f|] w2]; simpl; [discriminate|reflexivity].
Qed.

(** C7. When [fs.statSync] throws, [isDirectory] and [isFile] answer
    [false]. In [initExtensionSearchPaths], a direct directory of step 1
    whose check throws, and a joined directory of step 2 whose check
    throws, is appended to the invalid list, and the function goes on with
    the remaining directories from the state so reached; the directory is
    in the invalid list the function returns. *)
Theorem filesystem_errors_not_fatal (config : ICOBOLSettings) (s0 : State) :
  let final := exec (initExtensionSearchPaths config) s0 in
  (forall sdir w,
     fst (statSync sdir w) = None ->
     fst (isDirectory sdir w) = false /\ fst (isFile sdir w) = false)
  /\ (forall pre ddir post,
      getCopybookdirs_defaults = pre ++ ddir :: post ->
      disable_unc_copybooks_directories config && isNetworkPath ddir = false ->
      isDirectPath ddir = true ->
      let s := reach1 config pre s0 in
      checkThrows ddir (world s) = true ->
      let s' := exec (step1 config ddir) s in
      fileSearchDirectory s' = fileSearchDirectory s
      /\ invalidSearchDirectory s' = invalidSearchDirectory s ++ [ddir]
      /\ final = exec (for_of post (step1 config) ;;
                       step2 getCopybookdirs_defaults ;;
                       remove_duplicates) s'
      /\ ddir ∈ invalidSearchDirectory final)
  /\ (forall wpre folder wpost epre extdir epost,
      getWorkspaceFolders = Some (wpre ++ folder :: wpost) ->
      getCopybookdirs_defaults = epre ++ extdir :: epost ->
      isDirectPath extdir = false ->
      let sdir := path_join (uri_fsPath folder) extdir in
      let s := reach2 config wpre folder epre s0 in
      fst (statSync sdir (world s)) = None ->
      let s' := exec (step2_extdir folder extdir) s in
      fileSearchDirectory s' = fileSearchDirectory s
      /\ invalidSearchDirectory s' = invalidSearchDirectory s ++ [sdir]
      /\ final = exec (for_of epost (step2_extdir folder) ;;
                       for_of wpost (step2_folder getCopybookdirs_defaults) ;;
                       remove_duplicates) s'
      /\ sdir ∈ invalidSearchDirectory final).
Proof.
  intros final. split; [|split].
  - intros sdir w Hthrow. unfold isDirectory, isFile.
    destruct (statSync sdir w) as [[f|] w']; simpl in *;
      [discriminate | split; reflexivity].
  - intros pre ddir post Hdirs Hex Hd s Hthrow s'.
    pose proof (step1_checked config ddir s Hex Hd) as Hc. fold s' in Hc.
    rewrite (checkThrows_answer _ _ Hthrow) in Hc. simpl in Hc.
    destruct Hc as [Hf Hi].
    assert (final = exec (for_of post (step1 config) ;;
                          step2 getCopybookdirs_defaults ;;
                          remove_duplicates) s') as Hfin
      by (apply (init_from_entry config pre post ddir s0 Hdirs)).
    repeat split; try assumption.
    rewrite Hfin. apply rest_lists. rewrite Hi.
    rewrite elem_of_app, list_elem_of_singleton. auto.
  - intros wpre folder wpost epre extdir epost Hws Hdirs Hd sdir s Hthrow s'.
    pose proof (step2_extdir_checked folder extdir s Hd) as Hc.
    cbv zeta in Hc. fold sdir s' in Hc.
    assert (fst (isDirectory sdir (world s)) = false) as Hans.
    { unfold isDirectory.
      destruct (statSync sdir (world s)) as [[f|] w']; simpl in *;
        [discriminate | reflexivity]. }
    rewrite Hans in Hc. destruct Hc as [Hf Hi].
    assert (final = exec (for_of epost (step2_extdir folder) ;;
                          for_of wpost
                            (step2_folder getCopybookdirs_defaults) ;;
                          remove_duplicates) s') as Hfin
      by (apply (init_from_entry2 config wpre wpost folder epre epost extdir
                   s0 Hws Hdirs)).
    repeat split; try assumption.
    rewrite Hfin. apply rest2_invalid. rewrite Hi.
    rewrite elem_of_app, list_elem_of_singleton. auto.
Qed.

(** C10. The two lists that [initExtensionSearchPaths] leaves behind have
    no duplicates; each holds the same paths as the list collected before
    line 245, and two paths stand in the order of their first occurrences
    in that list. *)
Theorem search_paths_without_duplicates (config : ICOBOLSettings)
    (s0 : State) :
  let raw := exec (collectSearchPaths config) s0 in
  let final := exec (initExtensionSearchPaths config) s0 in
  NoDup (getCombinedCopyBookSearchPath final)
  /\ NoDup (invalidSearchDirectory final)
  /\ (forall x, x ∈ fileSearchDirectory final <-> x ∈ fileSearchDirectory raw)
  /\ (forall x,
        x ∈ invalidSearchDirectory final <-> x ∈ invalidSearchDirectory raw)
  /\ (forall x y,
        x ∈ fileSearchDirectory raw -> y ∈ fileSearchDirectory raw ->
        (JS.indexOf (fileSearchDirectory final) x
         < JS.indexOf (fileSearchDirectory final) y
         <-> JS.indexOf (fileSearchDirectory raw) x
             < JS.indexOf (fileSearchDirectory raw) y))
  /\ (forall x y,
        x ∈ invalidSearchDirectory raw -> y ∈ invalidSearchDirectory raw ->
        (JS.indexOf (invalidSearchDirectory final) x
         < JS.indexOf (invalidSearchDirectory final) y
         <-> JS.indexOf (invalidSearchDirectory raw) x
             < JS.indexOf (invalidSearchDirectory raw) y)).
Proof.
  intros raw final.
  assert (fileSearchDirectory final
          = JS.filter_first_index (fileSearchDirectory raw)) as Hf
    by (unfold final, initExtensionSearchPaths; rewrite exec_seq;
        reflexivity).
  assert (invalidSearchDirectory final
          = JS.filter_first_index (invalidSearchDirectory raw)) as Hi
    by (unfold final, initExtensionSearchPaths; rewrite exec_seq;
        reflexivity).
  unfold getCombinedCopyBookSearchPath. rewrite Hf, Hi.
  repeat split;
    auto using JSFacts.NoDup_filter_first_index;
    try (apply JSFacts.elem_of_filter_first_index);
    try (apply JSFacts.filter_first_index_order; assumption).
Qed.

End WithHost.

(** C1, witness: in the first example [/mnt/slow] takes 3000 ms and is
    dropped, [/opt/copylib] takes 5 ms and is kept. *)
Lemma slow_directory_dropped_witness :
  let final := exec (initExtensionSearchPaths Sim.uncOff)
                 (Sim.start Sim.fs1 Sim.ws1 Sim.dirs1) in
  ("/mnt/slow" ∈ invalidSearchDirectory final
   /\ "/mnt/slow" ∉ fileSearchDirectory final)
  /\ "/opt/copylib" ∈ fileSearchDirectory final.
Proof.
  intros final. split.
  - destruct (slow_directory_dropped (H := Sim.host Sim.fs1 Sim.ws1 Sim.dirs1)
                Sim.uncOff (Sim.start Sim.fs1 Sim.ws1 Sim.dirs1)
                ["/opt/copylib"]
                ["copybooks"; "/gone"; "\\srv\share"; "missing";
                 "/opt/copylib"]
                "/mnt/slow" eq_refl eq_refl eq_refl) as [Hslow _].
    destruct Hslow as (_ & _ & Hin & Hout); [vm_compute; reflexivity|].
    split; [exact Hin|].
    apply Hout; [not_in_list | not_in_list | reflexivity].
  - destruct (slow_directory_dropped (H := Sim.host Sim.fs1 Sim.ws1 Sim.dirs1)
                Sim.uncOff (Sim.start Sim.fs1 Sim.ws1 Sim.dirs1)
                []
                ["/mnt/slow"; "copybooks"; "/gone"; "\\srv\share"; "missing";
                 "/opt/copylib"]
                "/opt/copylib" eq_refl eq_refl eq_refl) as [_ Hfast].
    destruct Hfast as (_ & _ & Hin);
      [vm_compute; discriminate | reflexivity | exact Hin].
Defined.

(** C1, counterexample: the directory [/mnt/slow] is configured as a direct
    directory and is also the workspace folder. Its check takes 3000 ms,
    yet it is in the active search path that the function returns. *)
Lemma slow_workspace_folder_searched :
  let H := Sim.host Sim.fs2 Sim.ws2 Sim.dirs2 in
  let s0 := Sim.start Sim.fs2 Sim.ws2 Sim.dirs2 in
  let final := exec (initExtensionSearchPaths Sim.uncOff) s0 in
  "/mnt/slow" ∈ getCopybookdirs_defaults
  /\ isDirectPath "/mnt/slow" = true
  /\ checkDuration "/mnt/slow" (world (reach1 Sim.uncOff [] s0)) > 2000
  /\ fileSearchDirectory final = ["/mnt/slow"]
  /\ invalidSearchDirectory final = ["/mnt/slow"]
  /\ ~ ("/mnt/slow" ∉ fileSearchDirectory final).
Proof.
  cbv zeta. repeat split.
  - apply list_elem_of_singleton. reflexivity.
  - intros Hn. apply Hn. vm_compute. apply list_elem_of_singleton. reflexivity.
Qed.

(** C6, witness: with network directories disabled, the share of the
    first example goes to the invalid list only, and [statSync] is not
    called on it. *)
Lemma network_directory_set_aside_witness :
  let H := Sim.host Sim.fs1 Sim.ws1 Sim.dirs1 in
  let s0 := Sim.start Sim.fs1 Sim.ws1 Sim.dirs1 in
  let s := reach1 Sim.uncOn
             ["/opt/copylib"; "/mnt/slow"; "copybooks"; "/gone"] s0 in
  let final := exec (initExtensionSearchPaths Sim.uncOn) s0 in
  (world (exec (step1 Sim.uncOn "\\srv\share") s) = world s
   /\ "\\srv\share" ∈ invalidSearchDirectory final
   /\ "\\srv\share" ∉ fileSearchDirectory final)
  /\ ~ ("\\srv\share" ∈ fileSearchDirectory final
        /\ "\\srv\share" ∈ invalidSearchDirectory final).
Proof.
  intros H s0 s final.
  destruct (network_directory_set_aside (H := H) Sim.uncOn s0
              ["/opt/copylib"; "/mnt/slow"; "copybooks"; "/gone"]
              ["missing"; "/opt/copylib"] "\\srv\share" eq_refl)
    as [Hnet Hdirect].
  split.
  - destruct (Hnet eq_refl eq_refl) as (Hw & _ & _ & Hin & Hout).
    split; [exact Hw | split; [exact Hin |]].
    apply Hout; [not_in_list | not_in_list | reflexivity].
  - destruct (Hdirect eq_refl) as (_ & _ & Hone).
    apply Hone; [not_in_list | not_in_list | reflexivity].
Defined.

(** C6, counterexample: the share is configured as a copybook directory
    and is also the workspace folder. Network directories are disabled,
    yet the share is in the active search path the function returns, and
    it is in both lists. *)
Lemma network_workspace_folder_in_both_lists :
  let H := Sim.host Sim.fs3 Sim.ws3 Sim.dirs3 in
  let s0 := Sim.start Sim.fs3 Sim.ws3 Sim.dirs3 in
  let final := exec (initExtensionSearchPaths Sim.uncOn) s0 in
  disable_unc_copybooks_directories Sim.uncOn = true
  /\ "\\srv\share" ∈ getCopybookdirs_defaults
  /\ isNetworkPath "\\srv\share" = true
  /\ isDirectPath "\\srv\share" = true
  /\ fileSearchDirectory final = ["\\srv\share"]
  /\ invalidSearchDirectory final = ["\\srv\share"]
  /\ ~ ("\\srv\share" ∉ fileSearchDirectory final)
  /\ ("\\srv\share" ∈ fileSearchDirectory final
      /\ "\\srv\share" ∈ invalidSearchDirectory final).
Proof.
  cbv zeta. repeat split.
  - apply list_elem_of_singleton. reflexivity.
  - intros Hn. apply Hn. vm_compute. apply list_elem_of_singleton. reflexivity.
  - vm_compute. apply list_elem_of_singleton. reflexivity.
  - vm_compute. apply list_elem_of_singleton. reflexivity.
Qed.

(** C7, witness: in the first example [statSync] throws for [/gone] and
    for [/proj/missing]; both end in the invalid list, and the directories
    after them are still processed. *)
Lemma filesystem_errors_not_fatal_witness :
  let H := Sim.host Sim.fs1 Sim.ws1 Sim.dirs1 in
  let s0 := Sim.start Sim.fs1 Sim.ws1 Sim.dirs1 in
  let final := exec (initExtensionSearchPaths Sim.uncOff) s0 in
  (fst (isDirectory "/gone" (world s0)) = false
   /\ fst (isFile "/gone" (world s0)) = false)
  /\ "/gone" ∈ invalidSearchDirectory final
  /\ "/proj/missing" ∈ invalidSearchDirectory final.
Proof.
  intros H s0 final.
  destruct (filesystem_errors_not_fatal (H := H) Sim.uncOff s0)
    as (Hstat & Hstep1 & Hstep2).
  split; [|split].
  - apply Hstat. reflexivity.
  - apply (Hstep1 ["/opt/copylib"; "/mnt/slow"; "copybooks"] "/gone"
             ["\\srv\share"; "missing"; "/opt/copylib"]
             eq_refl eq_refl eq_refl eq_refl).
  - apply (Hstep2 [] (mkWorkspaceFolder "proj" "/proj") []
             ["/opt/copylib"; "/mnt/slow"; "copybooks"; "/gone";
              "\\srv\share"]
             "missing" ["/opt/copylib"]
             eq_refl eq_refl eq_refl eq_refl).
Defined.

(** C10, witness: in the first example [/opt/copylib] is configured twice
    and is kept once, before the workspace folder. *)
Lemma search_paths_without_duplicates_witness :
  let H := Sim.host Sim.fs1 Sim.ws1 Sim.dirs1 in
  let s0 := Sim.start Sim.fs1 Sim.ws1 Sim.dirs1 in
  let final := exec (initExtensionSearchPaths Sim.uncOff) s0 in
  NoDup (fileSearchDirectory final)
  /\ JS.indexOf (fileSearchDirectory final) "/opt/copylib"
     < JS.indexOf (fileSearchDirectory final) "/proj".
Proof.
  intros H s0 final.
  destruct (search_paths_without_duplicates (H := H) Sim.uncOff s0)
    as (Hnd & _ & _ & _ & Horder & _).
  split; [exact Hnd|].
  apply Horder.
  - vm_compute. in_list.
  - vm_compute. in_list.
  - vm_compute. reflexivity.
Defined.

End SearchPathFacts.

(** ** Usage diagnostics *)

Module UsageFacts.
Import Usage.

(** *** Strings *)

Lemma list_ascii_of_string_append (a b : string) :
  list_ascii_of_string (a +:+ b)
  = list_ascii_of_string a ++ list_ascii_of_string b.
Proof.
  induction a as [|c a IH]; simpl; [reflexivity|]. rewrite IH. reflexivity.
Qed.

Lemma list_ascii_of_string_inj (a b : string) :
  list_ascii_of_string a = list_ascii_of_string b -> a = b.
Proof.
  intros Heq.
  rewrite <- (string_of_list_ascii_of_string a),
          <- (string_of_list_ascii_of_string b), Heq.
  reflexivity.
Qed.

Lemma append_inj_l (a b suffix : string) :
  a +:+ suffix = b +:+ suffix -> a = b.
Proof.
  intros Heq. apply list_ascii_of_string_inj.
  apply (f_equal list_ascii_of_string) in Heq.
  rewrite !list_ascii_of_string_append in Heq.
  eapply app_inv_tail. eassumption.
Qed.


(** The two messages never coincide: before [" is not referenced"] one
    ends in [n], the other in [h]. *)
Lemma section_message_not_paragraph (a b : string) :
  a +:+ " section is not referenced" <> b +:+ " paragraph is not referenced".
Proof.
  intros Heq. apply (f_equal list_ascii_of_string) in Heq.
  rewrite !list_ascii_of_string_append in Heq.
  change (list_ascii_of_string " section is not referenced")
    with ((list_ascii_of_string " sectio" ++ ["n"%char])
          ++ list_ascii_of_string " is not referenced") in Heq.
  change (list_ascii_of_string " paragraph is not referenced")
    with ((list_ascii_of_string " paragrap" ++ ["h"%char])
          ++ list_ascii_of_string " is not referenced") in Heq.
  rewrite !app_assoc in Heq.
  apply app_inv_tail in Heq.
  apply app_inj_tail in Heq as [_ Hc]. discriminate Hc.
Qed.


Lemma paragraphDiagnostic_inj (sev sev' : DiagnosticSeverity)
    (k k' : string) (t t' : COBOLToken) :
  paragraphDiagnostic sev k t = paragraphDiagnostic sev' k' t' -> k = k'.
Proof.
  intros Heq. apply (f_equal message) in Heq. simpl in Heq.
  eapply append_inj_l. eassumption.
Qed.

Lemma sectionDiagnostic_inj (sev sev' : DiagnosticSeverity)
    (k k' : string) (t t' : COBOLToken) :
  sectionDiagnostic sev k t = sectionDiagnostic sev' k' t' -> k = k'.
Proof.
  intros Heq. apply (f_equal message) in Heq. simpl in Heq.
  eapply append_inj_l. eassumption.
Qed.

Lemma sectionDiagnostic_not_paragraph (sev sev' : DiagnosticSeverity)
    (k k' : string) (t t' : COBOLToken) :
  sectionDiagnostic sev k t <> paragraphDiagnostic sev' k' t'.
Proof.
  intros Heq. apply (f_equal message) in Heq. simpl in Heq.
  eapply section_message_not_paragraph. eassumption.
Qed.

(** *** The map of diagnostics per file *)


Lemma Map_get_set {V} (m : list (string * V)) (k k' : string) (v : V) :
  Map_get (Map_set m k v) k'
  = if String.eqb k k' then Some v else Map_get m k'.
Proof.
  induction m as [|[k0 v0] m IH]; simpl.
  - reflexivity.
  - destruct (String.eqb_spec k0 k) as [->|Hne]; simpl.
    + destruct (String.eqb k k'); reflexivity.
    + rewrite IH. destruct (String.eqb_spec k0 k') as [->|Hne'].
      * destruct (String.eqb_spec k k'); [congruence|reflexivity].
      * reflexivity.
Qed.

Lemma Map_has_get {V} (m : list (string * V)) (k : string) :
  Map_has m k = match Map_get m k with Some _ => true | None => false end.
Proof.
  induction m as [|[k0 v0] m IH]; simpl; [reflexivity|].
  destruct (String.eqb k0 k); [reflexivity|apply IH].
Qed.

Lemma Map_get_None {V} (m : list (string * V)) (k : string) :
  k ∉ m.*1 -> Map_get m k = None.
Proof.
  induction m as [|[k0 v0] m IH]; simpl; [reflexivity|].
  rewrite not_elem_of_cons. intros [Hne Hin].
  destruct (String.eqb_spec k0 k); [congruence|auto].
Qed.

Lemma Map_set_keys {V} (m : list (string * V)) (k : string) (v : V) :
  (Map_set m k v).*1 = if Map_has m k then m.*1 else m.*1 ++ [k].
Proof.
  induction m as [|[k0 v0] m IH]; [reflexivity|].
  cbn [Map_set]. unfold Map_has in *. cbn [existsb fst].
  destruct (String.eqb_spec k0 k) as [->|Hne]; cbn [orb].
  - rewrite !fmap_cons. reflexivity.
  - rewrite !fmap_cons, IH.
    destruct (existsb (fun e => String.eqb e.1 k) m); reflexivity.
Qed.

Lemma Map_has_keys {V} (m : list (string * V)) (k : string) :
  Map_has m k = false -> k ∉ m.*1.
Proof.
  induction m as [|[k0 v0] m IH]; simpl.
  - intros _. apply not_elem_of_nil.
  - destruct (String.eqb_spec k0 k) as [|Hne]; simpl; [discriminate|].
    intros Hh. apply not_elem_of_cons. split; [congruence|auto].
Qed.

Lemma Map_set_NoDup {V} (m : list (string * V)) (k : string) (v : V) :
  NoDup m.*1 -> NoDup (Map_set m k v).*1.
Proof.
  intros Hnd. rewrite Map_set_keys. destruct (Map_has m k) eqn:Hh.
  - assumption.
  - apply NoDup_app. repeat split.
    + assumption.
    + intros x Hx Hk. apply list_elem_of_singleton in Hk as ->.
      apply Map_has_keys in Hh. contradiction.
    + apply NoDup_singleton.
Qed.

Lemma addDiagnostic_NoDup (m : list (string * list Diagnostic))
    (file : string) (d : Diagnostic) :
  NoDup m.*1 -> NoDup (addDiagnostic m file d).*1.
Proof.
  intros Hnd. unfold addDiagnostic.
  destruct (Map_has m file); [destruct (Map_get m file)|];
    auto using Map_set_NoDup.
Qed.

Lemma inDiagRefs_add (m : list (string * list Diagnostic))
    (file0 : string) (d0 : Diagnostic) (file : string) (d : Diagnostic) :
  inDiagRefs (addDiagnostic m file0 d0) file d
  <-> inDiagRefs m file d \/ (file = file0 /\ d = d0).
Proof.
  unfold inDiagRefs, addDiagnostic. rewrite Map_has_get.
  destruct (Map_get m file0) as [arr0|] eqn:Hget.
  - setoid_rewrite Map_get_set.
    destruct (String.eqb_spec file0 file) as [->|Hne].
    + rewrite Hget. split.
      * intros [arr [[= <-] Hin]]. apply elem_of_app in Hin as [Hin|Hin].
        -- left. eauto.
        -- apply list_elem_of_singleton in Hin. auto.
      * intros [[arr [[= <-] Hin]]|[_ ->]]; eexists; split; eauto;
          rewrite elem_of_app, list_elem_of_singleton; auto.
    + split; [auto|]. intros [?|[-> _]]; [assumption|congruence].
  - setoid_rewrite Map_get_set.
    destruct (String.eqb_spec file0 file) as [->|Hne].
    + rewrite Hget. split.
      * intros [arr [[= <-] Hin]]. apply list_elem_of_singleton in Hin. auto.
      * intros [[arr [[=] _]]|[_ ->]]. eexists; split; eauto.
        apply list_elem_of_singleton. reflexivity.
    + split; [auto|]. intros [?|[-> _]]; [assumption|congruence].
Qed.

Lemma Map_get_elem {V} (m : list (string * V)) (k : string) (v : V) :
  Map_get m k = Some v -> (k, v) ∈ m.
Proof.
  induction m as [|[k0 v0] m IH]; simpl; [discriminate|].
  destruct (String.eqb_spec k0 k) as [->|Hne].
  - intros [= ->]. apply list_elem_of_here.
  - intros Hget. apply list_elem_of_further. auto.
Qed.

Lemma Map_get_of_elem {V} (m : list (string * V)) (k : string) (v : V) :
  NoDup m.*1 -> (k, v) ∈ m -> Map_get m k = Some v.
Proof.
  induction m as [|[k0 v0] m IH]; intros Hnd Hin; [inversion Hin|].
  rewrite fmap_cons in Hnd. apply NoDup_cons in Hnd as [Hk Hnd]. simpl.
  apply elem_of_cons in Hin as [Heq|Hin].
  - injection Heq as <- <-. rewrite String.eqb_refl. reflexivity.
  - destruct (String.eqb_spec k0 k) as [->|Hne]; [|auto].
    exfalso. apply Hk. apply list_elem_of_fmap. exists (k, v). auto.
Qed.

Lemma addDiagnostic_keys (m : list (string * list Diagnostic))
    (file : string) (d : Diagnostic) (f : string) :
  f ∈ (addDiagnostic m file d).*1 -> f ∈ m.*1 \/ f = file.
Proof.
  unfold addDiagnostic.
  destruct (Map_has m file) eqn:Hh; [destruct (Map_get m file)|];
    rewrite ?Map_set_keys, ?Hh; auto.
  rewrite elem_of_app, list_elem_of_singleton. auto.
Qed.

Section WithScanner.
Context `{Scanner}.

(** *** The collection: one array per [Uri], the last one set *)

Lemma publish_snoc (m : list (string * list Diagnostic)) (k : string)
    (v : list Diagnostic) (c : gmap string (list Diagnostic)) :
  publish (m ++ [(k, v)]) c = <[Uri_file k := v]> (publish m c).
Proof. unfold publish. rewrite fold_left_app. reflexivity. Qed.

(** An array of the collection is the array of a file with that [Uri]. *)
Lemma publish_origin (m : list (string * list Diagnostic)) (u : string)
    (arr : list Diagnostic) :
  publish m ∅ !! u = Some arr ->
  exists f, (f, arr) ∈ m /\ Uri_file f = u.
Proof.
  induction m as [|[k v] m IH] using rev_ind.
  - unfold publish. simpl. rewrite lookup_empty. discriminate.
  - rewrite publish_snoc.
    destruct (String.eqb_spec (Uri_file k) u) as [<-|Hne].
    + rewrite lookup_insert_eq. intros [= <-]. exists k.
      split; [|reflexivity]. apply elem_of_app. right.
      apply list_elem_of_here.
    + rewrite lookup_insert_ne by assumption. intros Hget.
      destruct (IH Hget) as (f & Hin & Hf). exists f.
      split; [|assumption]. apply elem_of_app. auto.
Qed.

(** The array of a file is in the collection when no other file of the
    map has its [Uri]. *)
Lemma publish_owned (m : list (string * list Diagnostic))
    (c : gmap string (list Diagnostic)) (f : string)
    (arr : list Diagnostic) :
  NoDup m.*1 -> (f, arr) ∈ m ->
  (forall f', f' ∈ m.*1 -> Uri_file f' = Uri_file f -> f' = f) ->
  publish m c !! Uri_file f = Some arr.
Proof.
  induction m as [|[k v] m IH] using rev_ind; intros Hnd Hin Hown;
    [inversion Hin|].
  rewrite publish_snoc. rewrite fmap_app in Hnd, Hown.
  apply NoDup_app in Hnd as (Hnd & Hfresh & _).
  apply elem_of_app in Hin as [Hin|Hin].
  - assert (f ∈ m.*1) as Hf
      by (apply list_elem_of_fmap; exists (f, arr); auto).
    assert (Uri_file k <> Uri_file f) as Hne.
    { intros Heq. apply (Hfresh f Hf).
      rewrite <- (Hown k); [apply list_elem_of_here | | exact Heq].
      apply elem_of_app. right. apply list_elem_of_here. }
    rewrite lookup_insert_ne by assumption.
    apply IH; [assumption | assumption |].
    intros f' Hf'. apply Hown. apply elem_of_app. auto.
  - apply list_elem_of_singleton in Hin. injection Hin as <- <-.
    apply lookup_insert_eq.
Qed.

(** Nothing is in the collection for a [Uri] that no file of the map
    has. *)
Lemma publish_none (m : list (string * list Diagnostic)) (u : string) :
  (forall f, f ∈ m.*1 -> Uri_file f <> u) -> publish m ∅ !! u = None.
Proof.
  intros Hno. destruct (publish m ∅ !! u) as [arr|] eqn:Hget; [|reflexivity].
  apply publish_origin in Hget as (f & Hin & Hf).
  exfalso. apply (Hno f); [|assumption].
  apply list_elem_of_fmap. exists (f, arr). auto.
Qed.

Lemma emitted_publish (m : list (string * list Diagnostic)) (u : string)
    (d : Diagnostic) :
  NoDup m.*1 ->
  emitted (publish m ∅) u d ->
  exists file, Uri_file file = u /\ inDiagRefs m file d.
Proof.
  intros Hnd (arr & Hget & Hd).
  apply publish_origin in Hget as (f & Hin & Hf).
  exists f. split; [assumption|]. exists arr.
  split; [apply Map_get_of_elem; assumption | assumption].
Qed.

Lemma emitted_owned (m : list (string * list Diagnostic)) (file : string)
    (d : Diagnostic) :
  NoDup m.*1 ->
  (forall f', f' ∈ m.*1 -> Uri_file f' = Uri_file file -> f' = file) ->
  inDiagRefs m file d ->
  emitted (publish m ∅) (Uri_file file) d.
Proof.
  intros Hnd Hown (arr & Hget & Hd). exists arr. split; [|assumption].
  apply publish_owned; [assumption | apply Map_get_elem; assumption
                       | assumption].
Qed.

(** *** The two loops *)

Lemma paragraph_loop (sev : DiagnosticSeverity) (refs : SharedSourceReferences)
    (l : list (string * COBOLToken)) (m : list (string * list Diagnostic))
    (file : string) (d : Diagnostic) :
  inDiagRefs (fold_left (paragraphStep sev refs) l m) file d
  <-> inDiagRefs m file d \/ reportsParagraph sev refs l file d.
Proof.
  revert m. induction l as [|[key token] l IH]; intros m; simpl.
  - split; [auto|]. intros [?|(k & t & Hin & _)]; [assumption|].
    inversion Hin.
  - rewrite IH. unfold reportsParagraph.
    destruct (targetReferences_has refs (String_toLowerCase key)) eqn:Hhas;
      simpl.
    + split.
      * intros [?|(k & t & Hin & Hrest)]; [auto|].
        right. exists k, t. rewrite elem_of_cons. auto.
      * intros [?|(k & t & Hin & Hrest)]; [auto|].
        apply elem_of_cons in Hin as [[= -> ->]|Hin].
        -- destruct Hrest as [Hno _]. congruence.
        -- right. exists k, t. auto.
    + rewrite inDiagRefs_add. split.
      * intros [[?|[-> ->]]|(k & t & Hin & Hrest)]; [auto| |].
        -- right. exists key, token. rewrite elem_of_cons. auto.
        -- right. exists k, t. rewrite elem_of_cons. auto.
      * intros [?|(k & t & Hin & Hrest)]; [auto|].
        apply elem_of_cons in Hin as [[= -> ->]|Hin].
        -- destruct Hrest as (_ & -> & ->). auto.
        -- right. exists k, t. auto.
Qed.

Lemma section_loop (sev : DiagnosticSeverity) (refs : SharedSourceReferences)
    (l : list (string * COBOLToken)) (m : list (string * list Diagnostic))
    (file : string) (d : Diagnostic) :
  inDiagRefs (fold_left (sectionStep sev refs) l m) file d
  <-> inDiagRefs m file d \/ reportsSection sev refs l file d.
Proof.
  revert m. induction l as [|[key token] l IH]; intros m; simpl.
  - split; [auto|]. intros [?|(k & t & Hin & _)]; [assumption|].
    inversion Hin.
  - rewrite IH. unfold reportsSection.
    destruct (inProcedureDivision token) eqn:Hpd;
      [destruct (targetReferences_has refs (String_toLowerCase key)) eqn:Hhas|];
      simpl.
    + split.
      * intros [?|(k & t & Hin & Hrest)]; [auto|].
        right. exists k, t. rewrite elem_of_cons. auto.
      * intros [?|(k & t & Hin & Hrest)]; [auto|].
        apply elem_of_cons in Hin as [[= -> ->]|Hin].
        -- destruct Hrest as (_ & Hno & _). congruence.
        -- right. exists k, t. auto.
    + rewrite inDiagRefs_add. split.
      * intros [[?|[-> ->]]|(k & t & Hin & Hrest)]; [auto| |].
        -- right. exists key, token. rewrite elem_of_cons. auto.
        -- right. exists k, t. rewrite elem_of_cons. auto.
      * intros [?|(k & t & Hin & Hrest)]; [auto|].
        apply elem_of_cons in Hin as [[= -> ->]|Hin].
        -- destruct Hrest as (_ & _ & -> & ->). auto.
        -- right. exists k, t. auto.
    + split.
      * intros [?|(k & t & Hin & Hrest)]; [auto|].
        right. exists k, t. rewrite elem_of_cons. auto.
      * intros [?|(k & t & Hin & Hrest)]; [auto|].
        apply elem_of_cons in Hin as [[= -> ->]|Hin].
        -- destruct Hrest as (Hyes & _). congruence.
        -- right. exists k, t. auto.
Qed.

Lemma paragraph_loop_NoDup (sev : DiagnosticSeverity)
    (refs : SharedSourceReferences) (l : list (string * COBOLToken))
    (m : list (string * list Diagnostic)) :
  NoDup m.*1 -> NoDup (fold_left (paragraphStep sev refs) l m).*1.
Proof.
  revert m. induction l as [|[key token] l IH]; intros m Hnd; simpl;
    [assumption|].
  apply IH. destruct (negb _); auto using addDiagnostic_NoDup.
Qed.

Lemma section_loop_NoDup (sev : DiagnosticSeverity)
    (refs : SharedSourceReferences) (l : list (string * COBOLToken))
    (m : list (string * list Diagnostic)) :
  NoDup m.*1 -> NoDup (fold_left (sectionStep sev refs) l m).*1.
Proof.
  revert m. induction l as [|[key token] l IH]; intros m Hnd; simpl;
    [assumption|].
  apply IH. destruct (inProcedureDivision token); [|assumption].
  destruct (negb _); auto using addDiagnostic_NoDup.
Qed.

Lemma paragraph_loop_keys (sev : DiagnosticSeverity)
    (refs : SharedSourceReferences) (l : list (string * COBOLToken))
    (m : list (string * list Diagnostic)) (f : string) :
  f ∈ (fold_left (paragraphStep sev refs) l m).*1 ->
  f ∈ m.*1 \/ exists key token, (key, token) ∈ l /\ filename token = f.
Proof.
  revert m. induction l as [|[key token] l IH]; intros m; simpl; [auto|].
  intros Hf. apply IH in Hf as [Hf|(k & t & Hin & Ht)].
  - destruct (negb _).
    + apply addDiagnostic_keys in Hf as [Hf| ->]; [auto|].
      right. exists key, token. split; [apply list_elem_of_here|reflexivity].
    + auto.
  - right. exists k, t. split; [apply list_elem_of_further|]; assumption.
Qed.

Lemma section_loop_keys (sev : DiagnosticSeverity)
    (refs : SharedSourceReferences) (l : list (string * COBOLToken))
    (m : list (string * list Diagnostic)) (f : string) :
  f ∈ (fold_left (sectionStep sev refs) l m).*1 ->
  f ∈ m.*1 \/ exists key token, (key, token) ∈ l /\ filename token = f.
Proof.
  revert m. induction l as [|[key token] l IH]; intros m; simpl; [auto|].
  intros Hf. apply IH in Hf as [Hf|(k & t & Hin & Ht)].
  - destruct (inProcedureDivision token); [destruct (negb _)|].
    + apply addDiagnostic_keys in Hf as [Hf| ->]; [auto|].
      right. exists key, token. split; [apply list_elem_of_here|reflexivity].
    + auto.
    + auto.
  - right. exists k, t. split; [apply list_elem_of_further|]; assumption.
Qed.

(** The files of [diagRefs] are files of tokens of the two tables. *)
Lemma collect_keys (sev : DiagnosticSeverity) (qp : COBOLQuickParse)
    (refs : SharedSourceReferences) (f : string) :
  f ∈ (collectDiagnostics sev qp refs).*1 ->
  exists key token,
    (key, token) ∈ paragraphs qp ++ sections qp /\ filename token = f.
Proof.
  unfold collectDiagnostics. intros Hf.
  apply section_loop_keys in Hf as [Hf|(k & t & Hin & Ht)].
  - apply paragraph_loop_keys in Hf as [Hf|(k & t & Hin & Ht)];
      [inversion Hf|].
    exists k, t. split; [apply elem_of_app; auto | assumption].
  - exists k, t. split; [apply elem_of_app; auto | assumption].
Qed.

Lemma collect_NoDup (sev : DiagnosticSeverity) (qp : COBOLQuickParse)
    (refs : SharedSourceReferences) :
  NoDup (collectDiagnostics sev qp refs).*1.
Proof.
  unfold collectDiagnostics.
  apply section_loop_NoDup, paragraph_loop_NoDup. apply NoDup_nil_2.
Qed.

(** What the two loops put into [diagRefs]. *)
Lemma collect_reports (sev : DiagnosticSeverity) (qp : COBOLQuickParse)
    (refs : SharedSourceReferences) (file : string) (d : Diagnostic) :
  inDiagRefs (collectDiagnostics sev qp refs) file d
  <-> reportsParagraph sev refs (paragraphs qp) file d
      \/ reportsSection sev refs (sections qp) file d.
Proof.
  unfold collectDiagnostics. rewrite section_loop, paragraph_loop.
  split.
  - intros [[[arr [[=] _]]|?]|?]; auto.
  - intros [?|?]; auto.
Qed.

Lemma collect_owned (sev : DiagnosticSeverity) (qp : COBOLQuickParse)
    (refs : SharedSourceReferences) (file : string) :
  uriOwned qp file ->
  forall f', f' ∈ (collectDiagnostics sev qp refs).*1 ->
             Uri_file f' = Uri_file file -> f' = file.
Proof.
  intros Hown f' Hf' Huri.
  apply collect_keys in Hf' as (k & t & Hin & <-).
  apply (Hown k t); assumption.
Qed.

(** What is in the collection was reported for a file with that [Uri]. *)
Lemma emitted_collect (sev : DiagnosticSeverity) (qp : COBOLQuickParse)
    (refs : SharedSourceReferences) (u : string) (d : Diagnostic) :
  emitted (publish (collectDiagnostics sev qp refs) ∅) u d ->
  exists file,
    Uri_file file = u
    /\ (reportsParagraph sev refs (paragraphs qp) file d
        \/ reportsSection sev refs (sections qp) file d).
Proof.
  intros Hem. apply emitted_publish in Hem as (file & Hu & Hin);
    [|apply collect_NoDup].
  exists file. split; [assumption|]. apply collect_reports. assumption.
Qed.

(** What was reported for a file is in the collection when no token has
    another file name with the [Uri] of the file. *)
Lemma reported_emitted (sev : DiagnosticSeverity) (qp : COBOLQuickParse)
    (refs : SharedSourceReferences) (file : string) (d : Diagnostic) :
  uriOwned qp file ->
  inDiagRefs (collectDiagnostics sev qp refs) file d ->
  emitted (publish (collectDiagnostics sev qp refs) ∅) (Uri_file file) d.
Proof.
  intros Hown Hin. apply emitted_owned;
    [apply collect_NoDup | apply collect_owned; assumption | assumption].
Qed.

(** A paragraph of the table is reported exactly when its lowercased name
    is not referenced; so is a section of the procedure division. *)
Lemma paragraphReported_iff (sev : DiagnosticSeverity)
    (qp : COBOLQuickParse) (refs : SharedSourceReferences) (key : string)
    (token : COBOLToken) :
  (key, token) ∈ paragraphs qp ->
  (paragraphReported sev qp refs key token
   <-> targetReferences_has refs (String_toLowerCase key) = false).
Proof.
  intros Hin. unfold paragraphReported. rewrite collect_reports. split.
  - intros [(k & t & _ & Hno & _ & Heq)|(k & t & _ & _ & _ & _ & Heq)].
    + apply paragraphDiagnostic_inj in Heq as ->. assumption.
    + symmetry in Heq. apply sectionDiagnostic_not_paragraph in Heq.
      contradiction.
  - intros Hno. left. exists key, token. auto.
Qed.

Lemma sectionReported_iff (sev : DiagnosticSeverity)
    (qp : COBOLQuickParse) (refs : SharedSourceReferences) (key : string)
    (token : COBOLToken) :
  (key, token) ∈ sections qp ->
  inProcedureDivision token = true ->
  (sectionReported sev qp refs key token
   <-> targetReferences_has refs (String_toLowerCase key) = false).
Proof.
  intros Hin Hpd. unfold sectionReported. rewrite collect_reports. split.
  - intros [(k & t & _ & _ & _ & Heq)|(k & t & _ & _ & Hno & _ & Heq)].
    + apply sectionDiagnostic_not_paragraph in Heq. contradiction.
    + apply sectionDiagnostic_inj in Heq as ->. assumption.
  - intros Hno. right. exists key, token. auto.
Qed.

(** *** The provider *)

(** The two ways [setupCOBOLQuickParse] ends: the members are kept, or a
    new parse is installed for the version of the document. *)
Lemma setup_cases (document : TextDocument) (this : CobolUsageProvider)
    (w : ScanWorld) :
  (setupCOBOLQuickParse document this w = (this, w)
   /\ (exists qp, current this = Some qp
                  /\ qp_filename qp = fileName document)
   /\ currentVersion this = Some (version document))
  \/ (setupCOBOLQuickParse document this w
      = (mkProvider (enabled this) (collection this) (diagCollect this)
           (Some (newCOBOLQuickParse document w).1.1)
           (Some (version document))
           (Some (newCOBOLQuickParse document w).1.2),
         (newCOBOLQuickParse document w).2)).
Proof.
  unfold setupCOBOLQuickParse.
  destruct (current this) as [cur|] eqn:Hcur.
  - destruct (String.eqb_spec (qp_filename cur) (fileName document))
      as [Hname|Hname]; simpl.
    + rewrite Hcur. simpl.
      destruct (bool_decide (currentVersion this = Some (version document)))
        eqn:Hv; simpl.
      * left. apply bool_decide_eq_true in Hv. eauto.
      * right. destruct (newCOBOLQuickParse document w) as [[qp refs] w'].
        reflexivity.
    + right. destruct (newCOBOLQuickParse document w) as [[qp refs] w'].
      reflexivity.
  - rewrite Hcur. simpl. right.
    destruct (newCOBOLQuickParse document w) as [[qp refs] w']. reflexivity.
Qed.

Lemma setup_keeps (document : TextDocument) (this : CobolUsageProvider)
    (w : ScanWorld) :
  enabled (setupCOBOLQuickParse document this w).1 = enabled this
  /\ collection (setupCOBOLQuickParse document this w).1 = collection this
  /\ diagCollect (setupCOBOLQuickParse document this w).1 = diagCollect this.
Proof.
  destruct (setup_cases document this w) as [(-> & _)| ->]; simpl; auto.
Qed.

(** After [setupCOBOLQuickParse] there is a parse, and it is for the
    version of the document. *)
Lemma setup_current (document : TextDocument) (this : CobolUsageProvider)
    (w : ScanWorld) :
  (exists qp, current (setupCOBOLQuickParse document this w).1 = Some qp)
  /\ currentVersion (setupCOBOLQuickParse document this w).1
     = Some (version document).
Proof.
  destruct (setup_cases document this w)
    as [(-> & (qp & Hcur & _) & Hv)| ->]; simpl; eauto.
Qed.

Lemma setup_unchanged (document : TextDocument) (this : CobolUsageProvider)
    (w : ScanWorld) (qp : COBOLQuickParse) :
  current this = Some qp ->
  qp_filename qp = fileName document ->
  currentVersion this = Some (version document) ->
  setupCOBOLQuickParse document this w = (this, w).
Proof.
  intros Hcur Hname Hver. unfold setupCOBOLQuickParse.
  rewrite Hcur, Hname, String.eqb_refl. simpl. rewrite Hcur, Hver.
  rewrite bool_decide_eq_true_2 by reflexivity. reflexivity.
Qed.

(** The collection that [updateDiagnostics] leaves for a scanned
    document. *)
Lemma update_scanned (document : TextDocument) (this : CobolUsageProvider)
    (w : ScanWorld) (qp : COBOLQuickParse) (refs : SharedSourceReferences) :
  scanned document this w qp refs ->
  collection (updateDiagnostics document this w).1
  = publish (collectDiagnostics (diagCollect this) qp refs) ∅
  /\ diagCollect (updateDiagnostics document this w).1 = diagCollect this
  /\ current (updateDiagnostics document this w).1 = Some qp
  /\ sourceRefs (updateDiagnostics document this w).1 = Some refs.
Proof.
  intros (Hen & Hcur & Hrefs). unfold updateDiagnostics. rewrite Hen. simpl.
  pose proof (setup_keeps document this w) as (_ & _ & Hsev).
  destruct (setupCOBOLQuickParse document this w) as [this1 w1].
  simpl in *. rewrite Hrefs, Hcur. simpl. rewrite Hsev. auto.
Qed.

Lemma emitted_update (document : TextDocument) (this : CobolUsageProvider)
    (w : ScanWorld) (qp : COBOLQuickParse) (refs : SharedSourceReferences)
    (u : string) (d : Diagnostic) :
  scanned document this w qp refs ->
  emitted (collection (updateDiagnostics document this w).1) u d ->
  exists file,
    Uri_file file = u
    /\ (reportsParagraph (diagCollect this) refs (paragraphs qp) file d
        \/ reportsSection (diagCollect this) refs (sections qp) file d).
Proof.
  intros Hs. destruct (update_scanned _ _ _ _ _ Hs) as (-> & _).
  apply emitted_collect.
Qed.

(** A flagged name is not referenced. *)
Lemma paragraphFlagged_unreferenced (document : TextDocument)
    (this : CobolUsageProvider) (w : ScanWorld) (qp : COBOLQuickParse)
    (refs : SharedSourceReferences) (key : string) (token : COBOLToken) :
  scanned document this w qp refs ->
  paragraphFlagged (collection (updateDiagnostics document this w).1)
    (diagCollect (updateDiagnostics document this w).1) key token ->
  targetReferences_has refs (String_toLowerCase key) = false.
Proof.
  intros Hs.
  destruct (update_scanned _ _ _ _ _ Hs) as (_ & -> & _).
  unfold paragraphFlagged.
  change (exists arr, ?c !! ?f = Some arr /\ ?d ∈ arr) with (emitted c f d).
  intros Hem. apply (emitted_update _ _ _ _ _ _ _ Hs) in Hem
    as (file & _ & [(k & t & _ & Hno & _ & Heq)|(k & t & _ & _ & _ & _ & Heq)]).
  - apply paragraphDiagnostic_inj in Heq as ->. assumption.
  - symmetry in Heq. apply sectionDiagnostic_not_paragraph in Heq.
    contradiction.
Qed.

Lemma sectionFlagged_unreferenced (document : TextDocument)
    (this : CobolUsageProvider) (w : ScanWorld) (qp : COBOLQuickParse)
    (refs : SharedSourceReferences) (key : string) (token : COBOLToken) :
  scanned document this w qp refs ->
  sectionFlagged (collection (updateDiagnostics document this w).1)
    (diagCollect (updateDiagnostics document this w).1) key token ->
  targetReferences_has refs (String_toLowerCase key) = false.
Proof.
  intros Hs.
  destruct (update_scanned _ _ _ _ _ Hs) as (_ & -> & _).
  unfold sectionFlagged.
  change (exists arr, ?c !! ?f = Some arr /\ ?d ∈ arr) with (emitted c f d).
  intros Hem. apply (emitted_update _ _ _ _ _ _ _ Hs) in Hem
    as (file & _ & [(k & t & _ & _ & _ & Heq)|(k & t & _ & _ & Hno & _ & Heq)]).
  - apply sectionDiagnostic_not_paragraph in Heq. contradiction.
  - apply sectionDiagnostic_inj in Heq as ->. assumption.
Qed.

(** A reported name is flagged when no token has another file name with
    the [Uri] of its file. *)
Lemma paragraphReported_flagged (document : TextDocument)
    (this : CobolUsageProvider) (w : ScanWorld) (qp : COBOLQuickParse)
    (refs : SharedSourceReferences) (key : string) (token : COBOLToken) :
  scanned document this w qp refs ->
  uriOwned qp (filename token) ->
  paragraphReported (diagCollect this) qp refs key token ->
  paragraphFlagged (collection (updateDiagnostics document this w).1)
    (diagCollect (updateDiagnostics document this w).1) key token.
Proof.
  intros Hs Hown Hrep.
  destruct (update_scanned _ _ _ _ _ Hs) as (-> & -> & _).
  apply reported_emitted; assumption.
Qed.

Lemma sectionReported_flagged (document : TextDocument)
    (this : CobolUsageProvider) (w : ScanWorld) (qp : COBOLQuickParse)
    (refs : SharedSourceReferences) (key : string) (token : COBOLToken) :
  scanned document this w qp refs ->
  uriOwned qp (filename token) ->
  sectionReported (diagCollect this) qp refs key token ->
  sectionFlagged (collection (updateDiagnostics document this w).1)
    (diagCollect (updateDiagnostics document this w).1) key token.
Proof.
  intros Hs Hown Hrep.
  destruct (update_scanned _ _ _ _ _ Hs) as (-> & -> & _).
  apply reported_emitted; assumption.
Qed.

Lemma paragraphFlagged_update (document : TextDocument)
    (this : CobolUsageProvider) (w : ScanWorld) (qp : COBOLQuickParse)
    (refs : SharedSourceReferences) (key : string) (token : COBOLToken) :
  scanned document this w qp refs ->
  (key, token) ∈ paragraphs qp ->
  uriOwned qp (filename token) ->
  (paragraphFlagged (collection (updateDiagnostics document this w).1)
     (diagCollect (updateDiagnostics document this w).1) key token
   <-> targetReferences_has refs (String_toLowerCase key) = false).
Proof.
  intros Hs Hin Hown. split.
  - apply (paragraphFlagged_unreferenced _ _ _ qp refs _ _ Hs).
  - intros Hno.
    apply (paragraphReported_flagged _ _ _ qp refs _ _ Hs Hown).
    apply paragraphReported_iff; assumption.
Qed.

Lemma sectionFlagged_update (document : TextDocument)
    (this : CobolUsageProvider) (w : ScanWorld) (qp : COBOLQuickParse)
    (refs : SharedSourceReferences) (key : string) (token : COBOLToken) :
  scanned document this w qp refs ->
  (key, token) ∈ sections qp ->
  inProcedureDivision token = true ->
  uriOwned qp (filename token) ->
  (sectionFlagged (collection (updateDiagnostics document this w).1)
     (diagCollect (updateDiagnostics document this w).1) key token
   <-> targetReferences_has refs (String_toLowerCase key) = false).
Proof.
  intros Hs Hin Hpd Hown. split.
  - apply (sectionFlagged_unreferenced _ _ _ qp refs _ _ Hs).
  - intros Hno.
    apply (sectionReported_flagged _ _ _ qp refs _ _ Hs Hown).
    apply sectionReported_iff; assumption.
Qed.

(** *** The quick fix *)

Lemma provideCodeActions_from (document : TextDocument)
    (ds : list Diagnostic) (acc : list CodeAction) :
  fold_left
    (fun codeActions diagnostic =>
       match codeActionFor document diagnostic with
       | None => codeActions
       | Some a => codeActions ++ [a]
       end) ds acc
  = acc ++ omap (codeActionFor document) ds.
Proof.
  revert acc. induction ds as [|d ds IH]; intros acc; simpl.
  - rewrite app_nil_r. reflexivity.
  - rewrite IH. destruct (codeActionFor document d); [|reflexivity].
    rewrite <- app_assoc. reflexivity.
Qed.

Lemma provideCodeActions_omap (document : TextDocument)
    (ds : list Diagnostic) :
  provideCodeActions document ds = omap (codeActionFor document) ds.
Proof. unfold provideCodeActions. apply provideCodeActions_from. Qed.




(** *** The claims on the diagnostics *)


(** C3. In a scanned document the decision to report a name is taken on
    the lowercased name: the diagnostic of a paragraph, and of a section
    of the procedure division, is built and handed to [collection.set]
    exactly when the lowercased name is not in [targetReferences]; so two
    paragraphs, or two such sections, whose names differ only in letter
    case are both reported or both not. Every name that is flagged in the
    collection has a lowercased name that is not in [targetReferences],
    and the names whose file shares its [Uri] with no other file name of
    the parse are flagged exactly when they are reported. *)
Theorem unreferenced_check_ignores_case (document : TextDocument)
    (this : CobolUsageProvider) (w : ScanWorld) (qp : COBOLQuickParse)
    (refs : SharedSourceReferences) :
  scanned document this w qp refs ->
  let this' := (updateDiagnostics document this w).1 in
  let c := collection this' in
  let sev := diagCollect this' in
  (forall key token,
     (key, token) ∈ paragraphs qp ->
     (paragraphReported sev qp refs key token
      <-> targetReferences_has refs (String_toLowerCase key) = false))
  /\ (forall key token,
        (key, token) ∈ sections qp -> inProcedureDivision token = true ->
        (sectionReported sev qp refs key token
         <-> targetReferences_has refs (String_toLowerCase key) = false))
  /\ (forall k1 t1 k2 t2,
        (k1, t1) ∈ paragraphs qp -> (k2, t2) ∈ paragraphs qp ->
        String_toLowerCase k1 = String_toLowerCase k2 ->
        (paragraphReported sev qp refs k1 t1
         <-> paragraphReported sev qp refs k2 t2))
  /\ (forall k1 t1 k2 t2,
        (k1, t1) ∈ sections qp -> (k2, t2) ∈ sections qp ->
        inProcedureDivision t1 = true -> inProcedureDivision t2 = true ->
        String_toLowerCase k1 = String_toLowerCase k2 ->
        (sectionReported sev qp refs k1 t1
         <-> sectionReported sev qp refs k2 t2))
  /\ c = publish (collectDiagnostics sev qp refs) ∅
  /\ (forall key token,
        paragraphFlagged c sev key token \/ sectionFlagged c sev key token ->
        targetReferences_has refs (String_toLowerCase key) = false)
  /\ (forall key token,
        (key, token) ∈ paragraphs qp -> uriOwned qp (filename token) ->
        (paragraphFlagged c sev key token
         <-> paragraphReported sev qp refs key token))
  /\ (forall key token,
        (key, token) ∈ sections qp -> inProcedureDivision token = true ->
        uriOwned qp (filename token) ->
        (sectionFlagged c sev key token
         <-> sectionReported sev qp refs key token)).
Proof.
  intros Hs this' c sev.
  assert (forall key token,
            (key, token) ∈ paragraphs qp ->
            (paragraphReported sev qp refs key token
             <-> targetReferences_has refs (String_toLowerCase key) = false))
    as Hpar by (intros; apply paragraphReported_iff; assumption).
  assert (forall key token,
            (key, token) ∈ sections qp -> inProcedureDivision token = true ->
            (sectionReported sev qp refs key token
             <-> targetReferences_has refs (String_toLowerCase key) = false))
    as Hsec by (intros; apply sectionReported_iff; assumption).
  split; [exact Hpar|]. split; [exact Hsec|].
  split; [|split; [|split; [|split; [|split]]]].
  - intros k1 t1 k2 t2 H1 H2 Hlow.
    rewrite (Hpar _ _ H1), (Hpar _ _ H2), Hlow. reflexivity.
  - intros k1 t1 k2 t2 H1 H2 Hp1 Hp2 Hlow.
    rewrite (Hsec _ _ H1 Hp1), (Hsec _ _ H2 Hp2), Hlow. reflexivity.
  - destruct (update_scanned _ _ _ _ _ Hs) as (Hc & Hsev & _).
    unfold c, sev, this'. rewrite Hsev. exact Hc.
  - intros key token [Hf|Hf].
    + apply (paragraphFlagged_unreferenced _ _ _ _ _ key token Hs Hf).
    + apply (sectionFlagged_unreferenced _ _ _ _ _ key token Hs Hf).
  - intros key token Hin Hown. rewrite (Hpar _ _ Hin).
    apply (paragraphFlagged_update _ _ _ _ _ _ _ Hs Hin Hown).
  - intros key token Hin Hpd Hown. rewrite (Hsec _ _ Hin Hpd).
    apply (sectionFlagged_update _ _ _ _ _ _ _ Hs Hin Hpd Hown).
Qed.



Lemma update_unchanged_parse (document : TextDocument)
    (this : CobolUsageProvider) (w : ScanWorld) (qp : COBOLQuickParse) :
  current this = Some qp ->
  qp_filename qp = fileName document ->
  currentVersion this = Some (version document) ->
  current (updateDiagnostics document this w).1 = current this
  /\ currentVersion (updateDiagnostics document this w).1
     = currentVersion this
  /\ sourceRefs (updateDiagnostics document this w).1 = sourceRefs this
  /\ enabled (updateDiagnostics document this w).1 = enabled this
  /\ diagCollect (updateDiagnostics document this w).1 = diagCollect this
  /\ (updateDiagnostics document this w).2 = w
  /\ (sourceRefs this <> None -> enabled this = true ->
      collection (updateDiagnostics document this w).1
      = publish
          (collectDiagnostics (diagCollect this) qp
             (default (mkSourceRefs ∅) (sourceRefs this))) ∅).
Proof.
  intros Hcur Hname Hver.
  pose proof (setup_unchanged document this w qp Hcur Hname Hver) as Hsetup.
  unfold updateDiagnostics.
  destruct (enabled this) eqn:Hen; simpl.
  - rewrite Hsetup, Hcur.
    destruct (sourceRefs this) as [refs|] eqn:Hrefs; simpl;
      repeat split; auto; congruence.
  - repeat split; auto; congruence.
Qed.

(** What [updateDiagnostics] leaves in an enabled provider. *)
Lemma update_result (document : TextDocument) (this : CobolUsageProvider)
    (w : ScanWorld) :
  enabled this = true ->
  enabled (updateDiagnostics document this w).1 = true
  /\ current (updateDiagnostics document this w).1
     = current (setupCOBOLQuickParse document this w).1
  /\ currentVersion (updateDiagnostics document this w).1
     = Some (version document)
  /\ forall qp refs,
       current (updateDiagnostics document this w).1 = Some qp ->
       sourceRefs (updateDiagnostics document this w).1 = Some refs ->
       collection (updateDiagnostics document this w).1
       = publish
           (collectDiagnostics
              (diagCollect (updateDiagnostics document this w).1) qp refs) ∅.
Proof.
  intros Hen. unfold updateDiagnostics. rewrite Hen. simpl.
  pose proof (setup_current document this w) as [[qp Hq] Hv].
  pose proof (setup_keeps document this w) as (Hen1 & _).
  destruct (setupCOBOLQuickParse document this w) as [this1 w1].
  simpl in *. rewrite Hq.
  destruct (sourceRefs this1) as [refs|] eqn:Hrefs; simpl.
  - repeat split; congruence.
  - repeat split; congruence.
Qed.

(** A provider that holds the parse of the document and its diagnostics
    is left as it is. *)
Lemma update_fix (document : TextDocument) (this : CobolUsageProvider)
    (w : ScanWorld) (qp : COBOLQuickParse) :
  enabled this = true ->
  current this = Some qp ->
  qp_filename qp = fileName document ->
  currentVersion this = Some (version document) ->
  (forall refs,
     sourceRefs this = Some refs ->
     collection this
     = publish (collectDiagnostics (diagCollect this) qp refs) ∅) ->
  updateDiagnostics document this w = (this, w).
Proof.
  intros Hen Hcur Hname Hver Hcoll. unfold updateDiagnostics.
  rewrite Hen. simpl.
  rewrite (setup_unchanged document this w qp) by assumption.
  rewrite Hcur. destruct (sourceRefs this) as [refs|] eqn:Hrefs;
    [|reflexivity].
  rewrite <- (Hcoll refs eq_refl), <- Hcur, <- Hrefs.
  destruct this. reflexivity.
Qed.

Lemma update_again (document : TextDocument) (this : CobolUsageProvider)
    (w : ScanWorld) (qp : COBOLQuickParse) :
  current this = Some qp ->
  qp_filename qp = fileName document ->
  currentVersion this = Some (version document) ->
  updateDiagnostics document (updateDiagnostics document this w).1
    (updateDiagnostics document this w).2
  = updateDiagnostics document this w.
Proof.
  intros Hcur Hname Hver.
  destruct (enabled this) eqn:Hen.
  - destruct (update_result document this w Hen) as (Hen' & Hc' & Hv' & Hcoll).
    rewrite (setup_unchanged document this w qp) in Hc' by assumption.
    simpl in Hc'. rewrite Hcur in Hc'.
    rewrite (update_fix document _ _ qp); auto.
    destruct (updateDiagnostics document this w). reflexivity.
  - unfold updateDiagnostics at 2 3. rewrite Hen. simpl.
    unfold updateDiagnostics. rewrite Hen. reflexivity.
Qed.

(** C8. When the provider holds a parse whose file name is that of the
    document, for the version of the document, [setupCOBOLQuickParse]
    changes nothing and makes no scan: the parse and the references are
    the ones held before, and updating the diagnostics once more gives
    the same provider and the same world. *)
Theorem rescan_reuses_parse (document : TextDocument)
    (this : CobolUsageProvider) (w : ScanWorld) (qp : COBOLQuickParse) :
  current this = Some qp ->
  qp_filename qp = fileName document ->
  currentVersion this = Some (version document) ->
  setupCOBOLQuickParse document this w = (this, w)
  /\ current (updateDiagnostics document this w).1 = current this
  /\ sourceRefs (updateDiagnostics document this w).1 = sourceRefs this
  /\ (updateDiagnostics document this w).2 = w
  /\ updateDiagnostics document (updateDiagnostics document this w).1
       (updateDiagnostics document this w).2
     = updateDiagnostics document this w.
Proof.
  intros Hcur Hname Hver.
  destruct (update_unchanged_parse document this w qp Hcur Hname Hver)
    as (Hc & _ & Hr & _ & _ & Hw & _).
  repeat split; try assumption.
  - apply (setup_unchanged document this w qp); assumption.
  - apply (update_again document this w qp); assumption.
Qed.

(** Two scans of one document in a row: when the parse that is built
    carries the file name of the document, the second one changes
    nothing. *)
Lemma scan_twice (document : TextDocument) (this : CobolUsageProvider)
    (w : ScanWorld) :
  (forall qp,
     current (setupCOBOLQuickParse document this w).1 = Some qp ->
     qp_filename qp = fileName document) ->
  enabled this = true ->
  updateDiagnostics document (updateDiagnostics document this w).1
    (updateDiagnostics document this w).2
  = updateDiagnostics document this w.
Proof.
  intros Hname Hen.
  destruct (update_result document this w Hen) as (Hen' & Hc' & Hv' & Hcoll).
  pose proof (setup_current document this w) as [[qp Hq] _].
  rewrite Hq in Hc'.
  rewrite (update_fix document _ _ qp); auto.
  destruct (updateDiagnostics document this w). reflexivity.
Qed.

End WithScanner.

(** In the examples [qp1] and [qp3] no token has another file name with
    the [Uri] of the program. *)
Lemma uriOwned_qp1 :
  let H := Sim.scanner Sim.qp1 Sim.refs1 in
  uriOwned Sim.qp1 Sim.prog.
Proof.
  intros H key token Hin Huri. simpl in Hin.
  repeat (apply elem_of_cons in Hin as [Hin|Hin];
          [injection Hin as -> ->;
           first [reflexivity | vm_compute in Huri; discriminate Huri]|]).
  inversion Hin.
Qed.




(** C3, witness: [Unused-Para] and [UNUSED-PARA] are reported together,
    and flagged; the section [LIVE-SEC] is performed, as [live-sec], and
    neither reported nor flagged. *)
Lemma unreferenced_check_ignores_case_witness :
  let H := Sim.scanner Sim.qp1 Sim.refs1 in
  let this' := (updateDiagnostics Sim.doc1 Sim.provider0 0%nat).1 in
  (paragraphReported (diagCollect this') Sim.qp1 Sim.refs1
     "Unused-Para" Sim.tokUnused
   <-> paragraphReported (diagCollect this') Sim.qp1 Sim.refs1
         "UNUSED-PARA" Sim.tokUnusedUpper)
  /\ paragraphFlagged (collection this') (diagCollect this')
       "Unused-Para" Sim.tokUnused
  /\ paragraphFlagged (collection this') (diagCollect this')
       "UNUSED-PARA" Sim.tokUnusedUpper
  /\ ~ sectionReported (diagCollect this') Sim.qp1 Sim.refs1
         "LIVE-SEC" Sim.tokLive
  /\ ~ sectionFlagged (collection this') (diagCollect this')
         "LIVE-SEC" Sim.tokLive.
Proof.
  intros H this'.
  assert (scanned Sim.doc1 Sim.provider0 0%nat Sim.qp1 Sim.refs1) as Hs
    by (repeat split).
  destruct (unreferenced_check_ignores_case (H := H) Sim.doc1 Sim.provider0
              0%nat Sim.qp1 Sim.refs1 Hs)
    as (Hpar & Hsec & Hpar2 & _ & _ & Hflag & Hboth & _).
  split; [|split; [|split; [|split]]].
  - apply Hpar2; [in_list | in_list | reflexivity].
  - apply Hboth; [in_list | apply uriOwned_qp1 |].
    apply Hpar; [in_list | vm_compute; reflexivity].
  - apply Hboth; [in_list | apply uriOwned_qp1 |].
    apply Hpar; [in_list | vm_compute; reflexivity].
  - intros Hrep. apply Hsec in Hrep; [|in_list|reflexivity].
    vm_compute in Hrep. discriminate Hrep.
  - intros Hf.
    assert (targetReferences_has Sim.refs1 (String_toLowerCase "LIVE-SEC")
            = false) as Hno by (apply (Hflag _ Sim.tokLive); right; exact Hf).
    vm_compute in Hno. discriminate Hno.
Defined.





(** C8, witness: after a first update for [doc1] the scanner has run
    once; a second update for the same document leaves the provider and
    the world (one scan) as they are. *)
Lemma rescan_reuses_parse_witness :
  let H := Sim.scanner Sim.qp1 Sim.refs1 in
  let first := updateDiagnostics Sim.doc1 Sim.provider0 0%nat in
  first.2 = 1%nat
  /\ setupCOBOLQuickParse Sim.doc1 first.1 first.2 = first
  /\ (updateDiagnostics Sim.doc1 first.1 first.2).2 = 1%nat
  /\ current (updateDiagnostics Sim.doc1 first.1 first.2).1 = Some Sim.qp1.
Proof.
  intros H first.
  destruct (rescan_reuses_parse (H := H) Sim.doc1 first.1 first.2 Sim.qp1
              eq_refl eq_refl eq_refl) as (Hsetup & Hcur & _ & Hw & _).
  split; [reflexivity|]. split; [|split].
  - rewrite Hsetup. reflexivity.
  - rewrite Hw. reflexivity.
  - rewrite Hcur. reflexivity.
Defined.

Example updateDiagnostics_ex :
  collection
    (updateDiagnostics (H := Sim.scanner Sim.qp1 Sim.refs1)
       Sim.doc1 Sim.provider0 0%nat).1
  !! "file:///proj/prog.cbl"
  = Some [paragraphDiagnostic Information "Unused-Para" Sim.tokUnused;
          paragraphDiagnostic Information "UNUSED-PARA" Sim.tokUnusedUpper].
Proof. vm_compute. reflexivity. Qed.

End UsageFacts.

(** ** The metadata cache *)

Module LifecycleFacts.
Import Lifecycle.

Lemma length_positive (s : string) :
  (JS.length s >? 0) = negb (String.eqb s "").
Proof.
  destruct s as [|c s]; [reflexivity|].
  unfold JS.length. simpl String.length.
  destruct (Z.gtb_spec (Z.of_nat (S (String.length s))) 0); [reflexivity|lia].
Qed.

Lemma activate_loads (c : Configuration) :
  activate c
  = (match getCacheDirectory c with
     | Some cacheDirectory =>
         if cacheDirectoryConfigured c
         then [loadInMemoryGlobalSymbolCaches cacheDirectory;
               loadInMemoryGlobalFileCache cacheDirectory]
         else []
     | None => []
     end)
    ++ (if process_metadata_cache_on_start (get c)
        then [processAllFilesInWorkspaces false] else []).
Proof.
  unfold activate, cacheDirectoryConfigured.
  destruct (getCacheDirectory c) as [d|]; [|reflexivity].
  rewrite length_positive. reflexivity.
Qed.

(** Every call of a loader that [activate] makes is for the configured,
    non-empty directory. *)
Lemma activate_load_directory (c : Configuration) (d : string) :
  loadInMemoryGlobalSymbolCaches d ∈ activate c
  \/ loadInMemoryGlobalFileCache d ∈ activate c ->
  getCacheDirectory c = Some d /\ d <> "".
Proof.
  rewrite activate_loads. unfold cacheDirectoryConfigured.
  rewrite !elem_of_app.
  destruct (getCacheDirectory c) as [d0|];
    [destruct (String.eqb_spec d0 "") as [He|He]|];
    destruct (process_metadata_cache_on_start (get c)); simpl;
    rewrite ?elem_of_cons, ?elem_of_nil;
    intros [[Hin|Hin]|[Hin|Hin]];
    repeat match goal with
           | Hor : _ \/ _ |- _ => destruct Hor as [Hor|Hor]
           end;
    try contradiction; try discriminate;
    match goal with Heq : _ = _ |- _ => injection Heq as ->; auto end.
Qed.

Lemma deactivate_saves (c : Configuration) :
  (exists d, saveInMemoryGlobalCaches d ∈ deactivate c)
  <-> isCachingEnabled c = true.
Proof.
  unfold deactivate, deactivateAsync.
  destruct (isCachingEnabled c); split.
  - reflexivity.
  - intros _. eexists. apply list_elem_of_here.
  - intros [d Hin]. inversion Hin.
  - discriminate.
Qed.

(** C9. [activate] calls each of the two loaders of the cache once when a
    cache directory is configured (not [null], not empty), with that
    directory, and not at all otherwise. [deactivate] saves the caches
    once when caching is enabled, and when caching is disabled it makes
    no call at all; it never loads. *)
Theorem cache_loaded_once_saved_when_enabled (c : Configuration) :
  count isSymbolLoad (activate c)
  = (if cacheDirectoryConfigured c then 1 else 0)%nat
  /\ count isFileLoad (activate c)
     = (if cacheDirectoryConfigured c then 1 else 0)%nat
  /\ (forall d,
        loadInMemoryGlobalSymbolCaches d ∈ activate c
        \/ loadInMemoryGlobalFileCache d ∈ activate c ->
        getCacheDirectory c = Some d /\ d <> "")
  /\ count isSave (deactivate c) = (if isCachingEnabled c then 1 else 0)%nat
  /\ ((exists d, saveInMemoryGlobalCaches d ∈ deactivate c)
      <-> isCachingEnabled c = true)
  /\ (isCachingEnabled c = false -> deactivate c = [])
  /\ count isLoad (deactivate c) = 0%nat.
Proof.
  split; [|split; [|split; [|split; [|split; [|split]]]]].
  - rewrite activate_loads. unfold cacheDirectoryConfigured, count.
    destruct (getCacheDirectory c) as [d|];
      [destruct (negb (String.eqb d ""))|];
      destruct (process_metadata_cache_on_start (get c)); reflexivity.
  - rewrite activate_loads. unfold cacheDirectoryConfigured, count.
    destruct (getCacheDirectory c) as [d|];
      [destruct (negb (String.eqb d ""))|];
      destruct (process_metadata_cache_on_start (get c)); reflexivity.
  - apply activate_load_directory.
  - unfold deactivate, deactivateAsync, count.
    destruct (isCachingEnabled c); reflexivity.
  - apply deactivate_saves.
  - unfold deactivate, deactivateAsync. intros ->. reflexivity.
  - unfold deactivate, deactivateAsync, count.
    destruct (isCachingEnabled c); reflexivity.
Qed.

Example activate_ex :
  activate (mkConfiguration (Some "/proj/.vscode_cobol") true
              (mkSettings false true))
  = [loadInMemoryGlobalSymbolCaches "/proj/.vscode_cobol";
     loadInMemoryGlobalFileCache "/proj/.vscode_cobol";
     processAllFilesInWorkspaces false].
Proof. reflexivity. Qed.

Example activate_empty_directory_ex :
  activate (mkConfiguration (Some "") true (mkSettings false false)) = [].
Proof. reflexivity. Qed.

Example deactivate_ex :
  deactivate (mkConfiguration None true (mkSettings false false))
  = [saveInMemoryGlobalCaches None; formatStatusBarItem_dispose]
  /\ deactivate (mkConfiguration (Some "/c") false (mkSettings false false))
     = [].
Proof. split; reflexivity. Qed.

End LifecycleFacts.

(** ** The search path: further facts *)

Module SearchPathMore.
Import SearchPath SearchPathSpec SearchPathFacts.
Local Open Scope search_scope.

Section WithHost.
Context `{Host}.

(** *** Where the entries come from *)

Lemma step1_origin (config : ICOBOLSettings) (ddir : string) (s : State) :
  grows
    (fun x => x = ddir /\ isDirectPath x = true
              /\ disable_unc_copybooks_directories config && isNetworkPath x
                 = false)
    (fun x => x = ddir
              /\ (disable_unc_copybooks_directories config && isNetworkPath x
                  = true
                  \/ isDirectPath x = true))
    s (exec (step1 config ddir) s).
Proof.
  destruct (disable_unc_copybooks_directories config && isNetworkPath ddir)
    eqn:Hex.
  - rewrite step1_excluded by assumption. split; simpl.
    + exists []. rewrite app_nil_r. auto.
    + exists [ddir]. split; [reflexivity|]. constructor; [|constructor]. auto.
  - destruct (isDirectPath ddir) eqn:Hd.
    + pose proof (step1_checked config ddir s Hex Hd) as Hc.
      destruct (checkAnswer ddir (world s)
                && (checkDuration ddir (world s) <=? 2000));
        destruct Hc as [Hf Hi]; split.
      * exists [ddir]. split; [assumption|]. constructor; [|constructor].
        auto.
      * exists []. rewrite app_nil_r. auto.
      * exists []. rewrite app_nil_r. auto.
      * exists [ddir]. split; [assumption|]. constructor; [|constructor].
        auto.
    + rewrite step1_skipped by assumption. apply grows_refl.
Qed.

Lemma step1_loop_origin (config : ICOBOLSettings) (s : State) :
  grows (checkedDirect config) (rejectable config) s
    (exec (for_of getCopybookdirs_defaults (step1 config)) s).
Proof.
  apply for_of_grows. intros x s' Hx.
  eapply grows_weaken; [| |apply step1_origin]; simpl.
  - intros y (-> & Hd & Hex). repeat split; assumption.
  - intros y (-> & Hor). split; assumption.
Qed.

Lemma isWorkspaceJoin_intro (ws : list WorkspaceFolder)
    (folder : WorkspaceFolder) (extdir : string) :
  getWorkspaceFolders = Some ws -> folder ∈ ws ->
  extdir ∈ getCopybookdirs_defaults -> isDirectPath extdir = false ->
  isWorkspaceJoin (path_join (uri_fsPath folder) extdir) = true.
Proof.
  intros Hws Hin He Hd. unfold isWorkspaceJoin. rewrite Hws.
  apply existsb_exists. exists folder. split.
  - apply list_elem_of_In. assumption.
  - apply existsb_exists. exists extdir. split.
    + apply list_elem_of_In. assumption.
    + rewrite Hd, String.eqb_refl. reflexivity.
Qed.

Lemma isWorkspaceJoin_supplies (x : string) :
  isWorkspaceJoin x = true -> workspaceSupplies x = true.
Proof.
  unfold isWorkspaceJoin, workspaceSupplies.
  destruct getWorkspaceFolders as [ws|]; [|discriminate].
  rewrite !existsb_exists. intros (folder & Hin & Hj).
  exists folder. split; [assumption|]. rewrite Hj. apply orb_true_r.
Qed.

Lemma step2_folder_origin (ws : list WorkspaceFolder)
    (folder : WorkspaceFolder) (s : State) :
  getWorkspaceFolders = Some ws -> folder ∈ ws ->
  grows (fun x => workspaceSupplies x = true)
        (fun x => isWorkspaceJoin x = true) s
    (exec (step2_folder getCopybookdirs_defaults folder) s).
Proof.
  intros Hws Hin. unfold step2_folder. rewrite exec_seq.
  apply grows_trans
    with (s2 := exec (fileSearchDirectory_push (uri_fsPath folder)) s).
  - split; simpl.
    + exists [uri_fsPath folder]. split; [reflexivity|].
      constructor; [|constructor]. eapply workspaceSupplies_folder; eauto.
    + exists []. rewrite app_nil_r. auto.
  - apply for_of_grows. intros extdir s' He.
    eapply grows_weaken; [| |apply step2_extdir_grows]; simpl.
    + intros x [Hd ->]. eapply workspaceSupplies_join; eauto.
    + intros x [Hd ->]. eapply isWorkspaceJoin_intro; eauto.
Qed.

Lemma step2_origin (s : State) :
  grows (fun x => workspaceSupplies x = true)
        (fun x => isWorkspaceJoin x = true) s
    (exec (step2 getCopybookdirs_defaults) s).
Proof.
  unfold step2.
  destruct getWorkspaceFolders as [ws|] eqn:Hws; [|apply grows_refl].
  apply for_of_grows. intros folder s' Hin.
  eapply step2_folder_origin; eauto.
Qed.

Lemma collect_origin (config : ICOBOLSettings) (s0 : State) :
  grows (fun x => checkedDirect config x \/ workspaceSupplies x = true)
        (fun x => rejectable config x \/ isWorkspaceJoin x = true)
    (exec clear_lists s0) (exec (collectSearchPaths config) s0).
Proof.
  unfold collectSearchPaths. cbv zeta. rewrite !exec_seq.
  apply grows_trans
    with (s2 := exec (for_of getCopybookdirs_defaults (step1 config))
                  (exec clear_lists s0)).
  - apply grows_weaken
      with (P := checkedDirect config) (Q := rejectable config);
      [auto | auto | apply step1_loop_origin].
  - apply grows_weaken
      with (P := fun x => workspaceSupplies x = true)
           (Q := fun x => isWorkspaceJoin x = true);
      [auto | auto | apply step2_origin].
Qed.

Lemma final_lists (config : ICOBOLSettings) (s0 : State) (x : string) :
  (x ∈ fileSearchDirectory (exec (initExtensionSearchPaths config) s0)
   <-> x ∈ fileSearchDirectory (exec (collectSearchPaths config) s0))
  /\ (x ∈ invalidSearchDirectory (exec (initExtensionSearchPaths config) s0)
      <-> x ∈ invalidSearchDirectory (exec (collectSearchPaths config) s0)).
Proof.
  unfold initExtensionSearchPaths. rewrite exec_seq.
  unfold remove_duplicates, exec at 1 3. simpl.
  rewrite !JSFacts.elem_of_filter_first_index. tauto.
Qed.

(** X1. Every entry of the active search path that
    [initExtensionSearchPaths] returns is a configured directory that is
    direct and not set aside as a network path, or a workspace folder, or
    the join of a workspace folder with a configured directory that is not
    direct. Every entry of the invalid list is a configured directory that
    is direct or set aside as a network path, or such a join. Nothing of
    the lists held before the call is left. *)
Theorem search_path_entries_origin (config : ICOBOLSettings) (s0 : State)
    (x : string) :
  let final := exec (initExtensionSearchPaths config) s0 in
  (x ∈ fileSearchDirectory final ->
   checkedDirect config x \/ workspaceSupplies x = true)
  /\ (x ∈ invalidSearchDirectory final ->
      rejectable config x \/ isWorkspaceJoin x = true).
Proof.
  intros final.
  destruct (final_lists config s0 x) as [Hf Hi]. fold final in Hf, Hi.
  pose proof (collect_origin config s0) as Hg.
  pose proof (grows_file_elem _ _ _ _ x Hg) as [_ Hfile].
  pose proof (grows_invalid_elem _ _ _ _ x Hg) as [_ Hinv].
  split; intros Hx.
  - apply Hf in Hx. destruct (Hfile Hx) as [Hnil|]; [inversion Hnil|auto].
  - apply Hi in Hx. destruct (Hinv Hx) as [Hnil|]; [inversion Hnil|auto].
Qed.

(** *** Workspace folders and relative directories *)

Lemma step2_file_mono (extsdir : list string) (s : State) (x : string) :
  x ∈ fileSearchDirectory s ->
  x ∈ fileSearchDirectory (exec (step2 extsdir) s).
Proof.
  unfold step2. destruct getWorkspaceFolders as [ws|]; [|auto].
  eapply grows_file_elem.
  apply for_of_grows. intros. apply step2_folder_mono.
Qed.

(** X2. When there are workspace folders, the path of each of them is in
    the active search path that [initExtensionSearchPaths] returns, whatever
    the file system answers. *)
Theorem workspace_folders_always_searched (config : ICOBOLSettings)
    (s0 : State) (ws : list WorkspaceFolder) (folder : WorkspaceFolder) :
  getWorkspaceFolders = Some ws ->
  folder ∈ ws ->
  uri_fsPath folder
  ∈ fileSearchDirectory (exec (initExtensionSearchPaths config) s0).
Proof.
  intros Hws Hin. apply final_lists.
  unfold collectSearchPaths. cbv zeta. rewrite !exec_seq.
  unfold step2. rewrite Hws.
  apply list_elem_of_split in Hin as (wpre & wpost & ->).
  rewrite exec_for_of_app, exec_for_of_cons.
  eapply grows_file_elem;
    [apply for_of_grows; intros; apply step2_folder_mono|].
  unfold step2_folder. rewrite exec_seq.
  eapply grows_file_elem;
    [apply for_of_grows; intros; apply step2_extdir_mono|].
  unfold exec, fileSearchDirectory_push. simpl.
  rewrite elem_of_app, list_elem_of_singleton. auto.
Qed.

Lemma rest2_file (folder : WorkspaceFolder) (epost extsdir : list string)
    (wpost : list WorkspaceFolder) (s : State) (x : string) :
  x ∈ fileSearchDirectory s ->
  x ∈ fileSearchDirectory
        (exec (for_of epost (step2_extdir folder) ;;
               for_of wpost (step2_folder extsdir) ;;
               remove_duplicates) s).
Proof.
  intros Hx. rewrite !exec_seq.
  unfold remove_duplicates, exec at 1. simpl.
  rewrite JSFacts.elem_of_filter_first_index.
  eapply grows_file_elem;
    [apply for_of_grows; intros; apply step2_folder_mono|].
  eapply grows_file_elem;
    [apply for_of_grows; intros; apply step2_extdir_mono|].
  assumption.
Qed.

(** X3. When there are workspace folders, every configured directory that
    is not direct is joined with every workspace folder, and the joined
    path is in the active search path or in the invalid list that
    [initExtensionSearchPaths] returns. *)
Theorem relative_directories_resolved (config : ICOBOLSettings) (s0 : State)
    (ws : list WorkspaceFolder) (folder : WorkspaceFolder) (extdir : string) :
  getWorkspaceFolders = Some ws ->
  folder ∈ ws ->
  extdir ∈ getCopybookdirs_defaults ->
  isDirectPath extdir = false ->
  let final := exec (initExtensionSearchPaths config) s0 in
  let sdir := path_join (uri_fsPath folder) extdir in
  sdir ∈ fileSearchDirectory final \/ sdir ∈ invalidSearchDirectory final.
Proof.
  intros Hws Hin He Hd final sdir.
  apply list_elem_of_split in Hin as (wpre & wpost & Hwsplit).
  apply list_elem_of_split in He as (epre & epost & Hesplit).
  rewrite Hwsplit in Hws.
  unfold final.
  rewrite (init_from_entry2 config wpre wpost folder epre epost extdir s0
             Hws Hesplit).
  pose proof (step2_extdir_checked folder extdir
                (reach2 config wpre folder epre s0) Hd) as Hc.
  cbv zeta in Hc. fold sdir in Hc.
  assert (forall l : list string, sdir ∈ l ++ [sdir]) as Hlast
    by (intros l; rewrite elem_of_app, list_elem_of_singleton; auto).
  destruct (fst (isDirectory sdir (world (reach2 config wpre folder epre s0))));
    destruct Hc as [Hf Hi].
  - left. apply rest2_file. rewrite Hf. apply Hlast.
  - right. apply rest2_invalid. rewrite Hi. apply Hlast.
Qed.

(** *** The order of the active search path *)

Lemma indexOf_app_r (pre suf : list string) (x : string) :
  x ∉ pre -> x ∈ suf ->
  JS.indexOf (pre ++ suf) x
  = Z.of_nat (List.length pre) + JS.indexOf suf x.
Proof.
  intros Hpre Hsuf. induction pre as [|a pre IH]; simpl List.length.
  - simpl. lia.
  - apply not_elem_of_cons in Hpre as [Hne Hpre].
    rewrite <- app_comm_cons.
    rewrite JSFacts.indexOf_cons_ne;
      [|congruence | rewrite elem_of_app; auto].
    rewrite IH by assumption. lia.
Qed.

(** X4. In the active search path that [initExtensionSearchPaths] returns,
    the directories that step 1 accepted come before every entry that only
    step 2 supplies: the configured absolute directories are searched
    before the workspace folders and the directories below them. *)
Theorem direct_directories_searched_first (config : ICOBOLSettings)
    (s0 : State) (x y : string) :
  let final := exec (initExtensionSearchPaths config) s0 in
  x ∈ fileSearchDirectory (afterStep1 config s0) ->
  y ∈ fileSearchDirectory final ->
  y ∉ fileSearchDirectory (afterStep1 config s0) ->
  JS.indexOf (fileSearchDirectory final) x
  < JS.indexOf (fileSearchDirectory final) y.
Proof.
  intros final Hx Hy Hny.
  assert (exec (collectSearchPaths config) s0
          = exec (step2 getCopybookdirs_defaults) (afterStep1 config s0))
    as Hraw.
  { unfold collectSearchPaths, afterStep1. cbv zeta. rewrite !exec_seq.
    reflexivity. }
  destruct (step2_origin (afterStep1 config s0)) as [[a [Ha _]] _].
  rewrite <- Hraw in Ha.
  apply (final_lists config s0 y) in Hy. rewrite Ha in Hy.
  apply elem_of_app in Hy as [Hy|Hy]; [contradiction|].
  assert (fileSearchDirectory final
          = JS.filter_first_index
              (fileSearchDirectory (exec (collectSearchPaths config) s0)))
    as Hfinal
    by (unfold final, initExtensionSearchPaths; rewrite exec_seq;
        reflexivity).
  rewrite Hfinal, Ha.
  apply JSFacts.filter_first_index_order.
  - rewrite elem_of_app. auto.
  - rewrite elem_of_app. auto.
  - rewrite JSFacts.indexOf_app_l by assumption.
    rewrite indexOf_app_r by assumption.
    pose proof (JSFacts.indexOf_range (fileSearchDirectory
                                         (afterStep1 config s0)) x).
    apply JSFacts.indexOf_elem in Hy. lia.
Qed.

(** *** The channel and the lists held before the call *)

Lemma strip_strip (s : State) : strip (strip s) = strip s.
Proof. reflexivity. Qed.

Lemma appendsOnly_ret {A} (a : A) : appendsOnly (ret a).
Proof.
  intros s. unfold ret, strip. simpl. rewrite app_nil_r.
  destruct s. reflexivity.
Qed.

Lemma appendsOnly_bind {A B} (c : M A) (k : A -> M B) :
  appendsOnly c -> (forall a, appendsOnly (k a)) -> appendsOnly (bind c k).
Proof.
  intros Hc Hk s. unfold bind.
  rewrite (Hc s). destruct (c (strip s)) as [a t].
  rewrite (Hk a). rewrite (Hk a t). unfold strip. simpl.
  destruct (k a (mkState (world t) (fileSearchDirectory t)
                   (invalidSearchDirectory t) [])) as [b u].
  simpl. rewrite app_assoc. reflexivity.
Qed.

Lemma appendsOnly_inWorld {A} (f : World -> A * World) :
  appendsOnly (inWorld f).
Proof.
  intros s. unfold inWorld, strip. simpl.
  destruct (f (world s)) as [a w']. simpl. rewrite app_nil_r. reflexivity.
Qed.

Lemma appendsOnly_logMessage (message : string) :
  appendsOnly (logMessage message).
Proof. intros s. reflexivity. Qed.

Lemma appendsOnly_file_push (d : string) :
  appendsOnly (fileSearchDirectory_push d).
Proof.
  intros s. unfold fileSearchDirectory_push, strip. simpl.
  rewrite app_nil_r. reflexivity.
Qed.

Lemma appendsOnly_invalid_push (d : string) :
  appendsOnly (invalidSearchDirectory_push d).
Proof.
  intros s. unfold invalidSearchDirectory_push, strip. simpl.
  rewrite app_nil_r. reflexivity.
Qed.

Lemma appendsOnly_when (b : bool) (c : M unit) :
  appendsOnly c -> appendsOnly (when b c).
Proof. intros Hc. destruct b; [exact Hc | apply appendsOnly_ret]. Qed.

Lemma appendsOnly_for_of {A} (l : list A) (body : A -> M unit) :
  (forall x, appendsOnly (body x)) -> appendsOnly (for_of l body).
Proof.
  intros Hbody. induction l as [|x l IH]; simpl.
  - apply appendsOnly_ret.
  - apply appendsOnly_bind; auto.
Qed.

Lemma appendsOnly_remove_duplicates : appendsOnly remove_duplicates.
Proof.
  intros s. unfold remove_duplicates, strip. simpl. rewrite app_nil_r.
  reflexivity.
Qed.

Ltac appends_only :=
  repeat first
    [ apply appendsOnly_bind; [|intros ?]
    | apply appendsOnly_when
    | apply appendsOnly_inWorld
    | apply appendsOnly_logMessage
    | apply appendsOnly_file_push
    | apply appendsOnly_invalid_push
    | apply appendsOnly_ret
    | match goal with |- appendsOnly (if ?b then _ else _) => destruct b end
    ].

Lemma appendsOnly_step1 (config : ICOBOLSettings) (ddir : string) :
  appendsOnly (step1 config ddir).
Proof. unfold step1. appends_only. Qed.

Lemma appendsOnly_step2_extdir (folder : WorkspaceFolder) (extdir : string) :
  appendsOnly (step2_extdir folder extdir).
Proof. unfold step2_extdir. appends_only. Qed.

Lemma appendsOnly_step2 (extsdir : list string) : appendsOnly (step2 extsdir).
Proof.
  unfold step2. destruct getWorkspaceFolders as [ws|];
    [|apply appendsOnly_ret].
  apply appendsOnly_for_of. intros folder. unfold step2_folder.
  apply appendsOnly_bind; [apply appendsOnly_file_push|]. intros _.
  apply appendsOnly_for_of. intros. apply appendsOnly_step2_extdir.
Qed.

(** What follows the emptying of the lists. *)
Lemma appendsOnly_after_clear (config : ICOBOLSettings) :
  appendsOnly
    (for_of getCopybookdirs_defaults (step1 config) ;;
     step2 getCopybookdirs_defaults ;;
     remove_duplicates).
Proof.
  apply appendsOnly_bind;
    [apply appendsOnly_for_of; intros; apply appendsOnly_step1|].
  intros _. apply appendsOnly_bind; [apply appendsOnly_step2|].
  intros _. apply appendsOnly_remove_duplicates.
Qed.

Lemma init_after_clear (config : ICOBOLSettings) (s0 : State) :
  exec (initExtensionSearchPaths config) s0
  = exec (for_of getCopybookdirs_defaults (step1 config) ;;
          step2 getCopybookdirs_defaults ;;
          remove_duplicates) (exec clear_lists s0).
Proof.
  unfold initExtensionSearchPaths, collectSearchPaths. cbv zeta.
  rewrite !exec_seq. reflexivity.
Qed.

(** X5. What [initExtensionSearchPaths] returns does not depend on the
    lists held before the call, nor on the channel: started in the same
    world, two calls end in the same world with the same two lists, and
    each only appends the same lines to its channel. *)
Theorem search_path_rebuilt_from_scratch (config : ICOBOLSettings)
    (s0 s0' : State) :
  world s0 = world s0' ->
  let final := exec (initExtensionSearchPaths config) s0 in
  let final' := exec (initExtensionSearchPaths config) s0' in
  world final = world final'
  /\ fileSearchDirectory final = fileSearchDirectory final'
  /\ invalidSearchDirectory final = invalidSearchDirectory final'
  /\ exists out,
       COBOLOutputChannel final = COBOLOutputChannel s0 ++ out
       /\ COBOLOutputChannel final' = COBOLOutputChannel s0' ++ out.
Proof.
  intros Hw final final'. unfold final, final'.
  rewrite !init_after_clear. unfold exec at 1 3 5 7 9 11 13 15.
  rewrite (appendsOnly_after_clear config (exec clear_lists s0)).
  rewrite (appendsOnly_after_clear config (exec clear_lists s0')).
  assert (strip (exec clear_lists s0) = strip (exec clear_lists s0')) as ->
    by (unfold strip, exec, clear_lists; simpl; rewrite Hw; reflexivity).
  match goal with
  | |- context [?c (strip (exec clear_lists s0'))] =>
      destruct (c (strip (exec clear_lists s0'))) as [u t]
  end.
  simpl. repeat split. exists (COBOLOutputChannel t). split; reflexivity.
Qed.

End WithHost.

(** X1, instance: in the first example the entry [/stale] of the old
    lists is gone. *)
Lemma search_path_entries_origin_witness :
  let H := Sim.host Sim.fs1 Sim.ws1 Sim.dirs1 in
  let final := exec (initExtensionSearchPaths Sim.uncOff)
                 (Sim.start Sim.fs1 Sim.ws1 Sim.dirs1) in
  ("/stale" ∉ fileSearchDirectory final)
  /\ ("/stale" ∉ invalidSearchDirectory final).
Proof.
  intros H final.
  destruct (search_path_entries_origin (H := H) Sim.uncOff
              (Sim.start Sim.fs1 Sim.ws1 Sim.dirs1) "/stale") as [Hf Hi].
  split; intros Hin.
  - destruct (Hf Hin) as [(Hd & _)|Hw]; [|discriminate Hw].
    revert Hd. not_in_list.
  - destruct (Hi Hin) as [(Hd & _)|Hw]; [|discriminate Hw].
    revert Hd. not_in_list.
Defined.

(** X2, instance. *)
Lemma workspace_folders_always_searched_witness :
  "/proj"
  ∈ fileSearchDirectory
      (exec (H := Sim.host Sim.fs1 Sim.ws1 Sim.dirs1)
         (initExtensionSearchPaths Sim.uncOff)
         (Sim.start Sim.fs1 Sim.ws1 Sim.dirs1)).
Proof.
  apply (workspace_folders_always_searched
           (H := Sim.host Sim.fs1 Sim.ws1 Sim.dirs1) Sim.uncOff
           (Sim.start Sim.fs1 Sim.ws1 Sim.dirs1)
           [mkWorkspaceFolder "proj" "/proj"]
           (mkWorkspaceFolder "proj" "/proj") eq_refl).
  in_list.
Defined.

(** X3, instance: [missing] below [/proj]. *)
Lemma relative_directories_resolved_witness :
  let H := Sim.host Sim.fs1 Sim.ws1 Sim.dirs1 in
  let final := exec (initExtensionSearchPaths Sim.uncOff)
                 (Sim.start Sim.fs1 Sim.ws1 Sim.dirs1) in
  "/proj/missing" ∈ fileSearchDirectory final
  \/ "/proj/missing" ∈ invalidSearchDirectory final.
Proof.
  intros H final.
  apply (relative_directories_resolved (H := H) Sim.uncOff
           (Sim.start Sim.fs1 Sim.ws1 Sim.dirs1)
           [mkWorkspaceFolder "proj" "/proj"]
           (mkWorkspaceFolder "proj" "/proj") "missing" eq_refl);
    [in_list | in_list | reflexivity].
Defined.

(** X4, instance: [/opt/copylib] is searched before [/proj/copybooks]. *)
Lemma direct_directories_searched_first_witness :
  let H := Sim.host Sim.fs1 Sim.ws1 Sim.dirs1 in
  let final := exec (initExtensionSearchPaths Sim.uncOff)
                 (Sim.start Sim.fs1 Sim.ws1 Sim.dirs1) in
  JS.indexOf (fileSearchDirectory final) "/opt/copylib"
  < JS.indexOf (fileSearchDirectory final) "/proj/copybooks".
Proof.
  intros H final.
  apply (direct_directories_searched_first (H := H) Sim.uncOff
           (Sim.start Sim.fs1 Sim.ws1 Sim.dirs1)).
  - vm_compute. in_list.
  - vm_compute. in_list.
  - vm_compute. not_in_list.
Defined.

(** X5, instance: the first example, started with other lists and some
    lines on the channel. *)
Lemma search_path_rebuilt_from_scratch_witness :
  let H := Sim.host Sim.fs1 Sim.ws1 Sim.dirs1 in
  let s0 := Sim.start Sim.fs1 Sim.ws1 Sim.dirs1 in
  let s0' := mkState (world s0) ["/other"; "/proj"] [] ["an earlier line"] in
  fileSearchDirectory (exec (initExtensionSearchPaths Sim.uncOff) s0)
  = fileSearchDirectory (exec (initExtensionSearchPaths Sim.uncOff) s0').
Proof.
  intros H s0 s0'.
  apply (search_path_rebuilt_from_scratch (H := H) Sim.uncOff s0 s0' eq_refl).
Defined.

End SearchPathMore.

(** ** Usage diagnostics: further facts *)

Module UsageMore.
Import Usage UsageSpec UsageFacts.

(** *** The diagnostics of a file *)

Lemma Map_get_addDiagnostic (m : list (string * list Diagnostic))
    (file0 : string) (d : Diagnostic) (file : string) :
  Map_get (addDiagnostic m file0 d) file
  = if String.eqb file0 file
    then Some (default [] (Map_get m file) ++ [d])
    else Map_get m file.
Proof.
  unfold addDiagnostic. rewrite Map_has_get.
  destruct (Map_get m file0) as [arr|] eqn:Hget; rewrite Map_get_set;
    destruct (String.eqb_spec file0 file) as [<-|Hne];
    rewrite ?Hget; reflexivity.
Qed.

Lemma extend_snoc (o : option (list Diagnostic)) (d : Diagnostic)
    (l : list Diagnostic) :
  extend (Some (default [] o ++ [d])) l = extend o (d :: l).
Proof.
  destruct l as [|d' l]; simpl; [reflexivity|].
  rewrite <- app_assoc. reflexivity.
Qed.

Lemma extend_app (o : option (list Diagnostic)) (l1 l2 : list Diagnostic) :
  extend (extend o l1) l2 = extend o (l1 ++ l2).
Proof.
  destruct l1 as [|d1 l1]; [reflexivity|].
  destruct l2 as [|d2 l2]; simpl.
  - rewrite app_nil_r. reflexivity.
  - rewrite <- app_assoc. reflexivity.
Qed.

Lemma Map_get_key {V} (m : list (string * V)) (k : string) :
  k ∈ m.*1 -> exists v, Map_get m k = Some v.
Proof.
  induction m as [|[k0 v0] m IH]; [intros Hk; inversion Hk|].
  rewrite fmap_cons. simpl. intros Hk.
  destruct (String.eqb_spec k0 k) as [->|Hne]; [eauto|].
  apply elem_of_cons in Hk as [Hk|Hk]; [congruence|auto].
Qed.

Section WithScanner.
Context `{Scanner}.

Lemma paragraph_loop_get (sev : DiagnosticSeverity)
    (refs : SharedSourceReferences) (l : list (string * COBOLToken))
    (m : list (string * list Diagnostic)) (file : string) :
  Map_get (fold_left (paragraphStep sev refs) l m) file
  = extend (Map_get m file) (omap (paragraphReport sev refs file) l).
Proof.
  revert m. induction l as [|[key token] l IH]; intros m; [reflexivity|].
  cbn [fold_left omap list_omap]. rewrite IH.
  unfold paragraphStep, paragraphReport at 2.
  destruct (targetReferences_has refs (String_toLowerCase key)); cbn [negb].
  - rewrite andb_false_r. reflexivity.
  - rewrite andb_true_r, Map_get_addDiagnostic.
    destruct (String.eqb (filename token) file); [|reflexivity].
    apply extend_snoc.
Qed.

Lemma section_loop_get (sev : DiagnosticSeverity)
    (refs : SharedSourceReferences) (l : list (string * COBOLToken))
    (m : list (string * list Diagnostic)) (file : string) :
  Map_get (fold_left (sectionStep sev refs) l m) file
  = extend (Map_get m file) (omap (sectionReport sev refs file) l).
Proof.
  revert m. induction l as [|[key token] l IH]; intros m; [reflexivity|].
  cbn [fold_left omap list_omap]. rewrite IH.
  unfold sectionStep, sectionReport at 2.
  destruct (inProcedureDivision token);
    [|rewrite andb_false_r; reflexivity].
  destruct (targetReferences_has refs (String_toLowerCase key)); cbn [negb].
  - rewrite andb_false_r. reflexivity.
  - rewrite !andb_true_r, Map_get_addDiagnostic.
    destruct (String.eqb (filename token) file); [|reflexivity].
    apply extend_snoc.
Qed.

Lemma collect_get (sev : DiagnosticSeverity) (qp : COBOLQuickParse)
    (refs : SharedSourceReferences) (file : string) :
  Map_get (collectDiagnostics sev qp refs) file
  = extend None (diagnosticsFor sev qp refs file).
Proof.
  unfold collectDiagnostics, diagnosticsFor.
  rewrite section_loop_get, paragraph_loop_get. apply extend_app.
Qed.

(** X6. In a scanned document every array of the collection is, for a
    file name with the [Uri] of the array, the diagnostics of the
    unreferenced paragraphs of that file in the order of the paragraph
    table, followed by those of the unreferenced sections of the procedure
    division of that file in the order of the section table, and it is
    not empty. For a file name that shares its [Uri] with no other file
    name of the parse the collection holds exactly these diagnostics, and
    nothing when there are none, whatever the collection held before. *)
Theorem collection_per_file (document : TextDocument)
    (this : CobolUsageProvider) (w : ScanWorld) (qp : COBOLQuickParse)
    (refs : SharedSourceReferences) :
  scanned document this w qp refs ->
  let c := collection (updateDiagnostics document this w).1 in
  (forall u arr,
     c !! u = Some arr ->
     exists file,
       Uri_file file = u
       /\ arr = diagnosticsFor (diagCollect this) qp refs file
       /\ arr <> [])
  /\ (forall file,
        uriOwned qp file ->
        c !! Uri_file file
        = match diagnosticsFor (diagCollect this) qp refs file with
          | [] => None
          | l => Some l
          end).
Proof.
  intros Hs c. unfold c.
  destruct (update_scanned _ _ _ _ _ Hs) as (-> & _).
  pose proof (collect_NoDup (diagCollect this) qp refs) as Hnd.
  split.
  - intros u arr Hget.
    apply publish_origin in Hget as (f & Hin & Hf).
    apply (Map_get_of_elem _ _ _ Hnd) in Hin.
    rewrite collect_get in Hin. exists f. split; [assumption|].
    destruct (diagnosticsFor (diagCollect this) qp refs f) as [|d l];
      [discriminate|].
    simpl in Hin. injection Hin as <-. split; [reflexivity|discriminate].
  - intros file Hown.
    pose proof (collect_get (diagCollect this) qp refs file) as Hget.
    destruct (diagnosticsFor (diagCollect this) qp refs file) as [|d l].
    + apply publish_none. intros f Hf Huri.
      assert (f = file) as ->
        by (apply (collect_owned (diagCollect this) qp refs file Hown);
            assumption).
      apply Map_get_key in Hf as [v Hv]. simpl in Hget. congruence.
    + apply publish_owned;
        [assumption | apply Map_get_elem; exact Hget
        | apply collect_owned; assumption].
Qed.

(** X8. When an enabled provider holds no parse, or the parse of another
    file, or a parse of another version of the document,
    [updateDiagnostics] scans the document once and leaves the new parse,
    the new references, the version of the document and the diagnostics
    computed from the new parse; nothing of the old parse is left. *)
Theorem outdated_parse_replaced (document : TextDocument)
    (this : CobolUsageProvider) (w : ScanWorld) :
  enabled this = true ->
  outdated document this ->
  let scan := newCOBOLQuickParse document w in
  updateDiagnostics document this w
  = (mkProvider true
       (publish (collectDiagnostics (diagCollect this) scan.1.1 scan.1.2) ∅)
       (diagCollect this) (Some scan.1.1) (Some (version document))
       (Some scan.1.2),
     scan.2).
Proof.
  intros Hen Hout scan.
  assert (setupCOBOLQuickParse document this w
          = (mkProvider (enabled this) (collection this) (diagCollect this)
               (Some scan.1.1) (Some (version document)) (Some scan.1.2),
             scan.2)) as Hsetup.
  { destruct (setup_cases document this w)
      as [(_ & (qp & Hcur & Hname) & Hv)|Hnew]; [|exact Hnew].
    destruct Hout as [Hnone|[(cur & Hcur' & Hne)|Hver]]; congruence. }
  unfold updateDiagnostics. rewrite Hen. simpl. rewrite Hsetup. simpl.
  rewrite Hen. reflexivity.
Qed.

End WithScanner.

(** *** The quick fix *)

Lemma codeActionFor_actionable (document : TextDocument) (d : Diagnostic) :
  codeActionFor document d
  = if actionable d
    then Some {|
      title := "Comment out '" +:+ message d +:+ "'";
      diagnostics := [d];
      command := {|
        command_title := "Comment out";
        command_name := "editor.action.addCommentLine";
        arguments := mkArguments (uri document)
                       (offsetAt document (range_start (range d)))
                       (code d) |};
      kind := QuickFix |}
    else None.
Proof.
  unfold codeActionFor, actionable.
  destruct (code d) as [c|]; [|reflexivity].
  destruct (JS.startsWith (code_toString c) "noref"); reflexivity.
Qed.

Lemma provideCodeActions_cons (document : TextDocument) (d : Diagnostic)
    (ds : list Diagnostic) :
  provideCodeActions document (d :: ds)
  = match codeActionFor document d with
    | Some a => a :: provideCodeActions document ds
    | None => provideCodeActions document ds
    end.
Proof. rewrite !provideCodeActions_omap. reflexivity. Qed.

(** X7. [provideCodeActions] answers the diagnostics it is given in their
    order: the diagnostics of the actions it returns are exactly the given
    diagnostics whose code is undefined or starts with ["noref"], one
    action each; every action runs [editor.action.addCommentLine] with the
    uri of the document, the offset of the start of the diagnostic and its
    code; and the answer for two lists in a row is the two answers in a
    row. *)
Theorem code_actions_in_order (document : TextDocument)
    (ds ds' : list Diagnostic) :
  concat (map diagnostics (provideCodeActions document ds))
  = List.filter actionable ds
  /\ List.length (provideCodeActions document ds)
     = List.length (List.filter actionable ds)
  /\ Forall
       (fun a =>
          exists d,
            d ∈ ds /\ diagnostics a = [d]
            /\ command_name (command a) = "editor.action.addCommentLine"
            /\ arguments (command a)
               = mkArguments (uri document)
                   (offsetAt document (range_start (range d))) (code d))
       (provideCodeActions document ds)
  /\ provideCodeActions document (ds ++ ds')
     = provideCodeActions document ds ++ provideCodeActions document ds'.
Proof.
  split; [|split; [|split]].
  - induction ds as [|d ds IH]; [reflexivity|].
    rewrite provideCodeActions_cons, codeActionFor_actionable.
    simpl List.filter. destruct (actionable d); simpl; rewrite ?IH;
      reflexivity.
  - induction ds as [|d ds IH]; [reflexivity|].
    rewrite provideCodeActions_cons, codeActionFor_actionable.
    simpl List.filter. destruct (actionable d); simpl; rewrite ?IH;
      reflexivity.
  - apply Forall_forall. intros a Ha.
    rewrite provideCodeActions_omap in Ha.
    apply list_elem_of_omap in Ha as (d & Hin & Ha).
    rewrite codeActionFor_actionable in Ha.
    destruct (actionable d); [|discriminate].
    injection Ha as <-. exists d. simpl. auto.
  - rewrite !provideCodeActions_omap. apply omap_app.
Qed.

(** X6, instance: the copybook of the first parse, and a file without
    tokens. *)
Lemma collection_per_file_witness :
  let H := Sim.scanner Sim.qp1 Sim.refs1 in
  let c := collection (updateDiagnostics Sim.doc1 Sim.provider0 0%nat).1 in
  c !! "file:///proj/copy.cpy"
  = Some [sectionDiagnostic Information "Dead-Sec" Sim.tokDead]
  /\ c !! "file:///proj/other.cbl" = None.
Proof.
  intros H c.
  assert (scanned Sim.doc1 Sim.provider0 0%nat Sim.qp1 Sim.refs1) as Hs
    by (repeat split).
  destruct (collection_per_file (H := H) Sim.doc1 Sim.provider0 0%nat
              Sim.qp1 Sim.refs1 Hs) as [_ Hfile].
  split.
  - apply (Hfile "/proj/copy.cpy").
    intros key token Hin Huri. simpl in Hin.
    repeat (apply elem_of_cons in Hin as [Hin|Hin];
            [injection Hin as -> ->;
             first [reflexivity | vm_compute in Huri; discriminate Huri]|]).
    inversion Hin.
  - apply (Hfile "/proj/other.cbl").
    intros key token Hin Huri. simpl in Hin.
    repeat (apply elem_of_cons in Hin as [Hin|Hin];
            [injection Hin as -> ->;
             first [reflexivity | vm_compute in Huri; discriminate Huri]|]).
    inversion Hin.
Defined.

(** X8, instance: a second version of the document. *)
Lemma outdated_parse_replaced_witness :
  let H := Sim.scanner Sim.qp1 Sim.refs1 in
  let first := updateDiagnostics Sim.doc1 Sim.provider0 0%nat in
  let doc2 := mkTextDocument Sim.prog 2 "file:///proj/prog.cbl"
                (fun p => line p * 80 + character p) in
  (updateDiagnostics doc2 first.1 first.2).2 = 2%nat
  /\ currentVersion (updateDiagnostics doc2 first.1 first.2).1 = Some 2.
Proof.
  intros H first doc2.
  rewrite (outdated_parse_replaced (H := H) doc2 first.1 first.2 eq_refl).
  - split; reflexivity.
  - right. right. vm_compute. discriminate.
Defined.

End UsageMore.

(** ** Conflicting extensions *)

Module ConflictsFacts.
Import Conflicts.

Lemma append_assoc (a b c : string) : (a +:+ b) +:+ c = a +:+ (b +:+ c).
Proof.
  induction a as [|x a IH]; [reflexivity|].
  change (String x ((a +:+ b) +:+ c) = String x (a +:+ (b +:+ c))).
  rewrite IH. reflexivity.
Qed.

Lemma append_nil_r (a : string) : a +:+ "" = a.
Proof.
  induction a as [|x a IH]; [reflexivity|].
  change (String x (a +:+ "") = String x a). rewrite IH. reflexivity.
Qed.

Lemma length_append (a b : string) :
  String.length (a +:+ b) = (String.length a + String.length b)%nat.
Proof.
  induction a as [|x a IH]; [reflexivity|].
  change (S (String.length (a +:+ b))
          = S (String.length a + String.length b)).
  rewrite IH. reflexivity.
Qed.

Lemma length_zero (a : string) : (String.length a =? 0)%nat = true <-> a = "".
Proof.
  destruct a; simpl; split; intros Ha; try reflexivity; discriminate.
Qed.

Lemma describe_cons (p : PackageJSON) :
  exists c rest, describe p = String c rest.
Proof. unfold describe, nl. eexists _, _. reflexivity. Qed.

Lemma append_not_empty (a b : string) : b <> "" -> a +:+ b <> "".
Proof.
  intros Hb Hab. apply (f_equal String.length) in Hab.
  rewrite length_append in Hab. destruct b; [congruence|].
  simpl in Hab. lia.
Qed.

Lemma append_empty (a b : string) : a +:+ b = "" -> a = "" /\ b = "".
Proof. destruct a; [auto | discriminate]. Qed.

Lemma describe_not_empty (p : PackageJSON) : describe p <> "".
Proof. destruct (describe_cons p) as (c & rest & ->). discriminate. Qed.

Lemma option_append {A} (o : option A) (f : A -> string) (m : string) :
  match o with Some d => m +:+ f d | None => m end
  = m +:+ match o with Some d => f d | None => "" end.
Proof. destruct o; [reflexivity | rewrite append_nil_r; reflexivity]. Qed.

Lemma header_lines :
  ((("" +:+ "The COBOL Extension from bitlang may produce duplicate results due to" +:+ nl)
    +:+ " other extensions for COBOL being present." +:+ nl +:+ nl)
   +:+ "If you do not want see this warning message, change the setting" +:+ nl)
  +:+ " coboleditor.ignore_unsafe_extensions to true and restart vscode" +:+ nl
  = header.
Proof. reflexivity. Qed.

(** Names the value of the first [let] of the left-hand side. *)
Ltac name_let x :=
  lazymatch goal with
  | |- (let y := ?v in @?b y) = ?R =>
      pose (x := v); change (b x = R); cbv beta
  end.

(** One report: the header when the message is empty and the setting is
    off, then the lines on the extension. *)
Lemma reportConflict_describe (ignore : bool) (p : PackageJSON) (m : string) :
  reportConflict ignore p m
  = (if (String.length m =? 0)%nat && negb ignore then header else m)
    +:+ describe p.
Proof.
  cbv beta delta [reportConflict].
  name_let m0; name_let m1; name_let m2; name_let m3; name_let m4;
    name_let m5; name_let m6; name_let m7.
  assert (m1 = if (String.length m =? 0)%nat && negb ignore
               then header else m) as E1.
  { subst m1 m0. destruct (String.length m =? 0)%nat eqn:Hz; [|reflexivity].
    apply length_zero in Hz. subst m.
    destruct ignore; [reflexivity | exact header_lines]. }
  clearbody m1. clear m0.
  assert (m3 = m2 +:+ match description p with
                      | Some d => " Description   : " +:+ d +:+ nl
                      | None => ""
                      end) as E3
    by (subst m3; apply (option_append (description p))).
  clearbody m3.
  assert (m4 = m3 +:+ match version p with
                      | Some v => " Version       : " +:+ v +:+ nl
                      | None => ""
                      end) as E4
    by (subst m4; apply (option_append (version p))).
  clearbody m4.
  assert (m5 = m4 +:+ match repository p with
                      | Some r => match repository_url r with
                                  | Some u => " Repository    : " +:+ u +:+ nl
                                  | None => ""
                                  end
                      | None => ""
                      end) as E5.
  { subst m5. destruct (repository p) as [r|];
      [apply (option_append (repository_url r))
      | rewrite append_nil_r; reflexivity]. }
  clearbody m5.
  assert (m6 = m5 +:+ match bugs p with
                      | Some b => match bugs_url b with
                                  | Some u => " Bug Reporting : " +:+ u +:+ nl
                                  | None => ""
                                  end
                      | None => ""
                      end) as E6.
  { subst m6. destruct (bugs p) as [b|];
      [apply (option_append (bugs_url b))
      | rewrite append_nil_r; reflexivity]. }
  clearbody m6.
  assert (m7 = m6 +:+ match bugs p with
                      | Some b => match bugs_email b with
                                  | Some e => " Bug Email     : " +:+ e +:+ nl
                                  | None => ""
                                  end
                      | None => ""
                      end) as E7.
  { subst m7. destruct (bugs p) as [b|];
      [apply (option_append (bugs_email b))
      | rewrite append_nil_r; reflexivity]. }
  clearbody m7.
  assert (m7 +:+ nl
          = (if (String.length m =? 0)%nat && negb ignore then header else m)
            +:+ describe p) as Hall.
  { rewrite E7, E6, E5, E4, E3. subst m2. rewrite <- E1. unfold describe.
    rewrite !append_assoc. reflexivity. }
  destruct (String.length m7 =? 0)%nat eqn:Hz; [|exact Hall].
  apply length_zero in Hz. exfalso.
  rewrite E7 in Hz. apply append_empty in Hz as [Hz _].
  rewrite E6 in Hz. apply append_empty in Hz as [Hz _].
  rewrite E5 in Hz. apply append_empty in Hz as [Hz _].
  rewrite E4 in Hz. apply append_empty in Hz as [Hz _].
  rewrite E3 in Hz. apply append_empty in Hz as [Hz _].
  subst m2. apply append_empty in Hz as [_ Hz].
  unfold nl in Hz. discriminate Hz.
Qed.

Lemma reportConflict_not_empty (ignore : bool) (p : PackageJSON)
    (m : string) :
  reportConflict ignore p m <> "".
Proof.
  rewrite reportConflict_describe. apply append_not_empty.
  apply describe_not_empty.
Qed.

Lemma reportConflict_keeps (ignore : bool) (p : PackageJSON) (m : string) :
  m <> "" -> reportConflict ignore p m = m +:+ describe p.
Proof.
  intros Hm. rewrite reportConflict_describe.
  destruct (String.length m =? 0)%nat eqn:Hz; [|reflexivity].
  apply length_zero in Hz. contradiction.
Qed.

Lemma grammarStep_cases (ignore : bool) (p : PackageJSON) (m : string)
    (element : Grammar) :
  grammarStep ignore p m element
  = if isCobolGrammar element then reportConflict ignore p m else m.
Proof.
  unfold grammarStep, isCobolGrammar.
  destruct (language element); reflexivity.
Qed.

(** *** The message is empty exactly when nothing conflicts *)

Lemma grammars_empty (ignore : bool) (p : PackageJSON)
    (body : list Grammar) (m : string) :
  fold_left (grammarStep ignore p) body m = ""
  <-> m = "" /\ existsb isCobolGrammar body = false.
Proof.
  revert m. induction body as [|element body IH]; intros m; simpl.
  - tauto.
  - rewrite IH, grammarStep_cases.
    destruct (isCobolGrammar element); simpl.
    + pose proof (reportConflict_not_empty ignore p m).
      split; [tauto | intros [_ Hf]; discriminate].
    + tauto.
Qed.

Lemma extensionStep_empty (ignore : bool) (m : string) (ext : Extension) :
  extensionStep ignore m ext = "" <-> m = "" /\ conflicting ext = false.
Proof.
  unfold extensionStep, conflicting.
  destruct (packageJSON ext) as [p|]; [|tauto].
  destruct (contributes p) as [c|]; [|tauto].
  destruct (isBitlang p); simpl; [tauto|].
  destruct (grammars c) as [body|]; [|tauto].
  apply grammars_empty.
Qed.

Lemma extensions_empty (ignore : bool) (all : list Extension) (m : string) :
  fold_left (extensionStep ignore) all m = ""
  <-> m = "" /\ existsb conflicting all = false.
Proof.
  revert m. induction all as [|ext all IH]; intros m; simpl.
  - tauto.
  - rewrite IH, extensionStep_empty, orb_false_iff. tauto.
Qed.

Lemma conflicts_empty_iff (ignore : bool) (all : list Extension) :
  checkForExtensionConflicts ignore all = ""
  <-> existsb conflicting all = false.
Proof.
  unfold checkForExtensionConflicts. rewrite extensions_empty. tauto.
Qed.

(** X9. The message of [checkForExtensionConflicts] is empty exactly when
    no installed extension conflicts, that is, when none but those
    published by bitlang contributes a grammar whose language is COBOL in
    any letter case; this does not depend on the setting
    [ignore_unsafe_extensions]. *)
Theorem conflicts_message_empty (ignore : bool) (all : list Extension) :
  checkForExtensionConflicts ignore all = ""
  <-> existsb conflicting all = false.
Proof. apply conflicts_empty_iff. Qed.

(** *** Only the conflicting extensions count *)

Lemma grammars_none (ignore : bool) (p : PackageJSON) (body : list Grammar)
    (m : string) :
  existsb isCobolGrammar body = false ->
  fold_left (grammarStep ignore p) body m = m.
Proof.
  revert m. induction body as [|element body IH]; intros m; simpl;
    [reflexivity|].
  rewrite orb_false_iff. intros [He Hb].
  rewrite grammarStep_cases, He. auto.
Qed.

Lemma extensionStep_skip (ignore : bool) (m : string) (ext : Extension) :
  conflicting ext = false -> extensionStep ignore m ext = m.
Proof.
  unfold extensionStep, conflicting.
  destruct (packageJSON ext) as [p|]; [|reflexivity].
  destruct (contributes p) as [c|]; [|reflexivity].
  destruct (isBitlang p); simpl; [reflexivity|].
  destruct (grammars c) as [body|]; [|reflexivity].
  apply grammars_none.
Qed.

Lemma extensions_filter (ignore : bool) (all : list Extension) (m : string) :
  fold_left (extensionStep ignore) all m
  = fold_left (extensionStep ignore) (List.filter conflicting all) m.
Proof.
  revert m. induction all as [|ext all IH]; intros m; simpl; [reflexivity|].
  destruct (conflicting ext) eqn:Hc; simpl.
  - apply IH.
  - rewrite extensionStep_skip by assumption. apply IH.
Qed.

(** X10. The message of [checkForExtensionConflicts] is the one for the
    conflicting extensions alone, in their order: the extensions published
    by bitlang, those without a package description or contributions, and
    those without a COBOL grammar change nothing in it. *)
Theorem conflicts_message_of_conflicting (ignore : bool)
    (all : list Extension) :
  checkForExtensionConflicts ignore all
  = checkForExtensionConflicts ignore (List.filter conflicting all).
Proof. apply extensions_filter. Qed.

(** *** What the setting changes *)

Lemma withHeader_nonempty (m : string) :
  m <> "" -> withHeader m = header +:+ m.
Proof.
  intros Hm. unfold withHeader.
  destruct (String.length m =? 0)%nat eqn:Hz; [|reflexivity].
  apply length_zero in Hz. contradiction.
Qed.

Lemma header_append_not_empty (m : string) : header +:+ m <> "".
Proof. unfold header, nl. discriminate. Qed.

Lemma reportConflict_header (p : PackageJSON) (m : string) :
  reportConflict false p (withHeader m) = withHeader (reportConflict true p m).
Proof.
  rewrite (withHeader_nonempty (reportConflict true p m))
    by apply reportConflict_not_empty.
  destruct m as [|c m].
  - rewrite !reportConflict_describe. reflexivity.
  - rewrite withHeader_nonempty by discriminate.
    rewrite !reportConflict_keeps
      by (first [discriminate | apply header_append_not_empty]).
    apply append_assoc.
Qed.

Lemma grammars_header (p : PackageJSON) (body : list Grammar) (m : string) :
  fold_left (grammarStep false p) body (withHeader m)
  = withHeader (fold_left (grammarStep true p) body m).
Proof.
  revert m. induction body as [|element body IH]; intros m; simpl;
    [reflexivity|].
  rewrite !grammarStep_cases.
  destruct (isCobolGrammar element); [|apply IH].
  rewrite reportConflict_header. apply IH.
Qed.

Lemma extensionStep_header (m : string) (ext : Extension) :
  extensionStep false (withHeader m) ext
  = withHeader (extensionStep true m ext).
Proof.
  unfold extensionStep.
  destruct (packageJSON ext) as [p|]; [|reflexivity].
  destruct (contributes p) as [c|]; [|reflexivity].
  destruct (isBitlang p); [reflexivity|].
  destruct (grammars c) as [body|]; [|reflexivity].
  apply grammars_header.
Qed.

Lemma extensions_header (all : list Extension) (m : string) :
  fold_left (extensionStep false) all (withHeader m)
  = withHeader (fold_left (extensionStep true) all m).
Proof.
  revert m. induction all as [|ext all IH]; intros m; simpl; [reflexivity|].
  rewrite extensionStep_header. apply IH.
Qed.

(** X11. The setting [ignore_unsafe_extensions] changes the message of
    [checkForExtensionConflicts] by the four lines of the header only:
    with the setting off the message is the header followed by the message
    built with the setting on, and both are empty together. *)
Theorem setting_only_adds_header (all : list Extension) :
  checkForExtensionConflicts false all
  = withHeader (checkForExtensionConflicts true all).
Proof. apply (extensions_header all ""). Qed.

(** *** The modal notice *)

Lemma conflictNotice_cases (c : bool * list Extension) (st : NoticeState) :
  conflictNotice c.1 c.2 st
  = mkNoticeState (checkForExtensionConflicts c.1 c.2)
      (messageBoxDone st || noticeDue c)
      (informationMessages st
         ++ (if noticeDue c && negb (messageBoxDone st)
             then [modalText] else [])).
Proof.
  unfold conflictNotice, noticeDue. cbv zeta.
  destruct (String.length (checkForExtensionConflicts c.1 c.2) =? 0)%nat
    eqn:Hz.
  - pose proof (proj1 (length_zero _) Hz) as He.
    apply (proj1 (conflicts_empty_iff _ _)) in He. rewrite He.
    rewrite andb_false_r. cbn [negb andb]. rewrite orb_false_r, app_nil_r.
    reflexivity.
  - assert (existsb conflicting c.2 = true) as He.
    { destruct (existsb conflicting c.2) eqn:He; [reflexivity|].
      apply (proj2 (conflicts_empty_iff c.1 c.2)) in He.
      rewrite He in Hz. discriminate. }
    rewrite He, andb_true_r. cbn [negb andb].
    destruct (negb c.1), (messageBoxDone st); cbn [andb orb negb];
      rewrite ?app_nil_r; reflexivity.
Qed.

Lemma runNotices_boxes (calls : list (bool * list Extension))
    (st : NoticeState) :
  messageBoxDone (runNotices calls st)
  = messageBoxDone st || existsb noticeDue calls
  /\ informationMessages (runNotices calls st)
     = informationMessages st
       ++ (if existsb noticeDue calls && negb (messageBoxDone st)
           then [modalText] else []).
Proof.
  revert st. induction calls as [|c calls IH]; intros st.
  - simpl. rewrite orb_false_r, app_nil_r. auto.
  - change (runNotices (c :: calls) st)
      with (runNotices calls (conflictNotice c.1 c.2 st)).
    destruct (IH (conflictNotice c.1 c.2 st)) as [-> ->].
    rewrite conflictNotice_cases. cbn [messageBoxDone informationMessages].
    cbn [existsb]. split.
    + rewrite orb_assoc. reflexivity.
    + rewrite <- app_assoc. f_equal.
      destruct (noticeDue c), (messageBoxDone st), (existsb noticeDue calls);
        reflexivity.
Qed.

(** X12. Over any number of calls of [initExtensionSearchPaths] since the
    extension was loaded, whatever the setting and the installed
    extensions at each call, the modal box on duplicate functionality is
    shown at most once: once when some call found a conflicting extension
    while [ignore_unsafe_extensions] was off, never otherwise. *)
Theorem modal_notice_at_most_once (calls : list (bool * list Extension)) :
  informationMessages (runNotices calls noticeStart)
  = if existsb noticeDue calls then [modalText] else [].
Proof.
  destruct (runNotices_boxes calls noticeStart) as [_ ->].
  cbn [noticeStart informationMessages messageBoxDone negb].
  rewrite andb_true_r. reflexivity.
Qed.

Example check_ex :
  checkForExtensionConflicts true [ours; unrelated; other]
  = nl +:+ "The extension cobol-lang from acme has conflicting functionality"
    +:+ nl +:+ " Version       : 1.2.3" +:+ nl +:+ nl.
Proof. reflexivity. Qed.

End ConflictsFacts.

(** ** The channel at start-up *)

Module LogPathsFacts.
Import SearchPath SearchPathSpec SearchPathFacts SearchPathMore LogPaths.
Local Open Scope search_scope.

Section WithHost.
Context `{Host}.

(** *** Computations that only log *)

Lemma onlyLogs_ret : onlyLogs (ret tt) [].
Proof. intros s. unfold ret. rewrite app_nil_r. destruct s; reflexivity. Qed.

Lemma onlyLogs_logMessage (message : string) :
  onlyLogs (logMessage message) [message].
Proof. intros s. reflexivity. Qed.

Lemma onlyLogs_seq (c k : M unit) (out1 out2 : list string) :
  onlyLogs c out1 -> onlyLogs k out2 -> onlyLogs (c ;; k) (out1 ++ out2).
Proof.
  intros Hc Hk s. unfold bind. rewrite Hc, Hk. simpl.
  rewrite app_assoc. reflexivity.
Qed.

Lemma onlyLogs_when (b : bool) (c : M unit) (out : list string) :
  onlyLogs c out -> onlyLogs (when b c) (if b then out else []).
Proof. intros Hc. destruct b; [exact Hc | apply onlyLogs_ret]. Qed.

Lemma onlyLogs_for_of {A} (l : list A) (f : A -> string) :
  onlyLogs (for_of l (fun x => logMessage (f x))) (List.map f l).
Proof.
  induction l as [|x l IH]; simpl.
  - apply onlyLogs_ret.
  - apply (onlyLogs_seq _ _ [f x]); [apply onlyLogs_logMessage | exact IH].
Qed.

Lemma onlyLogs_exec (c : M unit) (out : list string) (s : State) :
  onlyLogs c out ->
  exec c s = mkState (world s) (fileSearchDirectory s)
               (invalidSearchDirectory s) (COBOLOutputChannel s ++ out).
Proof. intros Hc. unfold exec. rewrite Hc. reflexivity. Qed.

Ltac only_logs :=
  repeat lazymatch goal with
         | |- onlyLogs (bind _ _) _ => apply onlyLogs_seq
         | |- onlyLogs (when _ _) _ => apply onlyLogs_when
         | |- onlyLogs (logMessage _) _ => apply onlyLogs_logMessage
         | |- onlyLogs (for_of _ _) _ => apply onlyLogs_for_of
         | |- onlyLogs (ret tt) _ => apply onlyLogs_ret
         end.

Lemma logExtension_onlyLogs (wb : Workbench) (e : ThisExtension) :
  exists out, onlyLogs (logExtension wb e) out.
Proof.
  unfold logExtension. eexists. only_logs.
Qed.

Lemma length_test {A} (l : list A) :
  negb (Z.of_nat (List.length l) =? 0)
  = match l with [] => false | _ => true end.
Proof. destruct l; reflexivity. Qed.

Lemma logDirectories_onlyLogs (heading : string) (extsdir : list string) :
  onlyLogs
    (when (negb (Z.of_nat (List.length extsdir) =? 0))
       (logMessage heading ;;
        for_of extsdir (fun sdir => logMessage ("   => " +:+ sdir))))
    (match extsdir with
     | [] => []
     | _ => heading :: List.map (fun sdir => "   => " +:+ sdir) extsdir
     end).
Proof.
  rewrite length_test. destruct extsdir as [|x l].
  - apply onlyLogs_ret.
  - apply (onlyLogs_seq _ _ [heading]);
      [apply onlyLogs_logMessage | apply onlyLogs_for_of].
Qed.

Lemma logFolders_onlyLogs :
  onlyLogs
    (match getWorkspaceFolders with
     | Some ws =>
         logMessage "  Workspace Folders:" ;;
         for_of ws (fun folder =>
           logMessage ("   => " +:+ folder_name folder +:+ " @ "
                       +:+ uri_fsPath folder))
     | None => ret tt
     end)
    (match getWorkspaceFolders with
     | Some ws =>
         "  Workspace Folders:"
         :: List.map (fun folder => "   => " +:+ folder_name folder +:+ " @ "
                                    +:+ uri_fsPath folder) ws
     | None => []
     end).
Proof.
  destruct getWorkspaceFolders as [ws|]; [|apply onlyLogs_ret].
  apply (onlyLogs_seq _ _ ["  Workspace Folders:"]);
    [apply onlyLogs_logMessage | apply onlyLogs_for_of].
Qed.

Lemma logSearchPaths_exec (s : State) :
  exec logSearchPaths s
  = mkState (world s) (fileSearchDirectory s) (invalidSearchDirectory s)
      (COBOLOutputChannel s
         ++ searchPathLines (fileSearchDirectory s)
              (invalidSearchDirectory s)).
Proof.
  unfold logSearchPaths, exec, searchPathLines.
  unfold bind at 1. rewrite logFolders_onlyLogs.
  unfold bind at 1, read at 1.
  cbn [getCombinedCopyBookSearchPath fileSearchDirectory].
  unfold bind at 1. rewrite logDirectories_onlyLogs.
  unfold bind at 1, read at 1. cbn [invalidSearchDirectory].
  unfold bind at 1. rewrite logDirectories_onlyLogs.
  unfold logMessage. cbn [snd world fileSearchDirectory invalidSearchDirectory
                          COBOLOutputChannel].
  rewrite <- !app_assoc. reflexivity.
Qed.

(** *** [initExtensionSearchPaths] and the channel *)

Lemma appendsOnly_exec {A} (c : M A) (s : State) :
  appendsOnly c ->
  exec c s
  = mkState (world (exec c (strip s))) (fileSearchDirectory (exec c (strip s)))
      (invalidSearchDirectory (exec c (strip s)))
      (COBOLOutputChannel s ++ COBOLOutputChannel (exec c (strip s))).
Proof.
  intros Hc. unfold exec. rewrite (Hc s).
  destruct (c (strip s)) as [a t]. reflexivity.
Qed.

Lemma appendsOnly_clear_lists : appendsOnly clear_lists.
Proof.
  intros s. unfold clear_lists, strip. simpl. rewrite app_nil_r.
  reflexivity.
Qed.

Lemma appendsOnly_init (config : ICOBOLSettings) :
  appendsOnly (initExtensionSearchPaths config).
Proof.
  unfold initExtensionSearchPaths, collectSearchPaths. cbv zeta.
  apply appendsOnly_bind; [|intros _; apply appendsOnly_remove_duplicates].
  apply appendsOnly_bind; [apply appendsOnly_clear_lists|]. intros _.
  apply appendsOnly_bind;
    [apply appendsOnly_for_of; intros; apply appendsOnly_step1|].
  intros _. apply appendsOnly_step2.
Qed.

(** After the lists are emptied only the world matters. *)
Lemma init_from_world (config : ICOBOLSettings) (s s' : State) :
  world s = world s' ->
  strip (exec (initExtensionSearchPaths config) s)
  = strip (exec (initExtensionSearchPaths config) s')
  /\ exists out,
       COBOLOutputChannel (exec (initExtensionSearchPaths config) s)
       = COBOLOutputChannel s ++ out
       /\ COBOLOutputChannel (exec (initExtensionSearchPaths config) s')
          = COBOLOutputChannel s' ++ out.
Proof.
  intros Hw. rewrite !init_after_clear.
  rewrite (appendsOnly_exec _ (exec clear_lists s))
    by apply appendsOnly_after_clear.
  rewrite (appendsOnly_exec _ (exec clear_lists s'))
    by apply appendsOnly_after_clear.
  assert (strip (exec clear_lists s) = strip (exec clear_lists s')) as ->
    by (unfold strip, exec, clear_lists; simpl; rewrite Hw; reflexivity).
  split; [reflexivity|]. eexists. split; reflexivity.
Qed.

Lemma strip_channel_eq (s t : State) :
  strip s = strip t -> COBOLOutputChannel s = COBOLOutputChannel t -> s = t.
Proof.
  destruct s, t. unfold strip. simpl. intros Hs Hc.
  injection Hs as -> -> ->. rewrite Hc. reflexivity.
Qed.

(** The function in three parts: the lines on the extension on an emptied
    channel, the search path, the lines on the search path. *)
Lemma logChannelAndPaths_exec (wb : Workbench) (settings : ICOBOLSettings) :
  exists hdr,
    forall s,
      exec (logChannelAndPaths wb settings) s
      = let s2 := exec (initExtensionSearchPaths settings)
                    (mkState (world s) (fileSearchDirectory s)
                       (invalidSearchDirectory s) hdr) in
        match getExtension wb with
        | Some _ => exec logSearchPaths s2
        | None => s2
        end.
Proof.
  unfold logChannelAndPaths. cbv zeta.
  destruct (getExtension wb) as [e|].
  - destruct (logExtension_onlyLogs wb e) as [hdr Hhdr].
    exists hdr. intros s. rewrite !exec_seq.
    rewrite (onlyLogs_exec (logExtension wb e) hdr _ Hhdr). reflexivity.
  - exists []. intros s. rewrite !exec_seq. reflexivity.
Qed.

Lemma logChannelAndPaths_lists (wb : Workbench) (settings : ICOBOLSettings)
    (s : State) :
  strip (exec (logChannelAndPaths wb settings) s)
  = strip (exec (initExtensionSearchPaths settings) s).
Proof.
  destruct (logChannelAndPaths_exec wb settings) as [hdr ->]. cbv zeta.
  destruct (init_from_world settings
              (mkState (world s) (fileSearchDirectory s)
                 (invalidSearchDirectory s) hdr) s eq_refl) as [Hs _].
  destruct (getExtension wb); [|exact Hs].
  rewrite logSearchPaths_exec. exact Hs.
Qed.

Lemma logChannelAndPaths_from_world (wb : Workbench)
    (settings : ICOBOLSettings) (s s' : State) :
  world s = world s' ->
  exec (logChannelAndPaths wb settings) s
  = exec (logChannelAndPaths wb settings) s'.
Proof.
  intros Hw. destruct (logChannelAndPaths_exec wb settings) as [hdr Hexec].
  rewrite !Hexec. cbv zeta.
  destruct (init_from_world settings
              (mkState (world s) (fileSearchDirectory s)
                 (invalidSearchDirectory s) hdr)
              (mkState (world s') (fileSearchDirectory s')
                 (invalidSearchDirectory s') hdr) Hw)
    as [Hs (out & Hc & Hc')].
  rewrite (strip_channel_eq _ _ Hs) by (rewrite Hc, Hc'; reflexivity).
  reflexivity.
Qed.

(** X13. [activateLogChannelAndPaths] leaves the search path that
    [initExtensionSearchPaths] alone would have built: the world and the
    lists of active and of invalid directories are the same; only the
    channel differs. *)
Theorem log_paths_search_path (hide : bool) (wb : Workbench)
    (ignore_unsafe_extensions : bool) (all : list Conflicts.Extension)
    (settings : ICOBOLSettings) (ss : Session) :
  let final := paths (activateLogChannelAndPaths hide wb
                        ignore_unsafe_extensions all settings ss) in
  let direct := exec (initExtensionSearchPaths settings) (paths ss) in
  world final = world direct
  /\ fileSearchDirectory final = fileSearchDirectory direct
  /\ invalidSearchDirectory final = invalidSearchDirectory direct.
Proof.
  intros final direct.
  pose proof (logChannelAndPaths_lists wb settings (paths ss)) as Hs.
  change (strip final = strip direct) in Hs.
  unfold strip in Hs. injection Hs as -> -> ->. auto.
Qed.

(** X14. What [activateLogChannelAndPaths] leaves on the channel and in
    the two lists depends on the world only: the lines that were on the
    channel and the directories that were in the lists before the call
    have no influence, and neither has the listener that made the call
    (a change of the extensions, of the configuration or of the workspace
    folders) or the value of [hide]. *)
Theorem channel_rewritten_from_world (ev : Event) (hide : bool)
    (wb : Workbench) (ignore ignore' : bool)
    (all all' : list Conflicts.Extension) (settings : ICOBOLSettings)
    (ss ss' : Session) :
  world (paths ss) = world (paths ss') ->
  paths (listener ev wb ignore all settings ss)
  = paths (activateLogChannelAndPaths hide wb ignore' all' settings ss').
Proof.
  intros Hw.
  transitivity (exec (logChannelAndPaths wb settings) (paths ss)).
  - destruct ev; reflexivity.
  - apply logChannelAndPaths_from_world. exact Hw.
Qed.

(** X15. When the extension is found, every directory of the search path
    and every invalid directory that [activateLogChannelAndPaths] leaves
    is shown on the channel, on a line [   => directory], and the channel
    ends with an empty line. *)
Theorem search_path_listed (hide : bool) (wb : Workbench)
    (ignore_unsafe_extensions : bool) (all : list Conflicts.Extension)
    (settings : ICOBOLSettings) (ss : Session) (e : ThisExtension) :
  getExtension wb = Some e ->
  let final := paths (activateLogChannelAndPaths hide wb
                        ignore_unsafe_extensions all settings ss) in
  (forall x, x ∈ fileSearchDirectory final ->
             arrow x ∈ COBOLOutputChannel final)
  /\ (forall x, x ∈ invalidSearchDirectory final ->
                arrow x ∈ COBOLOutputChannel final)
  /\ last (COBOLOutputChannel final) = Some "".
Proof.
  intros He final. unfold final, activateLogChannelAndPaths.
  cbn [paths].
  destruct (logChannelAndPaths_exec wb settings) as [hdr ->]. cbv zeta.
  rewrite He, logSearchPaths_exec.
  cbn [fileSearchDirectory invalidSearchDirectory COBOLOutputChannel].
  set (s2 := exec (initExtensionSearchPaths settings) _).
  unfold searchPathLines. split; [|split].
  - intros x Hx. rewrite !elem_of_app. right. right. left.
    destruct (fileSearchDirectory s2) as [|y l] eqn:Hl;
      [inversion Hx|].
    apply list_elem_of_further.
    apply (list_elem_of_fmap_2 (fun sdir => "   => " +:+ sdir)) in Hx.
    exact Hx.
  - intros x Hx. rewrite !elem_of_app. right. right. right. left.
    destruct (invalidSearchDirectory s2) as [|y l] eqn:Hl;
      [inversion Hx|].
    apply list_elem_of_further.
    apply (list_elem_of_fmap_2 (fun sdir => "   => " +:+ sdir)) in Hx.
    exact Hx.
  - rewrite !app_assoc. apply last_snoc.
Qed.

(** *** Conflicts at activation *)

Lemma length_test_string (message : string) :
  negb (JS.length message =? 0)
  = negb (String.eqb message "").
Proof. destruct message; reflexivity. Qed.

(** X16. [activate] writes the report on conflicting extensions to the
    channel exactly when some extension conflicts, also when the setting
    [ignore_unsafe_extensions] is on; the setting only decides whether the
    modal box is shown. Here [between] is the code of [activate] between
    lines 347 and 918, which cannot reach the variables of the notice. *)
Theorem conflicts_reported_at_activation (wb : Workbench) (ignore : bool)
    (all : list Conflicts.Extension) (settings : ICOBOLSettings)
    (between : Session -> Session) (ss : Session) :
  (forall t, notices (between t) = notices t) ->
  notices ss = Conflicts.noticeStart ->
  let before := between (activate_paths wb ignore all settings ss) in
  let final := activate_report before in
  COBOLOutputChannel (paths final)
  = COBOLOutputChannel (paths before)
    ++ (if existsb Conflicts.conflicting all
        then [Conflicts.checkForExtensionConflicts ignore all] else [])
  /\ Conflicts.informationMessages (notices final)
     = if negb ignore && existsb Conflicts.conflicting all
       then [Conflicts.modalText] else [].
Proof.
  intros Hbetween Hstart before final.
  assert (notices before
          = Conflicts.runNotices [(ignore, all); (ignore, all)]
              Conflicts.noticeStart) as Hn.
  { unfold before. rewrite Hbetween. unfold activate_paths,
      activateLogChannelAndPaths, initExtensionSearchPaths_noticed.
    cbn [notices]. rewrite Hstart. reflexivity. }
  assert (Conflicts.checkForExtensionConflictsMessage (notices before)
          = Conflicts.checkForExtensionConflicts ignore all) as Hm
    by (rewrite Hn; unfold Conflicts.runNotices; cbn [fold_left];
        rewrite (ConflictsFacts.conflictNotice_cases (ignore, all));
        reflexivity).
  assert (notices final = notices before) as Hf.
  { unfold final, activate_report. cbv zeta.
    destruct (negb _); reflexivity. }
  split.
  - unfold final, activate_report. cbv zeta. rewrite Hm, length_test_string.
    destruct (existsb Conflicts.conflicting all) eqn:He.
    + destruct (String.eqb_spec
                  (Conflicts.checkForExtensionConflicts ignore all) "")
        as [Hempty|Hne].
      * apply ConflictsFacts.conflicts_empty_iff in Hempty. congruence.
      * reflexivity.
    + apply (proj2 (ConflictsFacts.conflicts_empty_iff ignore all)) in He.
      rewrite He. cbn [String.eqb negb]. rewrite app_nil_r. reflexivity.
  - rewrite Hf, Hn.
    destruct (ConflictsFacts.runNotices_boxes
                [(ignore, all); (ignore, all)] Conflicts.noticeStart)
      as [_ ->].
    cbn [existsb Conflicts.noticeStart Conflicts.informationMessages
         Conflicts.messageBoxDone negb]. unfold Conflicts.noticeDue.
    cbn [fst snd].
    destruct (negb ignore), (existsb Conflicts.conflicting all); reflexivity.
Qed.

End WithHost.

Example run1_channel :
  COBOLOutputChannel
    (paths (activateLogChannelAndPaths true workbench1 false [] Sim.uncOn
              session1))
  = ["VSCode version : 1.50.0";
     "Extension Information:";
     " Extension path    : /home/u/.vscode/extensions/bitlang.cobol";
     " Version           : 6.0.0";
     " Caching                       : on";
     "  Cache Strategy               : workspace";
     "  Cache directory              : null";
     "  UNC paths disabled           : false";
     " Parse copybook for references : true";
     " Warning: non portable copybook directory /opt/copylib defined";
     " Warning: non portable copybook directory /mnt/slow defined";
     " Slow copybook directory dropped /mnt/slow as it took 3000.00ms";
     " Warning: non portable copybook directory /gone defined";
     " Copybook directory \\srv\share has been marked as invalid, as it is a unc filename";
     " Warning: non portable copybook directory /opt/copylib defined";
     "  Workspace Folders:";
     "   => proj @ /proj";
     "  Combined Workspace and CopyBook Folders to search:";
     "   => /opt/copylib";
     "   => /proj";
     "   => /proj/copybooks";
     "  Invalid CopyBook directories (4)";
     "   => /mnt/slow";
     "   => /gone";
     "   => \\srv\share";
     "   => /proj/missing";
     ""].
Proof. vm_compute. reflexivity. Qed.

(** X14, instance: the first example, refreshed after a change of the
    workspace folders with the lists and the channel of an earlier run,
    and by a direct call with other ones. *)
Lemma channel_rewritten_from_world_witness :
  let H := Sim.host Sim.fs1 Sim.ws1 Sim.dirs1 in
  let ss' := mkSession
               (mkState (world (paths session1)) ["/other"] []
                  ["an earlier line"])
               Conflicts.noticeStart (Shown true) in
  paths (listener onDidChangeWorkspaceFolders workbench1 false []
           Sim.uncOff session1)
  = paths (activateLogChannelAndPaths true workbench1 true
             [Conflicts.other] Sim.uncOff ss').
Proof.
  intros H ss'.
  apply (channel_rewritten_from_world (H := H) onDidChangeWorkspaceFolders
           true workbench1 false true [] [Conflicts.other] Sim.uncOff
           session1 ss' eq_refl).
Defined.

(** X15, instance: the first example. *)
Lemma search_path_listed_witness :
  let H := Sim.host Sim.fs1 Sim.ws1 Sim.dirs1 in
  let final := paths (activateLogChannelAndPaths true workbench1 false []
                        Sim.uncOff session1) in
  (forall x, x ∈ fileSearchDirectory final ->
             arrow x ∈ COBOLOutputChannel final)
  /\ (forall x, x ∈ invalidSearchDirectory final ->
                arrow x ∈ COBOLOutputChannel final)
  /\ last (COBOLOutputChannel final) = Some "".
Proof.
  intros H.
  exact (search_path_listed (H := H) true workbench1 false [] Sim.uncOff
           session1
           (mkThisExtension "/home/u/.vscode/extensions/bitlang.cobol"
              (Some "6.0.0"))
           eq_refl).
Defined.

(** X16, instance: a conflicting extension with the setting on: no box,
    and the report on the channel. *)
Lemma conflicts_reported_at_activation_witness :
  let H := Sim.host Sim.fs1 Sim.ws1 Sim.dirs1 in
  let before := activate_paths workbench1 true
                  [Conflicts.ours; Conflicts.other] Sim.uncOff session1 in
  let final := activate_report before in
  COBOLOutputChannel (paths final)
  = COBOLOutputChannel (paths before)
    ++ [Conflicts.checkForExtensionConflicts true
          [Conflicts.ours; Conflicts.other]]
  /\ Conflicts.informationMessages (notices final) = [].
Proof.
  intros H.
  exact (conflicts_reported_at_activation (H := H) workbench1 true
           [Conflicts.ours; Conflicts.other] Sim.uncOff (fun t => t)
           session1 (fun t => eq_refl) eq_refl).
Defined.

End LogPathsFacts.

(** ** Listing files *)

Module ListingFacts.
Import Listing.

Lemma prefix_append (p s : string) :
  String.prefix p s = true <-> exists rest, s = p +:+ rest.
Proof.
  revert s. induction p as [|c p IH]; intros s.
  - split; [intros _; exists s; reflexivity | intros _; destruct s; reflexivity].
  - destruct s as [|d s]; simpl.
    + split; [discriminate | intros [rest Hrest]; discriminate].
    + destruct (ascii_dec c d) as [->|Hne].
      * rewrite IH. split; intros [rest Hrest]; exists rest.
        -- change (String d s = String d (p +:+ rest)). rewrite Hrest.
           reflexivity.
        -- change (String d s = String d (p +:+ rest)) in Hrest.
           injection Hrest as ->. reflexivity.
      * split; [discriminate|]. intros [rest Hrest].
        change (String d s = String c (p +:+ rest)) in Hrest.
        injection Hrest as Hd _. congruence.
Qed.

Lemma formFeed_first (s : string) :
  (1 <=? JS.length s)
  && match charCodeAt0 s with Some code => code =? 12 | None => false end
  = true
  <-> exists rest, s = String (ascii_of_nat 12) rest.
Proof.
  destruct s as [|c s]; simpl.
  - split; [discriminate | intros [rest Hrest]; discriminate].
  - unfold JS.length. simpl String.length.
    replace (1 <=? Z.of_nat (S (String.length s))) with true
      by (symmetry; apply Z.leb_le; lia).
    cbn [andb]. rewrite Z.eqb_eq. split.
    + intros Hc. exists s. f_equal.
      rewrite <- (ascii_N_embedding c).
      replace (N_of_ascii c) with 12%N by lia. reflexivity.
    + intros [rest Hrest]. injection Hrest as -> _. reflexivity.
Qed.

(** When [flip_plaintext] asks for a change of language. *)
Lemma flip_plaintext_Some (doc : TextDocument) (l : string) :
  flip_plaintext doc = Some l
  <-> l = "COBOL_LISTFILE" /\ languageId doc = "plaintext" /\ isListing doc.
Proof.
  unfold flip_plaintext, isListing, lineCount, lineAt_text. cbv zeta.
  destruct (String.eqb_spec (languageId doc) "plaintext") as [Hl|Hl];
    [|split; [discriminate | intros (_ & Hp & _); contradiction]].
  destruct (lines doc) as [|first [|second more]].
  - simpl. split; [discriminate|].
    intros (_ & _ & r1 & r2 & m & Hd & _). discriminate.
  - simpl. split; [discriminate|].
    intros (_ & _ & r1 & r2 & m & Hd & _). discriminate.
  - destruct (3 <=? Z.of_nat (List.length (first :: second :: more)))
      eqn:Hcount.
    + assert (more <> []) as Hmore.
      { intros ->. simpl in Hcount. discriminate. }
      cbn [nth].
      destruct ((1 <=? JS.length first)
                && match charCodeAt0 first with
                   | Some code => code =? 12
                   | None => false
                   end) eqn:Hfirst.
      * apply formFeed_first in Hfirst as [rest1 ->]. cbn [andb].
        unfold JS.startsWith.
        destruct (String.prefix "* Micro Focus COBOL " second) eqn:Hsecond.
        -- apply prefix_append in Hsecond as [rest2 ->].
           split; [intros Heq; injection Heq as <-|intros (-> & _); reflexivity].
           split; [reflexivity|]. split; [exact Hl|].
           exists rest1, rest2, more. auto.
        -- split; [discriminate|].
           intros (_ & _ & r1 & r2 & m & Hd & _).
           injection Hd as _ Hs _.
           assert (String.prefix "* Micro Focus COBOL " second = true) as Hp
             by (apply prefix_append; exists r2; exact Hs).
           congruence.
      * cbn [andb]. split; [discriminate|].
        intros (_ & _ & r1 & r2 & m & Hd & _). injection Hd as Hf _ _.
        assert ((1 <=? JS.length first)
                && match charCodeAt0 first with
                   | Some code => code =? 12
                   | None => false
                   end = true) as Hp
          by (apply formFeed_first; exists r1; exact Hf).
        congruence.
    + split; [discriminate|].
      intros (_ & _ & r1 & r2 & m & Hd & Hm). injection Hd as _ _ Hmore.
      subst more. destruct m as [|x m]; [contradiction|].
      simpl List.length in Hcount. apply Z.leb_gt in Hcount. lia.
Qed.

Lemma onDidOpenTextDocument_again (doc : TextDocument) :
  onDidOpenTextDocument (onDidOpenTextDocument doc)
  = onDidOpenTextDocument doc.
Proof.
  unfold onDidOpenTextDocument.
  destruct (flip_plaintext doc) as [l|] eqn:Hf.
  - apply flip_plaintext_Some in Hf as (-> & _). reflexivity.
  - rewrite Hf. reflexivity.
Qed.

(** X17. [flip_plaintext] changes nothing but the language of a document,
    and only for a plain-text document of three lines or more whose first
    line starts with a form feed and whose second line starts with the
    banner of the Micro Focus compiler: its language becomes
    [COBOL_LISTFILE]. Every other document is left as it is, and the
    document opened again under the new language is not changed a second
    time. *)
Theorem listing_language_set_once (doc : TextDocument) :
  lines (onDidOpenTextDocument doc) = lines doc
  /\ (languageId doc = "plaintext" /\ isListing doc ->
      languageId (onDidOpenTextDocument doc) = "COBOL_LISTFILE")
  /\ (~ (languageId doc = "plaintext" /\ isListing doc) ->
      onDidOpenTextDocument doc = doc)
  /\ onDidOpenTextDocument (onDidOpenTextDocument doc)
     = onDidOpenTextDocument doc
  /\ (forall textDocuments,
        doc ∈ textDocuments ->
        onDidOpenTextDocument doc ∈ flipOpened textDocuments
        /\ flipOpened (flipOpened textDocuments) = flipOpened textDocuments).
Proof.
  split; [|split; [|split; [|split]]].
  - unfold onDidOpenTextDocument. destruct (flip_plaintext doc); reflexivity.
  - intros [Hp Hl]. unfold onDidOpenTextDocument.
    rewrite (proj2 (flip_plaintext_Some doc "COBOL_LISTFILE"))
      by (split; [reflexivity | split; assumption]).
    reflexivity.
  - intros Hnot. unfold onDidOpenTextDocument.
    destruct (flip_plaintext doc) as [l|] eqn:Hf; [|reflexivity].
    apply flip_plaintext_Some in Hf as (_ & Hp & Hl). tauto.
  - apply onDidOpenTextDocument_again.
  - intros textDocuments Hin. unfold flipOpened. split.
    + apply (list_elem_of_fmap_2 onDidOpenTextDocument). exact Hin.
    + rewrite List.map_map. apply List.map_ext.
      intros d. apply onDidOpenTextDocument_again.
Qed.

(** X17, instance: a listing of three lines is flipped, one of two lines
    is not. *)
Lemma listing_language_set_once_witness :
  languageId (onDidOpenTextDocument listing1) = "COBOL_LISTFILE"
  /\ onDidOpenTextDocument shortListing = shortListing.
Proof.
  split.
  - apply (proj1 (proj2 (listing_language_set_once listing1))).
    split; [reflexivity|].
    exists "", "           V6.0 revision 000",
      ["     1 identification division."].
    split; [reflexivity | discriminate].
  - apply (proj1 (proj2 (proj2 (listing_language_set_once shortListing)))).
    intros [_ (rest1 & rest2 & more & Hl & Hm)].
    injection Hl as _ _ Hmore. congruence.
Defined.

End ListingFacts.

(** ** The commands *)

Module CommandsFacts.
Import Commands.

(** Membership in a list that is written out. *)
Ltac elem_cases H :=
  repeat match type of H with
         | _ ∈ [] => inversion H
         | _ ∈ _ :: _ => apply elem_of_cons in H as [H|H]
         end.

Lemma onCobolEditor_elem (body : TextEditor -> list Call)
    (env : Environment) (c : Call) :
  c ∈ onCobolEditor body env ->
  exists editor,
    activeTextEditor env = Some editor
    /\ isCobolLangid (languageId editor) = true
    /\ c ∈ body editor.
Proof.
  unfold onCobolEditor. destruct (activeTextEditor env) as [editor|];
    [|intros Hc; inversion Hc].
  cbv zeta. destruct (isCobolLangid (languageId editor)) eqn:Hl;
    [|intros Hc; inversion Hc].
  intros Hc. exists editor. auto.
Qed.

Lemma guarded_other (env : Environment) (c : Call) :
  editorArgument c = None -> c <> commenter_processCommentLine ->
  guarded env c.
Proof.
  intros He Hc. split; [intros editor Heq; congruence | contradiction].
Qed.

Lemma guarded_onCobolEditor (body : TextEditor -> list Call)
    (env : Environment) (c : Call) :
  (forall editor c', c' ∈ body editor ->
                     c' <> commenter_processCommentLine
                     /\ forall e, editorArgument c' = Some e -> e = editor) ->
  c ∈ onCobolEditor body env -> guarded env c.
Proof.
  intros Hbody Hc.
  apply onCobolEditor_elem in Hc as (editor & Ha & Hl & Hc).
  destruct (Hbody editor c Hc) as [Hne Harg].
  split; [|contradiction].
  intros e He. rewrite (Harg e He). auto.
Qed.

Ltac guarded_body :=
  let editor := fresh "editor" in
  let c := fresh "c" in
  let Hc := fresh "Hc" in
  intros editor c Hc; elem_cases Hc; subst c;
  (split; [discriminate | intros e He; injection He as <-; reflexivity]).

Lemma commentLine_guarded (env : Environment) (c : Call) :
  c ∈ commentLine env -> guarded env c.
Proof.
  unfold commentLine. destruct (activeTextEditor env) as [editor|] eqn:Ha.
  - cbv zeta. destruct (isCobolLangid (languageId editor)) eqn:Hl;
      [|intros Hc; inversion Hc].
    destruct (isLineCommentEnabled env) eqn:Hen; intros Hc; elem_cases Hc;
      subst c.
    + split; [discriminate|]. intros _. split; [|exact Hen].
      exists editor. auto.
    + apply guarded_other; [reflexivity | discriminate].
  - intros Hc. elem_cases Hc. subst c.
    apply guarded_other; [reflexivity | discriminate].
Qed.

Lemma changeLanguageTo_guarded (languageId : string) (env : Environment)
    (c : Call) :
  c ∈ changeLanguageTo languageId env -> guarded env c.
Proof.
  unfold changeLanguageTo. destruct (activeTextEditor env) as [act|];
    intros Hc; elem_cases Hc; subst c.
  apply guarded_other; [reflexivity | discriminate].
Qed.

Lemma insertIgnoreCommentLine_guarded (env : Environment) (c : Call) :
  c ∈ insertIgnoreCommentLineCommand env -> guarded env c.
Proof.
  unfold insertIgnoreCommentLineCommand.
  destruct (insertIgnoreCommentLine_arguments (answers env))
    as [[docUri offset] code].
  intros Hc. elem_cases Hc. subst c.
  apply guarded_other; [reflexivity | discriminate].
Qed.

Lemma changeSourceFormat_calls (selection : option string) (c : Call) :
  c ∈ changeSourceFormat selection ->
  c = commands_executeCommand "workbench.action.openWorkspaceSettings".
Proof.
  unfold changeSourceFormat. cbv zeta.
  destruct selection as [answer|]; [|intros Hc; inversion Hc].
  destruct (String.eqb "Open Settings" answer); [|intros Hc; inversion Hc].
  cbn [workspace_getWorkspaceFolder]. intros Hc. elem_cases Hc. exact Hc.
Qed.

Lemma changeSourceFormat_guarded (env : Environment) (c : Call) :
  c ∈ changeSourceFormatCommand env -> guarded env c.
Proof.
  unfold changeSourceFormatCommand. intros Hc.
  apply changeSourceFormat_calls in Hc as ->.
  apply guarded_other; [reflexivity | discriminate].
Qed.

Lemma syntaxCheck_calls (env : Environment) (c : Call) :
  c ∈ syntaxCheck env ->
  (exists task, c = tasks_executeTask task)
  \/ (exists message, c = logMessage message).
Proof.
  unfold syntaxCheck.
  destruct (fetchTasks_result (answers env)) as [fetchedTasks|reason].
  - intros Hc. apply list_elem_of_fmap in Hc as (task & -> & _).
    left. exists task. reflexivity.
  - intros Hc. elem_cases Hc. right. eexists. exact Hc.
Qed.

Lemma syntaxCheck_guarded (env : Environment) (c : Call) :
  c ∈ syntaxCheck env -> guarded env c.
Proof.
  intros Hc. apply syntaxCheck_calls in Hc as [[task ->]|[message ->]];
    (apply guarded_other; [reflexivity | discriminate]).
Qed.

Lemma mfurunMenu_guarded (env : Environment) (c : Call) :
  c ∈ mfurunMenuCommand env -> guarded env c.
Proof.
  unfold mfurunMenuCommand.
  destruct (unitTestTerminal (answers env)); cbn [app]; intros Hc;
    elem_cases Hc; subst c;
    (apply guarded_other; [reflexivity | discriminate]).
Qed.

(** What [resequenceColumnNumbers] calls, and when. *)
Lemma resequenceColumnNumbers_calls (env : Environment) (c : Call) :
  c ∈ resequenceColumnNumbersCommands env ->
  onCobolSource env
  /\ ((exists startValue incrementValue,
         c = utils_resequenceColumnNumbers
               (activeTextEditor_then (answers env))
               startValue incrementValue)
      \/ c = window_showErrorMessage "Sorry invalid re-sequence given").
Proof.
  unfold resequenceColumnNumbersCommands, onCobolSource.
  destruct (activeTextEditor env) as [editor|]; [|intros Hc; inversion Hc].
  cbv zeta. destruct (isCobolLangid (languageId editor)) eqn:Hl;
    [|intros Hc; inversion Hc].
  destruct (showInputBox_value (answers env)) as [value|];
    [|intros Hc; inversion Hc].
  match goal with
  | |- c ∈ (if ?b then _ else _) -> _ => destruct b
  end; intros Hc; elem_cases Hc; subst c.
  - split; [exists editor; auto|]. left. eauto.
  - split; [exists editor; auto|]. right. reflexivity.
Qed.

(** Every registered handler but the one of [resequenceColumnNumbers] is
    guarded. *)
Lemma registered_guarded :
  Forall
    (fun entry =>
       entry.1 <> "cobolplugin.resequenceColumnNumbers" ->
       forall env c, c ∈ entry.2 env -> guarded env c)
    registerCommand.
Proof.
  unfold registerCommand.
  repeat (apply Forall_cons; split;
    [intros Hid env c Hc; cbn [fst snd] in Hid, Hc;
     first
       [ solve [exfalso; apply Hid; reflexivity]
       | exact (commentLine_guarded env c Hc)
       | exact (changeLanguageTo_guarded _ env c Hc)
       | exact (insertIgnoreCommentLine_guarded env c Hc)
       | exact (changeSourceFormat_guarded env c Hc)
       | exact (syntaxCheck_guarded env c Hc)
       | exact (mfurunMenu_guarded env c Hc)
       | refine (guarded_onCobolEditor _ env c _ Hc); guarded_body
       | (cbv beta delta
            [move2pdCommand move2ddCommand move2wsCommand
             move2anyforwardCommand move2anybackwardsCommand tabCommand
             unTabCommand toggleCOBOLMargin processAllFilesInWorkspace
             dumpMetadata clearMetaDataCommand
             migrateCopybooksToWorkspaceCommand] in Hc;
          try destruct (isTabstopEnabled env);
          try destruct (activeTextEditor env);
          elem_cases Hc; subst c;
          (apply guarded_other; [reflexivity | discriminate])) ]
    |]).
  apply Forall_nil_2.
Qed.

Lemma lookup_resequenceColumnNumbers (h : Handler) :
  ("cobolplugin.resequenceColumnNumbers", h) ∈ registerCommand ->
  h = resequenceColumnNumbersCommands.
Proof.
  unfold registerCommand. intros Hin. elem_cases Hin;
    apply pair_equal_spec in Hin as [Hid Hh];
    first [discriminate Hid | exact Hh].
Qed.

(** X18. Of the 39 registered commands, every one but
    [cobolplugin.resequenceColumnNumbers] hands the active editor to
    [COBOLUtils] or to the documentation generator only when the language
    of its document is COBOL, OpenCOBOL or ACUCOBOL, and calls the line
    commenter only then and when line comments are enabled.
    [cobolplugin.resequenceColumnNumbers] does something only when the
    editor that is active at its start is on such a source, and never
    calls the line commenter; but the editor it hands to [COBOLUtils] is
    the one that is active when the input box is answered, whose language
    is not tested: it can be an editor on a source of another language. *)
Theorem text_commands_on_cobol_sources :
  List.length registerCommand = 39%nat
  /\ (forall (id : string) (h : Handler) (env : Environment) (c : Call),
        (id, h) ∈ registerCommand ->
        id <> "cobolplugin.resequenceColumnNumbers" ->
        c ∈ h env ->
        (forall editor, editorArgument c = Some editor ->
                        activeTextEditor env = Some editor
                        /\ isCobolLangid (languageId editor) = true)
        /\ (c = commenter_processCommentLine ->
            onCobolSource env /\ isLineCommentEnabled env = true))
  /\ (forall (h : Handler) (env : Environment) (c : Call),
        ("cobolplugin.resequenceColumnNumbers", h) ∈ registerCommand ->
        c ∈ h env ->
        onCobolSource env
        /\ c <> commenter_processCommentLine
        /\ (forall editor, editorArgument c = Some editor ->
                           activeTextEditor_then (answers env)
                           = Some editor))
  /\ (exists (h : Handler) (env : Environment) (editor : TextEditor)
        (startValue incrementValue : Number),
        ("cobolplugin.resequenceColumnNumbers", h) ∈ registerCommand
        /\ utils_resequenceColumnNumbers (Some editor) startValue
             incrementValue ∈ h env
        /\ isCobolLangid (languageId editor) = false
        /\ activeTextEditor env <> Some editor).
Proof.
  split; [reflexivity|]. split; [|split].
  - intros id h env c Hin Hid Hc.
    pose proof (proj1 (Forall_forall _ _) registered_guarded (id, h) Hin)
      as Hg.
    exact (Hg Hid env c Hc).
  - intros h env c Hin Hc.
    rewrite (lookup_resequenceColumnNumbers h Hin) in Hc.
    apply resequenceColumnNumbers_calls in Hc
      as [Hon [(startValue & incrementValue & ->)| ->]].
    + split; [exact Hon|]. split; [discriminate|].
      intros editor He. exact He.
    + split; [exact Hon|]. split; [discriminate|].
      intros editor He. discriminate He.
  - exists resequenceColumnNumbersCommands, cobolEditor,
      (mkTextEditor "markdown"), (Number_parseInt (Some "10")),
      (Number_parseInt (Some "10")).
    split; [unfold registerCommand; in_list|].
    split; [apply list_elem_of_here|].
    split; [reflexivity | discriminate].
Qed.

(** X18, instance: the command that removes the comments, on a COBOL
    source. *)
Lemma text_commands_on_cobol_sources_witness :
  let c := utils_RemoveComments (mkTextEditor "COBOL") in
  (forall editor, editorArgument c = Some editor ->
                  activeTextEditor cobolEditor = Some editor
                  /\ isCobolLangid (languageId editor) = true)
  /\ (c = commenter_processCommentLine ->
      onCobolSource cobolEditor /\ isLineCommentEnabled cobolEditor = true).
Proof.
  intros c.
  apply (proj1 (proj2 text_commands_on_cobol_sources)
           "cobolplugin.removeAllComments" removeAllCommentsCommand
           cobolEditor c);
    [in_list | discriminate | apply list_elem_of_here].
Defined.

(** The input box answered with [10 10] when an editor on a Markdown file
    has become the active one: that editor is resequenced. *)
Example resequence_other_editor :
  resequenceColumnNumbersCommands cobolEditor
  = [utils_resequenceColumnNumbers (Some (mkTextEditor "markdown"))
       (Number_parseInt (Some "10")) (Number_parseInt (Some "10"))]
  /\ split "10 10" = ["10"; "10"]
  /\ split "5" = ["5"]
  /\ split " 7  2" = [""; "7"; ""; "2"].
Proof. repeat split. Qed.

Example gnucobol_source_untouched :
  removeAllCommentsCommand gnuEditor = []
  /\ makeKeywordsUppercaseCommands gnuEditor = []
  /\ commentLine gnuEditor = [].
Proof. repeat split. Qed.

Ltac unfold_handlers H :=
  cbv beta delta
    [move2pdCommand move2ddCommand move2wsCommand move2anyforwardCommand
     move2anybackwardsCommand tabCommand unTabCommand commentLine
     changeLanguageToAcu changeLanguageToCOBOL changeLanguageToOpenCOBOL
     changeLanguageToGnuCOBOL changeLanguageTo toggleCOBOLMargin
     processAllFilesInWorkspace dumpMetadata clearMetaDataCommand
     removeAllCommentsCommand removeIdentificationAreaCommand
     removeColumnNumbersCommand makeKeywordsLowercaseCommands
     makeKeywordsUppercaseCommands makeKeywordsCamelCaseCommands
     makeFieldsLowercaseCommand makeFieldsUppercaseCommand
     makeFieldsCamelCaseCommand makePerformTargetsLowerCaseCommand
     makePerformTargetsUpperCaseCommand makePerformTargetsCamelCaseCommand
     extractSelectionToParagraphCommand extractSelectionToSectionCommand
     extractSelectionToCopybookCommand showDocumentationCommand
     generateCOBOLSourceTagCommand migrateCopybooksToWorkspaceCommand
     onCobolEditor] in H.

(** The commands that take arguments or wait for an answer fold
    nothing. *)
Lemma answered_commands_fold_nothing (env : Environment)
    (editor : TextEditor) (action : FoldAction) (style : FoldStyle) :
  (utils_foldToken editor action style
   ∉ insertIgnoreCommentLineCommand env)
  /\ (utils_foldToken editor action style ∉ changeSourceFormatCommand env)
  /\ (utils_foldToken editor action style ∉ syntaxCheck env)
  /\ (utils_foldToken editor action style ∉ mfurunMenuCommand env)
  /\ (utils_foldToken editor action style
      ∉ resequenceColumnNumbersCommands env).
Proof.
  repeat split; intros Hc.
  - unfold insertIgnoreCommentLineCommand in Hc.
    destruct (insertIgnoreCommentLine_arguments (answers env))
      as [[docUri offset] code].
    elem_cases Hc. discriminate Hc.
  - apply changeSourceFormat_calls in Hc. discriminate Hc.
  - apply syntaxCheck_calls in Hc as [[task Hc]|[message Hc]];
      discriminate Hc.
  - unfold mfurunMenuCommand in Hc.
    destruct (unitTestTerminal (answers env)); cbn [app] in Hc;
      elem_cases Hc; discriminate Hc.
  - apply resequenceColumnNumbers_calls in Hc
      as [_ [(startValue & incrementValue & Hc)|Hc]]; discriminate Hc.
Qed.

Lemma registered_fields :
  Forall
    (fun entry =>
       forall env editor,
         utils_foldToken editor ConstantsOrVariables LowerCase
         ∉ entry.2 env)
    registerCommand.
Proof.
  unfold registerCommand.
  repeat (apply Forall_cons; split;
    [intros env editor Hc; cbn [snd] in Hc;
     first
       [ exact (proj1 (answered_commands_fold_nothing env editor _ _) Hc)
       | exact (proj1 (proj2 (answered_commands_fold_nothing env editor _ _))
                  Hc)
       | exact (proj1 (proj2 (proj2
                  (answered_commands_fold_nothing env editor _ _))) Hc)
       | exact (proj1 (proj2 (proj2 (proj2
                  (answered_commands_fold_nothing env editor _ _)))) Hc)
       | exact (proj2 (proj2 (proj2 (proj2
                  (answered_commands_fold_nothing env editor _ _)))) Hc)
       | (unfold_handlers Hc; cbv zeta in Hc;
          try destruct (activeTextEditor env) as [active|];
          try destruct (isCobolLangid (languageId active));
          try destruct (isTabstopEnabled env);
          try destruct (isLineCommentEnabled env);
          elem_cases Hc; discriminate Hc) ]
    |]).
  apply Forall_nil_2.
Qed.

Lemma lookup_makeFieldsLowercase (h : Handler) :
  ("cobolplugin.makeFieldsLowercase", h) ∈ registerCommand ->
  h = makeFieldsLowercaseCommand.
Proof.
  unfold registerCommand. intros Hin. elem_cases Hin;
    apply pair_equal_spec in Hin as [Hid Hh];
    first [discriminate Hid | exact Hh].
Qed.

(** X19. No registered command folds the names of constants and variables
    to lower case: the command [cobolplugin.makeFieldsLowercase] asks
    [foldToken] for upper case, as [cobolplugin.makeFieldsUppercase]
    does. *)
Theorem fields_never_lowercased (id : string) (h : Handler)
    (env : Environment) :
  (id, h) ∈ registerCommand ->
  (forall editor,
     utils_foldToken editor ConstantsOrVariables LowerCase ∉ h env)
  /\ (id = "cobolplugin.makeFieldsLowercase" ->
      forall editor,
        activeTextEditor env = Some editor ->
        isCobolLangid (languageId editor) = true ->
        h env = [utils_foldToken editor ConstantsOrVariables UpperCase]).
Proof.
  intros Hin. split.
  - intros editor.
    exact (proj1 (Forall_forall _ _) registered_fields (id, h) Hin
             env editor).
  - intros -> editor Ha Hl.
    rewrite (lookup_makeFieldsLowercase h Hin).
    unfold makeFieldsLowercaseCommand, onCobolEditor.
    rewrite Ha. cbv zeta. rewrite Hl. reflexivity.
Qed.

(** X19, instance: the command on a COBOL source. *)
Lemma fields_never_lowercased_witness :
  makeFieldsLowercaseCommand cobolEditor
  = [utils_foldToken (mkTextEditor "COBOL") ConstantsOrVariables UpperCase].
Proof.
  assert (("cobolplugin.makeFieldsLowercase", makeFieldsLowercaseCommand)
          ∈ registerCommand) as Hin by in_list.
  exact (proj2 (fields_never_lowercased _ _ cobolEditor Hin) eq_refl
           (mkTextEditor "COBOL") eq_refl eq_refl).
Defined.

(** X20. The command [cobolplugin.commentline] does nothing at all when
    the active editor is on a source that is not COBOL, OpenCOBOL or
    ACUCOBOL; it falls back to the comment action of the editor only when
    no editor is active, or on such a source when line comments are
    disabled. *)
Theorem comment_line_outcomes (env : Environment) :
  (commentLine env = []
   <-> exists editor,
         activeTextEditor env = Some editor
         /\ isCobolLangid (languageId editor) = false)
  /\ (commands_executeCommand "editor.action.commentLine" ∈ commentLine env
      <-> activeTextEditor env = None
          \/ (onCobolSource env /\ isLineCommentEnabled env = false)).
Proof.
  unfold commentLine, onCobolSource.
  destruct (activeTextEditor env) as [editor|]; cbv zeta.
  - destruct (isCobolLangid (languageId editor)) eqn:Hl;
      [destruct (isLineCommentEnabled env) eqn:Hen|].
    + split; split.
      * discriminate.
      * intros (e & He & Hf). injection He as <-. congruence.
      * intros Hc. elem_cases Hc. discriminate Hc.
      * intros [Hn|[_ Hf]]; discriminate.
    + split; split.
      * discriminate.
      * intros (e & He & Hf). injection He as <-. congruence.
      * intros _. right. split; [exists editor; auto | reflexivity].
      * intros _. apply list_elem_of_here.
    + split; split.
      * intros _. exists editor. auto.
      * reflexivity.
      * intros Hc. inversion Hc.
      * intros [Hn|[(e & He & Ht) _]]; [discriminate|].
        injection He as <-. congruence.
  - split; split.
    + discriminate.
    + intros (e & He & _). discriminate.
    + intros _. left. reflexivity.
    + intros _. apply list_elem_of_here.
Qed.

(** X22. The command [cobolplugin.change_source_format] never opens the
    global settings: it opens the settings of the workspace exactly when
    the answer to its warning is [Open Settings], and does nothing
    otherwise. The test that would choose the global settings looks at the
    function [workspace.getWorkspaceFolder], not at a folder. *)
Theorem global_settings_never_opened (selection : option string) :
  (commands_executeCommand "workbench.action.openGlobalSettings"
   ∉ changeSourceFormat selection)
  /\ (changeSourceFormat selection
      = [commands_executeCommand "workbench.action.openWorkspaceSettings"]
      <-> selection = Some "Open Settings")
  /\ (selection <> Some "Open Settings" -> changeSourceFormat selection = []).
Proof.
  unfold changeSourceFormat. cbv zeta.
  destruct selection as [answer|].
  - destruct (String.eqb_spec "Open Settings" answer) as [<-|Hne].
    + cbn [workspace_getWorkspaceFolder]. split; [|split].
      * intros Hc. elem_cases Hc. discriminate Hc.
      * split; reflexivity.
      * intros Hne. contradiction.
    + split; [|split].
      * intros Hc. inversion Hc.
      * split; [discriminate | intros Heq; congruence].
      * reflexivity.
  - split; [|split].
    + intros Hc. inversion Hc.
    + split; discriminate.
    + reflexivity.
Qed.

End CommandsFacts.

(** ** The terminal of the unit tests *)

Module UnitTestFacts.
Import UnitTest.

Lemma alter_last {A} (f : A -> A) (l : list A) (x : A) :
  alter f (List.length l) (l ++ [x]) = l ++ [f x].
Proof.
  induction l as [|y l IH]; [reflexivity|].
  simpl. change (y :: alter f (List.length l) (l ++ [x]) = y :: l ++ [f x]).
  rewrite IH. reflexivity.
Qed.

(** Once the terminal exists, a run only adds its line to it. *)
Lemma mfurunMenu_sends (r : Run) (others : list Terminal)
    (sent : list string) :
  mfurunMenu r
    (mkState (others ++ [mkTerminal terminalName sent])
       (Some (List.length others)))
  = mkState (others ++ [mkTerminal terminalName (sent ++ [commandLine r])])
      (Some (List.length others)).
Proof.
  unfold mfurunMenu, sendText. cbn [unitTestTerminal terminals].
  rewrite alter_last. reflexivity.
Qed.

Lemma runAll_sends (runs : list Run) (others : list Terminal)
    (sent : list string) :
  runAll runs
    (mkState (others ++ [mkTerminal terminalName sent])
       (Some (List.length others)))
  = mkState
      (others
         ++ [mkTerminal terminalName (sent ++ List.map commandLine runs)])
      (Some (List.length others)).
Proof.
  revert sent. induction runs as [|r runs IH]; intros sent.
  - simpl. rewrite app_nil_r. reflexivity.
  - change (runAll (r :: runs) ?st) with (runAll runs (mfurunMenu r st)).
    rewrite mfurunMenu_sends, IH. simpl List.map.
    rewrite <- app_assoc. reflexivity.
Qed.

Lemma mfurunMenu_first (r : Run) (others : list Terminal) :
  mfurunMenu r (start others)
  = mkState (others ++ [mkTerminal terminalName [commandLine r]])
      (Some (List.length others)).
Proof.
  unfold mfurunMenu, start, createTerminal, sendText.
  cbn [unitTestTerminal terminals]. rewrite alter_last. reflexivity.
Qed.

(** X21. However often the command [cobolplugin.mfurunMenu] runs, one
    terminal named [UnitTest] is created, by the first run, and every run
    sends its one line to that terminal, in the order of the runs; the
    other terminals of the window are left alone. *)
Theorem one_unit_test_terminal (runs : list Run) (others : list Terminal) :
  runAll runs (start others)
  = match runs with
    | [] => start others
    | _ => mkState
             (others
                ++ [mkTerminal terminalName (List.map commandLine runs)])
             (Some (List.length others))
    end.
Proof.
  destruct runs as [|r runs]; [reflexivity|].
  change (runAll (r :: runs) ?st) with (runAll runs (mfurunMenu r st)).
  rewrite mfurunMenu_first, runAll_sends. reflexivity.
Qed.

End UnitTestFacts.
